(** * Header/footer transplantation between .docx packages

    A shallow embedding of [app/docx_template_apply.py]: the zip packages are
    ordered lists of named entries, the three structured parts are element
    trees in the style of [xml.etree.ElementTree], and the file-level
    operation [apply_template_to_docx] runs over an explicit map of the
    regular files and set of the directories.  The document list and the
    batch run of the window of [app/main.py] come with it.

    The XML parser and serialiser ([ET.fromstring], [ET.tostring]) are
    Section variables: the development holds for every parser. *)

From Stdlib Require Import String Ascii List Bool Arith NArith Lia.
From Stdlib.Strings Require Import Byte.
From Stdlib Require Import Decimal DecimalString DecimalN.
Import ListNotations.
Open Scope string_scope.
Open Scope list_scope.

(* ================================================================== *)
(** ** Python [str] operations used by the program *)

Module Str.

(** [s.startswith(p)] *)
Definition startswith (p s : string) : bool := String.prefix p s.

(** [s.endswith(p)] *)
Definition endswith (p s : string) : bool :=
  let n := String.length s in
  let m := String.length p in
  if Nat.leb m n then String.eqb (substring (n - m) m s) p else false.

Definition lower_ascii (c : ascii) : ascii :=
  let n := nat_of_ascii c in
  if Nat.leb 65 n && Nat.leb n 90 then ascii_of_nat (n + 32) else c.

(** [s.lower()], on the ASCII letters (names are UTF-8 byte strings: no
    other code point lowers to a character of ".docx"). *)
Fixpoint lower (s : string) : string :=
  match s with
  | EmptyString => EmptyString
  | String c r => String (lower_ascii c) (lower r)
  end.

(** The text after the last ['/'] of [s], when [s] has one. *)
Fixpoint after_last_slash (s : string) : option string :=
  match s with
  | EmptyString => None
  | String c r =>
      match after_last_slash r with
      | Some t => Some t
      | None => if Ascii.eqb c "/" then Some r else None
      end
  end.

(** [os.path.basename(s)] (posixpath: zip entry names use ['/']). *)
Definition basename (s : string) : string :=
  match after_last_slash s with
  | Some t => t
  | None => s
  end.

(** [str(i)] for a non-negative integer. *)
Definition of_N (i : N) : string := NilEmpty.string_of_uint (N.to_uint i).

(** [x in l] on a list of strings. *)
Definition mem (x : string) (l : list string) : bool :=
  existsb (String.eqb x) l.

(** [sorted(l)]: any stable sort under the total order of [str]; written
    as an insertion sort. *)
Fixpoint insert (x : string) (l : list string) : list string :=
  match l with
  | [] => [x]
  | y :: r => if String.leb x y then x :: y :: r else y :: insert x r
  end.

Definition sorted (l : list string) : list string :=
  fold_right insert [] l.

(** [m] is in [l] and no element of [l] is smaller. *)
Definition least (m : string) (l : list string) : Prop :=
  In m l /\ forall n, In n l -> String.leb m n = true.

Fixpoint has_slash (s : string) : bool :=
  match s with
  | EmptyString => false
  | String c r => Ascii.eqb c "/" || has_slash r
  end.

(** [s[:s.rfind('/') + 1]] *)
Fixpoint upto_last_slash (s : string) : string :=
  match s with
  | EmptyString => EmptyString
  | String c r =>
      if has_slash s then String c (upto_last_slash r) else EmptyString
  end.

Fixpoint all_slashes (s : string) : bool :=
  match s with
  | EmptyString => true
  | String c r => Ascii.eqb c "/" && all_slashes r
  end.

(** [s.rstrip('/')] *)
Fixpoint rstrip_slash (s : string) : string :=
  match s with
  | EmptyString => EmptyString
  | String c r =>
      if all_slashes s then EmptyString else String c (rstrip_slash r)
  end.

(** [os.path.dirname(s)] (posixpath) *)
Definition dirname (s : string) : string :=
  let head := upto_last_slash s in
  if all_slashes head then head else rstrip_slash head.

(** [os.path.join(a, b)] (posixpath) *)
Definition join (a b : string) : string :=
  if startswith "/" b then b
  else if String.eqb a "" || endswith "/" a then String.append a b
  else String.append a (String.append "/" b).

End Str.

(* ================================================================== *)
(** ** Element trees ([xml.etree.ElementTree.Element]) *)

Module Xml.

(** An element: its tag in Clark notation ([{namespace}local]), its
    attribute dictionary in insertion order, text, tail and children. *)
#[local] Unset Elimination Schemes.
Inductive element : Type :=
| Element (tag : string) (attrib : list (string * string))
          (text tail : option string) (children : list element).
#[local] Set Elimination Schemes.

Definition tag (e : element) : string :=
  match e with Element t _ _ _ _ => t end.
Definition attrib (e : element) : list (string * string) :=
  match e with Element _ a _ _ _ => a end.
Definition text (e : element) : option string :=
  match e with Element _ _ x _ _ => x end.
Definition tail (e : element) : option string :=
  match e with Element _ _ _ x _ => x end.
Definition children (e : element) : list element :=
  match e with Element _ _ _ _ c => c end.

Definition set_children (e : element) (cs : list element) : element :=
  match e with Element t a x y _ => Element t a x y cs end.

(** [ET.Element(tag)] *)
Definition new (t : string) : element := Element t [] None None [].

(** Dictionary lookup and update on an attribute list. *)
Fixpoint lookup (k : string) (a : list (string * string)) : option string :=
  match a with
  | [] => None
  | (k', v) :: r => if String.eqb k k' then Some v else lookup k r
  end.

Fixpoint update (k v : string) (a : list (string * string))
  : list (string * string) :=
  match a with
  | [] => [(k, v)]
  | (k', v') :: r =>
      if String.eqb k k' then (k', v) :: r else (k', v') :: update k v r
  end.

(** [e.get(k)] and [e.get(k, default)] *)
Definition get (e : element) (k : string) : option string :=
  lookup k (attrib e).
Definition get_default (e : element) (k d : string) : string :=
  match get e k with Some v => v | None => d end.

(** [e.set(k, v)] *)
Definition set (e : element) (k v : string) : element :=
  match e with Element t a x y c => Element t (update k v a) x y c end.

(** [parent.append(child)]; [ET.SubElement(parent, tag)] followed by
    [set] calls on the new child is [append parent child] with the
    attributes already set. *)
Definition append (parent child : element) : element :=
  set_children parent (children parent ++ [child]).

Definition has_tag (t : string) (e : element) : bool :=
  String.eqb (tag e) t.

(** [e.find(t)]: the first direct child with tag [t]. *)
Definition find (e : element) (t : string) : option element :=
  List.find (has_tag t) (children e).

(** [e.findall(t)]: the direct children with tag [t]. *)
Definition findall (e : element) (t : string) : list element :=
  filter (has_tag t) (children e).

(** The proper descendants of [e] in document order. *)
Fixpoint descendants (e : element) : list element :=
  match e with
  | Element _ _ _ _ cs => flat_map (fun c => c :: descendants c) cs
  end.

(** [e.findall('.//' + t)]: the proper descendants with tag [t]. *)
Definition findall_desc (e : element) (t : string) : list element :=
  filter (has_tag t) (descendants e).

End Xml.

(* ================================================================== *)
(** ** Exceptions and the error monad *)

(** The system calls of [apply_template_to_docx] that can raise [OSError]. *)
Inductive syscall : Type :=
| Mkstemp | ZipOpenRead | ZipOpenWrite | ZipWrite | MakeDirs | Move.

Inductive exception : Type :=
| ValueError
| KeyError
| ParseError
| FileNotFoundError
| BadZipFile
| ShutilError          (* [shutil.Error], an [OSError] *)
| UnicodeEncodeError   (* of [print], on a stream that cannot encode *)
| OSError (call : syscall)
| OutOfFuel.   (* only the bounded model of [while True] can raise it *)

Inductive result (A : Type) : Type :=
| Ok (a : A)
| Raise (e : exception).
Arguments Ok {A} a.
Arguments Raise {A} e.

Definition bind {A B} (m : result A) (k : A -> result B) : result B :=
  match m with
  | Ok a => k a
  | Raise e => Raise e
  end.

Notation "x <- m ;; k" := (bind m (fun x => k))
  (at level 61, m at next level, right associativity).
Notation "' p <- m ;; k" := (bind m (fun p => k))
  (at level 61, p pattern, m at next level, right associativity).

(** [for x in l: st = step(st, x)] where a step may raise. *)
Fixpoint for_each {A S} (step : S -> A -> result S) (l : list A) (st : S)
  : result S :=
  match l with
  | [] => Ok st
  | x :: r => st' <- step st x ;; for_each step r st'
  end.

(* ================================================================== *)
(** ** Zip packages ([zipfile.ZipFile]) *)

Module Zip.

Definition bytes : Type := list byte.

(** A package: its entries in the order of the archive. *)
Definition package : Type := list (string * bytes).

(** [z.namelist()] *)
Definition namelist (z : package) : list string := map fst z.

(** The entry [z.NameToInfo] keeps for a name: the last one written. *)
Fixpoint lookup (z : package) (name : string) : option bytes :=
  match z with
  | [] => None
  | (n, b) :: r =>
      match lookup r name with
      | Some b' => Some b'
      | None => if String.eqb n name then Some b else None
      end
  end.

(** [z.read(name)], [z.open(name).read()]: [KeyError] on a missing name. *)
Definition read (z : package) (name : string) : result bytes :=
  match lookup z name with
  | Some b => Ok b
  | None => Raise KeyError
  end.

(** [z.writestr(name, data)]: one more entry, also under a name that is
    already there. *)
Definition writestr (z : package) (name : string) (data : bytes) : package :=
  z ++ [(name, data)].

End Zip.

(* ================================================================== *)
(** ** The transform: [_replace_header_footer_parts] and its helpers *)

Module Docx.
Import Xml Zip.

Definition W_NS : string :=
  "http://schemas.openxmlformats.org/wordprocessingml/2006/main".
Definition R_NS : string :=
  "http://schemas.openxmlformats.org/officeDocument/2006/relationships".
Definition REL_NS : string :=
  "http://schemas.openxmlformats.org/package/2006/relationships".
Definition CT_NS : string :=
  "http://schemas.openxmlformats.org/package/2006/content-types".

(** [f'{{{ns}}}local'] *)
Definition qname (ns local : string) : string :=
  String.append "{" (String.append ns (String.append "}" local)).

Definition w_body : string := Eval cbv in qname W_NS "body".
Definition w_document : string := Eval cbv in qname W_NS "document".
Definition w_sectPr : string := Eval cbv in qname W_NS "sectPr".
Definition w_headerReference : string :=
  Eval cbv in qname W_NS "headerReference".
Definition w_footerReference : string :=
  Eval cbv in qname W_NS "footerReference".
Definition w_type : string := Eval cbv in qname W_NS "type".
Definition r_id : string := Eval cbv in qname R_NS "id".
Definition rel_Relationships : string :=
  Eval cbv in qname REL_NS "Relationships".
Definition rel_Relationship : string :=
  Eval cbv in qname REL_NS "Relationship".
Definition ct_Types : string := Eval cbv in qname CT_NS "Types".
Definition ct_Override : string := Eval cbv in qname CT_NS "Override".

Definition header_type_uri : string :=
  "http://schemas.openxmlformats.org/officeDocument/2006/relationships/header".
Definition footer_type_uri : string :=
  "http://schemas.openxmlformats.org/officeDocument/2006/relationships/footer".
Definition header_content_type : string :=
  "application/vnd.openxmlformats-officedocument.wordprocessingml.header+xml".
Definition footer_content_type : string :=
  "application/vnd.openxmlformats-officedocument.wordprocessingml.footer+xml".

(** *** Part classification (inner functions, lines 104-109) *)

Definition is_header_footer_part (n : string) : bool :=
  (Str.startswith "word/header" n || Str.startswith "word/footer" n)
  && Str.endswith ".xml" n.

Definition is_header_footer_rels (n : string) : bool :=
  let base := Str.basename n in
  Str.startswith "word/_rels/" n
  && (Str.startswith "header" base || Str.startswith "footer" base)
  && Str.endswith ".rels" base.

(** The names that reach the last branch of the copy loop (line 128). *)
Definition passthrough (n : string) : bool :=
  negb (String.eqb n "word/document.xml")
  && negb (String.eqb n "word/_rels/document.xml.rels")
  && negb (String.eqb n "[Content_Types].xml")
  && negb (is_header_footer_part n || is_header_footer_rels n).

(** *** Template parts: a [Dict[str, bytes]] in insertion order *)

Definition dict : Type := list (string * bytes).

Fixpoint dict_set (k : string) (v : bytes) (d : dict) : dict :=
  match d with
  | [] => [(k, v)]
  | (k', v') :: r =>
      if String.eqb k k' then (k', v) :: r else (k', v') :: dict_set k v r
  end.

Fixpoint dict_get (k : string) (d : dict) : option bytes :=
  match d with
  | [] => None
  | (k', v) :: r => if String.eqb k k' then Some v else dict_get k r
  end.

Definition keys (d : dict) : list string := map fst d.

(** A dictionary whose values are what the template reads at its keys. *)
Definition agrees (tpl : package) (d : dict) : Prop :=
  forall n b, dict_get n d = Some b -> lookup tpl n = Some b.

Definition is_tpl_header (item : string) : bool :=
  Str.startswith "word/header" item && Str.endswith ".xml" item.
Definition is_tpl_footer (item : string) : bool :=
  Str.startswith "word/footer" item && Str.endswith ".xml" item.

Definition _collect_headers_footers_from_template (tpl_zip : package)
  : result (dict * dict) :=
  for_each
    (fun (hf : dict * dict) item =>
       let (headers, footers) := hf in
       if is_tpl_header item then
         b <- read tpl_zip item ;; Ok (dict_set item b headers, footers)
       else if is_tpl_footer item then
         b <- read tpl_zip item ;; Ok (headers, dict_set item b footers)
       else Ok hf)
    (namelist tpl_zip) ([], []).

Definition _pick_first_part (parts : dict)
  : option string * option bytes :=
  match parts with
  | [] => (None, None)
  | _ :: _ =>
      match Str.sorted (keys parts) with
      | name :: _ => (Some name, dict_get name parts)
      | [] => (None, None)
      end
  end.

(** *** Media of the template (lines 78-84) *)

Definition _ensure_media_dependencies (src_zip tpl_zip out_zip : package)
           (parts : dict) : result package :=
  for_each
    (fun out item =>
       if Str.startswith "word/media/" item then
         if negb (Str.mem item (namelist out)) then
           b <- read tpl_zip item ;; Ok (writestr out item b)
         else Ok out
       else Ok out)
    (namelist tpl_zip) out_zip.

(** *** Copy of the source entries (lines 98-128) *)

Record buffers : Type := Buffers {
  doc_xml_bytes : option bytes;
  doc_rels_bytes : option bytes;
  content_types_bytes : option bytes;
  copied : package
}.

Definition copy_entry (src_zip : package) (st : buffers) (n : string)
  : result buffers :=
  if String.eqb n "word/document.xml" then
    b <- read src_zip n ;;
    Ok (Buffers (Some b) (doc_rels_bytes st) (content_types_bytes st)
                (copied st))
  else if String.eqb n "word/_rels/document.xml.rels" then
    b <- read src_zip n ;;
    Ok (Buffers (doc_xml_bytes st) (Some b) (content_types_bytes st)
                (copied st))
  else if String.eqb n "[Content_Types].xml" then
    b <- read src_zip n ;;
    Ok (Buffers (doc_xml_bytes st) (doc_rels_bytes st) (Some b) (copied st))
  else if is_header_footer_part n || is_header_footer_rels n then
    Ok st
  else
    b <- read src_zip n ;;
    Ok (Buffers (doc_xml_bytes st) (doc_rels_bytes st)
                (content_types_bytes st) (writestr (copied st) n b)).

Definition copy_source (src_zip : package) : result buffers :=
  for_each (copy_entry src_zip) (namelist src_zip)
           (Buffers None None None []).

(** What one turn of the copy loop stages for the name [n]. *)
Definition staged (src_zip : package) (n : string) : package :=
  if passthrough n then
    match lookup src_zip n with
    | Some b => [(n, b)]
    | None => []
    end
  else [].

(** *** The selected part and its own manifest (lines 142-163) *)

Definition install_part (tpl_zip out_zip : package)
           (canonical canonical_rels : string)
           (tpl_name : option string) (tpl_bytes : option bytes) : package :=
  match tpl_bytes with
  | None => out_zip
  | Some data =>
      let out1 := writestr out_zip canonical data in
      match tpl_name with
      | Some name =>
          if String.eqb name "" then out1
          else
            let tpl_rels :=
              String.append "word/_rels/"
                (String.append (Str.basename name) ".rels") in
            match read tpl_zip tpl_rels with
            | Ok d => writestr out1 canonical_rels d
            | Raise _ => out1    (* except KeyError: pass *)
            end
      | None => out1
      end
  end.

(** The output package in terms of what was staged before the selected
    parts are installed: the writes of lines 143-161 and 257-259. *)
Definition written (tpl_zip staged_zip : package)
           (h_name : option string) (h_bytes : option bytes)
           (f_name : option string) (f_bytes : option bytes)
           (ct rels doc : bytes) : package :=
  writestr
    (writestr
       (writestr
          (install_part tpl_zip
             (install_part tpl_zip staged_zip
                "word/header1.xml" "word/_rels/header1.xml.rels"
                h_name h_bytes)
             "word/footer1.xml" "word/_rels/footer1.xml.rels"
             f_name f_bytes)
          "[Content_Types].xml" ct)
       "word/_rels/document.xml.rels" rels)
    "word/document.xml" doc.

(** The names the transform writes itself. *)
Definition reserved (n : string) : Prop :=
  n = "word/header1.xml" \/ n = "word/_rels/header1.xml.rels"
  \/ n = "word/footer1.xml" \/ n = "word/_rels/footer1.xml.rels"
  \/ n = "[Content_Types].xml" \/ n = "word/_rels/document.xml.rels"
  \/ n = "word/document.xml".

(** *** The relationship manifest (lines 165-203) *)

Definition is_relationship (rel : element) : bool :=
  Str.endswith "Relationship" (tag rel).

Definition is_header_footer_type (rel : element) : bool :=
  let rtype := get_default rel "Type" "" in
  Str.endswith "/header" rtype || Str.endswith "/footer" rtype.

(** [used_ids.add(rid)] when [rid] is neither [None] nor empty. *)
Definition add_id (rel : element) (used_ids : list string) : list string :=
  match get rel "Id" with
  | Some rid => if String.eqb rid "" then used_ids else rid :: used_ids
  | None => used_ids
  end.

(** The loop over [list(rels_root)]: the ids seen, and the children that
    are not removed. *)
Fixpoint strip_relationships (rels : list element) (used_ids : list string)
  : list string * list element :=
  match rels with
  | [] => (used_ids, [])
  | rel :: rest =>
      if is_relationship rel then
        let (used, kept) := strip_relationships rest (add_id rel used_ids) in
        if is_header_footer_type rel then (used, kept)
        else (used, rel :: kept)
      else
        let (used, kept) := strip_relationships rest used_ids in
        (used, rel :: kept)
  end.

Definition candidate (i : N) : string := String.append "rId" (Str.of_N i).

(** [new_rid]: the [while True] loop, bounded by [fuel] iterations. *)
Fixpoint new_rid_from (fuel : nat) (i : N) (used_ids : list string)
  : result (string * list string) :=
  match fuel with
  | O => Raise OutOfFuel
  | S fuel' =>
      let cand := candidate i in
      if negb (Str.mem cand used_ids) then Ok (cand, cand :: used_ids)
      else new_rid_from fuel' (i + 1) used_ids
  end.

Definition new_rid (used_ids : list string)
  : result (string * list string) :=
  new_rid_from (S (List.length used_ids)) 9001 used_ids.

Definition relationship (rid type target : string) : element :=
  Element rel_Relationship
          [("Id", rid); ("Type", type); ("Target", target)] None None [].

(** Allocate an id and append the relationship when the template gave a
    part of the kind (lines 191-196 and 198-203). *)
Definition add_relationship (tpl_bytes : option bytes)
           (type target : string) (st : element * list string)
  : result (element * list string * option string) :=
  let (rels_root, used_ids) := st in
  match tpl_bytes with
  | None => Ok (rels_root, used_ids, None)
  | Some _ =>
      '(rid, used) <- new_rid used_ids ;;
      Ok (append rels_root (relationship rid type target), used, Some rid)
  end.

(** *** The section properties of the document (lines 205-233) *)

Definition is_reference (child : element) : bool :=
  String.eqb (tag child) w_headerReference
  || String.eqb (tag child) w_footerReference.

Definition reference (t rid : string) : element :=
  Element t [(w_type, "default"); (r_id, rid)] None None [].

Definition new_references (t : string) (rel_id : option string)
  : list element :=
  match rel_id with
  | Some rid => [reference t rid]
  | None => []
  end.

(** The body of [for sect in sect_prs]. *)
Definition update_sect (header_rel_id footer_rel_id : option string)
           (sect : element) : element :=
  set_children sect
    (filter (fun child => negb (is_reference child)) (children sect)
     ++ new_references w_headerReference header_rel_id
     ++ new_references w_footerReference footer_rel_id).

(** The loop over [sect_prs]: each visit changes the child list of the
    visited element only, so every [w:sectPr] of the subtree ends up
    updated, the nested ones too; what hung below a removed reference
    leaves the tree with it. *)
Fixpoint update_sections (header_rel_id footer_rel_id : option string)
         (e : element) : element :=
  match e with
  | Element t a x y cs =>
      let e' :=
        Element t a x y
                (map (update_sections header_rel_id footer_rel_id) cs) in
      if String.eqb t w_sectPr
      then update_sect header_rel_id footer_rel_id e'
      else e'
  end.

Definition update_body (header_rel_id footer_rel_id : option string)
           (body : element) : element :=
  let body1 :=
    match findall_desc body w_sectPr with
    | [] => append body (new w_sectPr)
    | _ :: _ => body
    end in
  set_children body1
    (map (update_sections header_rel_id footer_rel_id) (children body1)).

(** Apply [f] to the first element that satisfies [p]. *)
Fixpoint on_first (p : element -> bool) (f : element -> element)
         (l : list element) : list element :=
  match l with
  | [] => []
  | e :: r => if p e then f e :: r else e :: on_first p f r
  end.

Definition update_document (header_rel_id footer_rel_id : option string)
           (doc_root : element) : element :=
  let doc_root1 :=
    match find doc_root w_body with
    | Some _ => doc_root
    | None => append doc_root (new w_body)
    end in
  set_children doc_root1
    (on_first (has_tag w_body) (update_body header_rel_id footer_rel_id)
              (children doc_root1)).

(** The document made up when the source has none (lines 210-212). *)
Definition minimal_document : element :=
  append (new w_document) (append (new w_body) (new w_sectPr)).

(** *** The content-type registry (lines 235-254) *)

Definition is_override_for (part_name : string) (ov : element) : bool :=
  has_tag ct_Override ov
  && match get ov "PartName" with
     | Some p => String.eqb p part_name
     | None => false
     end.

Definition override (part_name content_type : string) : element :=
  Element ct_Override
          [("PartName", part_name); ("ContentType", content_type)]
          None None [].

Definition ensure_override (ct_root : element)
           (part_name content_type : string) : element :=
  if existsb (is_override_for part_name) (children ct_root) then
    set_children ct_root
      (on_first (is_override_for part_name)
                (fun ov => set ov "ContentType" content_type)
                (children ct_root))
  else append ct_root (override part_name content_type).

Definition ensure_override_if (tpl_bytes : option bytes) (ct_root : element)
           (part_name content_type : string) : element :=
  match tpl_bytes with
  | Some _ => ensure_override ct_root part_name content_type
  | None => ct_root
  end.

(** *** What the properties of the three edited parts speak of *)

(** The [Id] a child of the manifest carries as a relationship. *)
Definition id_of (rel : element) : list string :=
  if is_relationship rel then
    match get rel "Id" with
    | Some rid => [rid]
    | None => []
    end
  else [].

Definition ids_of (rels : list element) : list string :=
  flat_map id_of rels.

(** The ids of a relationship manifest, in document order. *)
Definition manifest_ids (rels_root : element) : list string :=
  ids_of (children rels_root).

(** The section-properties blocks the transform edits: the [w:sectPr]
    below the first [w:body] child of the root. *)
Definition section_blocks (doc_root : element) : list element :=
  match find doc_root w_body with
  | Some body => findall_desc body w_sectPr
  | None => []
  end.

(** A block carries exactly the references the transform installs: one
    default header reference with the id [h] when there is one and no
    header reference otherwise, and the same for the footer. *)
Definition carries (h f : option string) (sect : element) : Prop :=
  findall sect w_headerReference = new_references w_headerReference h
  /\ findall sect w_footerReference = new_references w_footerReference f.

(** All the section-properties blocks of a document, wherever they
    are. *)
Definition all_section_blocks (doc_root : element) : list element :=
  findall_desc doc_root w_sectPr.

(** An element without the header/footer references of its
    section-properties blocks, at every depth. *)
Fixpoint without_references (e : element) : element :=
  match e with
  | Element t a x y cs =>
      let cs' := map without_references cs in
      Element t a x y
              (if String.eqb t w_sectPr
               then filter (fun child => negb (is_reference child)) cs'
               else cs')
  end.

(** A block with the installed references and nothing else. *)
Definition fresh_block (h f : option string) : element :=
  Element w_sectPr [] None None
          (new_references w_headerReference h
           ++ new_references w_footerReference f).

(** [body'] is the body [body] after the edit: with one fresh block more
    when it had no block below it, and otherwise the same tree apart from
    the header/footer references of its blocks. *)
Definition body_edited (h f : option string) (body body' : element)
  : Prop :=
  match findall_desc body w_sectPr with
  | [] => body' = set_children body (children body ++ [fresh_block h f])
  | _ :: _ => without_references body' = without_references body
  end.

(** [doc'] is the document [doc] after the edit: the same root with the
    same children, but for the first [w:body] child, which is edited; a
    root without such a child has a body with one fresh block appended. *)
Definition first_body_edited (h f : option string) (doc doc' : element)
  : Prop :=
  exists before body' after,
    doc' = set_children doc (before ++ body' :: after)
    /\ Forall (fun c => has_tag w_body c = false) before
    /\ ((exists body,
            children doc = before ++ body :: after
            /\ has_tag w_body body = true
            /\ body_edited h f body body')
        \/ (children doc = before /\ after = []
            /\ body' = Element w_body [] None None [fresh_block h f])).

(** The Override nodes of a registry for one part name. *)
Definition overrides_for (part_name : string) (ct_root : element)
  : list element :=
  filter (is_override_for part_name) (children ct_root).

(** One registry child against what it has become: the same node, or the
    Override of a canonical part with its [ContentType] set. *)
Definition retyped (e e' : element) : Prop :=
  e' = e
  \/ exists part_name content_type,
      (part_name = "/word/header1.xml" \/ part_name = "/word/footer1.xml")
      /\ is_override_for part_name e = true
      /\ e' = set e "ContentType" content_type.

(** A part name with the content type the transform declares for it. *)
Definition canonical_pair (part_name content_type : string) : Prop :=
  (part_name = "/word/header1.xml" /\ content_type = header_content_type)
  \/ (part_name = "/word/footer1.xml"
      /\ content_type = footer_content_type).

(** The two Override nodes the transform can append. *)
Definition canonical_override (ov : element) : Prop :=
  ov = override "/word/header1.xml" header_content_type
  \/ ov = override "/word/footer1.xml" footer_content_type.

(** The children of a registry after the edits: the former children in
    order, each one [retyped], then the appended Override nodes. *)
Definition evolves (before after : list element) : Prop :=
  exists kept appended,
    after = kept ++ appended
    /\ Forall2 retyped before kept
    /\ Forall canonical_override appended.



(** *** [_replace_header_footer_parts] *)

Section Transform.

(** [ET.fromstring] ([None]: it raises [ParseError]) and [ET.tostring]
    with [encoding='utf-8', xml_declaration=True]. *)
Variable fromstring : bytes -> option element.
Variable tostring : element -> bytes.

Definition parse_or (data : option bytes) (fresh : element)
  : result element :=
  match data with
  | Some b =>
      match fromstring b with
      | Some root => Ok root
      | None => Raise ParseError
      end
  | None => Ok fresh
  end.

(** The local state of the function when it returns. *)
Record locals : Type := Locals {
  out_zip : package;
  tpl_header_name : option string;
  tpl_header_bytes : option bytes;
  tpl_footer_name : option string;
  tpl_footer_bytes : option bytes;
  header_rel_id : option string;
  footer_rel_id : option string;
  rels_root : element;
  doc_root : element;
  ct_root : element
}.

Definition _replace_header_footer_parts (src_zip tpl_zip : package)
  : result locals :=
  buf <- copy_source src_zip ;;
  '(tpl_headers, tpl_footers) <-
    _collect_headers_footers_from_template tpl_zip ;;
  let (h_name, h_bytes) := _pick_first_part tpl_headers in
  let (f_name, f_bytes) := _pick_first_part tpl_footers in
  out1 <- _ensure_media_dependencies src_zip tpl_zip (copied buf) [] ;;
  let out2 :=
    install_part tpl_zip out1 "word/header1.xml"
                 "word/_rels/header1.xml.rels" h_name h_bytes in
  let out3 :=
    install_part tpl_zip out2 "word/footer1.xml"
                 "word/_rels/footer1.xml.rels" f_name f_bytes in
  rels0 <- parse_or (doc_rels_bytes buf) (new rel_Relationships) ;;
  let (used_ids, kept) := strip_relationships (children rels0) [] in
  '(rels1, used1, h_id) <-
    add_relationship h_bytes header_type_uri "header1.xml"
                     (set_children rels0 kept, used_ids) ;;
  '(rels2, _, f_id) <-
    add_relationship f_bytes footer_type_uri "footer1.xml"
                     (rels1, used1) ;;
  doc0 <- parse_or (doc_xml_bytes buf) minimal_document ;;
  let doc1 := update_document h_id f_id doc0 in
  ct0 <- parse_or (content_types_bytes buf) (new ct_Types) ;;
  let ct1 :=
    ensure_override_if h_bytes ct0 "/word/header1.xml"
                       header_content_type in
  let ct2 :=
    ensure_override_if f_bytes ct1 "/word/footer1.xml"
                       footer_content_type in
  let out4 := writestr out3 "[Content_Types].xml" (tostring ct2) in
  let out5 :=
    writestr out4 "word/_rels/document.xml.rels" (tostring rels2) in
  let out6 := writestr out5 "word/document.xml" (tostring doc1) in
  Ok (Locals out6 h_name h_bytes f_name f_bytes h_id f_id
             rels2 doc1 ct2).

End Transform.

End Docx.

(* ================================================================== *)
(** ** The file-level operation: [apply_template_to_docx] *)

Module Fs.
Import Zip.

(** What a regular file holds: a valid zip container, or anything else. *)
Inductive content : Type :=
| Archive (z : package)
| Blob (data : bytes).

(** The regular files, by path.  Paths are absolute and normalised, so
    that [os.path.abspath] is the identity on them. *)
Definition files : Type := string -> option content.

Definition write (fs : files) (p : string) (c : option content) : files :=
  fun q => if String.eqb q p then c else fs q.

(** The calls that reach the file system. *)
Inductive event : Type :=
| EvMkstemp (p : string)
| EvOpenRead (p : string)
| EvOpenWrite (p : string)
| EvCloseWrite (p : string)
| EvMakedirs (p : string)
| EvMove (p q : string)
| EvRemove (p : string).

Record world : Type := World {
  fs : files;
  dirs : string -> bool;  (* the paths that are directories *)
  trace : list event      (* the calls made so far, the latest first *)
}.

(** How the renaming or copying of [shutil.move] ends.  It renames when
    it can and otherwise copies the file onto the target and unlinks the
    source, so it can raise before the target is touched, or after the
    copy has written some content to it. *)
Inductive move_outcome : Type :=
| Moved
| MoveFailsUntouched
| MoveFailsWritten (c : content).

(** What the operating system decides during one call. *)
Record environment : Type := Environment {
  tmp_out : string;            (* the path [tempfile.mkstemp] returns *)
  mkstemp_fails : bool;
  read_denied : string -> bool;  (* the paths it refuses to open *)
  open_write_fails : bool;
  zip_write_fails : bool;      (* writing or closing the output archive *)
  makedirs_fails : bool;
  move_ends : move_outcome
}.

(** State and exceptions. *)
Definition M (A : Type) : Type := world -> result A * world.

Definition ret {A} (a : A) : M A := fun w => (Ok a, w).
Definition raise {A} (e : exception) : M A := fun w => (Raise e, w).
Definition bindM {A B} (m : M A) (k : A -> M B) : M B :=
  fun w =>
    match m w with
    | (Ok a, w') => k a w'
    | (Raise e, w') => (Raise e, w')
    end.
Definition lift {A} (r : result A) : M A := fun w => (r, w).

(** [try: body / except Exception: handler; raise] *)
Definition try_except_reraise {A} (body : M A) (handler : M unit) : M A :=
  fun w =>
    match body w with
    | (Ok a, w') => (Ok a, w')
    | (Raise e, w') => (Raise e, snd (handler w'))
    end.

Definition log (ev : event) : M unit :=
  fun w => (Ok tt, World (fs w) (dirs w) (ev :: trace w)).

Definition put (p : string) (c : option content) : M unit :=
  fun w => (Ok tt, World (write (fs w) p c) (dirs w) (trace w)).

Notation "x <~ m ;; k" := (bindM m (fun x => k))
  (at level 61, m at next level, right associativity).
Notation "m ;;; k" := (bindM m (fun _ => k))
  (at level 61, right associativity).

(** [os.path.exists(p)] *)
Definition exists_ (w : world) (p : string) : bool :=
  match fs w p with
  | Some _ => true
  | None => dirs w p
  end.

(** [tempfile.mkstemp(suffix='.docx')] and [os.close]: an empty file. *)
Definition mkstemp (env : environment) : M string :=
  if mkstemp_fails env then raise (OSError Mkstemp)
  else
    log (EvMkstemp (tmp_out env)) ;;;
    put (tmp_out env) (Some (Blob [])) ;;;
    ret (tmp_out env).

(** [zipfile.ZipFile(p, 'r')]: opening a directory is an [OSError]
    ([IsADirectoryError], or [PermissionError] on Windows), as is opening
    what the system refuses to open. *)
Definition open_read (env : environment) (p : string) : M package :=
  log (EvOpenRead p) ;;;
  fun w =>
    if read_denied env p || dirs w p then (Raise (OSError ZipOpenRead), w)
    else
      match fs w p with
      | None => (Raise FileNotFoundError, w)
      | Some (Blob _) => (Raise BadZipFile, w)
      | Some (Archive z) => (Ok z, w)
      end.

(** [zipfile.ZipFile(p, 'w', ...)]: the file is truncated. *)
Definition open_write (env : environment) (p : string) : M unit :=
  log (EvOpenWrite p) ;;;
  if open_write_fails env then raise (OSError ZipOpenWrite)
  else put p (Some (Blob [])).

(** The entries written and the archive closed at the end of [with]. *)
Definition close_write (env : environment) (p : string) (z : package)
  : M unit :=
  log (EvCloseWrite p) ;;;
  if zip_write_fails env then raise (OSError ZipWrite)
  else put p (Some (Archive z)).

(** The directory [d] and the directories above it, up to the root: what
    [os.makedirs(d)] makes when they are missing. *)
Fixpoint chain (fuel : nat) (d : string) : list string :=
  match fuel with
  | O => []
  | S n =>
      if String.eqb d ""
         || Nat.leb (String.length d) (String.length (Str.dirname d))
      then []
      else d :: chain n (Str.dirname d)
  end.

Definition made (d : string) : list string :=
  chain (S (String.length d)) d.

(** [os.makedirs(d, exist_ok=True)]: it raises when a regular file is in
    the way, or when the system refuses. *)
Definition makedirs (env : environment) (d : string) : M unit :=
  log (EvMakedirs d) ;;;
  fun w =>
    if makedirs_fails env
       || existsb (fun q => match fs w q with
                            | Some _ => true
                            | None => false
                            end) (made d)
    then (Raise (OSError MakeDirs), w)
    else (Ok tt, World (fs w) (fun q => dirs w q || Str.mem q (made d))
                       (trace w)).

(** [os.path.join(q, _basename(p))]: the name of [p] inside the
    directory [q]. *)
Definition inside (q p : string) : string :=
  Str.join q (Str.basename (Str.rstrip_slash p)).

(** The [real_dst] of [shutil.move(p, q)]. *)
Definition move_target (w : world) (p q : string) : string :=
  if dirs w q then inside q p else q.

(** [shutil.move(p, q)] for a regular file [p]: into [q] when [q] is a
    directory, and then only when nothing of that name is there
    ([shutil.Error] otherwise); onto [q] when it is not. *)
Definition shutil_move (env : environment) (p q : string) : M unit :=
  log (EvMove p q) ;;;
  fun w =>
    let real_dst := move_target w p q in
    if dirs w q && exists_ w real_dst then (Raise ShutilError, w)
    else
      match move_ends env with
      | Moved =>
          (Ok tt, World (write (write (fs w) real_dst (fs w p)) p None)
                        (dirs w) (trace w))
      | MoveFailsUntouched => (Raise (OSError Move), w)
      | MoveFailsWritten c =>
          (Raise (OSError Move),
           World (write (fs w) real_dst (Some c)) (dirs w) (trace w))
      end.

(** [if os.path.exists(p): os.remove(p)] *)
Definition remove_if_exists (p : string) : M unit :=
  fun w =>
    match fs w p with
    | Some _ => (log (EvRemove p) ;;; put p None) w
    | None => (Ok tt, w)
    end.

Definition has_docx_extension (p : string) : bool :=
  Str.endswith ".docx" (Str.lower p).

Section Apply.

Variable fromstring : bytes -> option Xml.element.
Variable tostring : Xml.element -> bytes.
Variable env : environment.

(** The body of the [try] block (lines 273-281), for the temporary file
    [tmp]; the directory made is [os.path.dirname] of the destination,
    [os.path.abspath] being the identity on the paths of the model. *)
Definition attempt (src_path tpl_path dst_path tmp : string) : M unit :=
  src_zip <~ open_read env src_path ;;
  tpl_zip <~ open_read env tpl_path ;;
  open_write env tmp ;;;
  st <~ lift (Docx._replace_header_footer_parts
                fromstring tostring src_zip tpl_zip) ;;
  close_write env tmp (Docx.out_zip st) ;;;
  makedirs env (Str.dirname dst_path) ;;;
  shutil_move env tmp dst_path.

Definition apply_template_to_docx (src_path tpl_path dst_path : string)
  : M unit :=
  if negb (has_docx_extension src_path)
     || negb (has_docx_extension tpl_path)
  then raise ValueError
  else
    tmp <~ mkstemp env ;;
    try_except_reraise
      (attempt src_path tpl_path dst_path tmp)
      (remove_if_exists tmp).

End Apply.

End Fs.

(* ================================================================== *)
(** ** A small source and template, used by the examples *)

Module Demo.
Import Xml Zip Docx.

Definition b (s : string) : bytes := list_byte_of_string s.

Definition image_uri : string :=
  "http://schemas.openxmlformats.org/officeDocument/2006/relationships/image".

Definition rels_tree : element :=
  Element rel_Relationships [] None None
    [ relationship "rId3" header_type_uri "header2.xml";
      relationship "rId9001" image_uri "media/image1.png";
      relationship "rId7" footer_type_uri "footer5.xml" ].

Definition sect (cs : list element) : element :=
  Element w_sectPr [] None None cs.

Definition doc_tree : element :=
  Element w_document [] None None
    [ Element w_body [] None None
        [ Element (qname W_NS "p") [] None None
            [ Element (qname W_NS "pPr") [] None None
                [ sect [ Element w_headerReference
                           [(w_type, "first"); (r_id, "rId3")] None None [];
                         Element (qname W_NS "pgSz") [] None None [] ] ] ];
          sect [ Element w_footerReference
                   [(w_type, "default"); (r_id, "rId7")] None None [] ] ] ].

Definition ct_tree : element :=
  Element ct_Types [] None None
    [ Element (qname CT_NS "Default")
              [("Extension", "xml"); ("ContentType", "application/xml")]
              None None [];
      override "/word/header2.xml" header_content_type;
      override "/word/footer1.xml" "text/plain" ].

(** A parser that knows three byte strings, and a serialiser that only
    names the root: enough to run the transform on the packages below. *)
Definition fromstring (data : bytes) : option element :=
  let s := string_of_list_byte data in
  if String.eqb s "DOC" then Some doc_tree
  else if String.eqb s "RELS" then Some rels_tree
  else if String.eqb s "CT" then Some ct_tree
  else None.

Definition tostring (e : element) : bytes := b (tag e).

Definition src : package :=
  [ ("[Content_Types].xml", b "CT");
    ("word/document.xml", b "DOC");
    ("word/_rels/document.xml.rels", b "RELS");
    ("word/header2.xml", b "old header");
    ("word/_rels/header2.xml.rels", b "old header rels");
    ("word/media/image1.png", b "source image");
    ("word/styles.xml", b "styles");
    ("word/headerparts/x.xml", b "x") ].

Definition tpl : package :=
  [ ("word/header2.xml", b "H2");
    ("word/header1.xml", b "H1");
    ("word/footer1.xml", b "F1");
    ("word/_rels/header1.xml.rels", b "H1 rels");
    ("word/media/image1.png", b "template image");
    ("word/media/logo.png", b "logo") ].

(** The run of the transform on [src] and [tpl], and its final state. *)
Definition run : result locals :=
  _replace_header_footer_parts fromstring tostring src tpl.

Definition st : locals :=
  match run with
  | Ok s => s
  | Raise _ =>
      Locals [] None None None None None None (new "") (new "") (new "")
  end.

(** A file system with the two inputs and an earlier output, and two
    behaviours of the operating system: one where every call succeeds,
    one where the move raises after the copy has written part of the
    output onto the destination. *)
Definition files : Fs.files :=
  fun p =>
    if String.eqb p "in.docx" then Some (Fs.Archive src)
    else if String.eqb p "tpl.docx" then Some (Fs.Archive tpl)
    else if String.eqb p "out.docx" then Some (Fs.Blob (b "previous"))
    else if String.eqb p "notes.txt" then Some (Fs.Blob (b "notes"))
    else None.

Definition world : Fs.world := Fs.World files (fun _ => false) [].

(** The same files, with a directory at [results]. *)
Definition world_with_directory : Fs.world :=
  Fs.World files (fun p => String.eqb p "results") [].

Definition env_ok : Fs.environment :=
  Fs.Environment "/tmp/tmpk3v9.docx" false (fun _ => false)
                 false false false Fs.Moved.


(** A template without footer parts. *)
Definition tpl_header_only : package :=
  [ ("word/header1.xml", b "H1") ].

(** A source that is not well-formed XML in its document part. *)
Definition src_broken : package :=
  [ ("word/document.xml", b "<<<") ].

(** A document with a second [w:body], and a block beside the bodies:
    both blocks refer to the old header relationship [rId3]. *)
Definition doc_two_bodies : element :=
  Element w_document [] None None
    [ Element w_body [] None None
        [ sect [ Element w_headerReference
                   [(w_type, "default"); (r_id, "rId3")] None None [] ] ];
      Element w_body [] None None
        [ sect [ Element w_headerReference
                   [(w_type, "default"); (r_id, "rId3")] None None [] ] ];
      sect [ Element w_headerReference
               [(w_type, "first"); (r_id, "rId3")] None None [] ] ].

Definition fromstring_two_bodies (data : bytes) : option element :=
  if String.eqb (string_of_list_byte data) "DOC2" then Some doc_two_bodies
  else fromstring data.

Definition src_two_bodies : package :=
  [ ("[Content_Types].xml", b "CT");
    ("word/document.xml", b "DOC2");
    ("word/_rels/document.xml.rels", b "RELS") ].

Definition run_two_bodies : result locals :=
  _replace_header_footer_parts fromstring_two_bodies tostring
                               src_two_bodies tpl.

Definition st_two_bodies : locals :=
  match run_two_bodies with
  | Ok s => s
  | Raise _ =>
      Locals [] None None None None None None (new "") (new "") (new "")
  end.

End Demo.

(* ================================================================== *)
(** ** The helpers the transform does not call, and further notions *)

Module DocxMore.
Import Xml Zip Docx.

(** [p in s] on strings. *)
Fixpoint contains (p s : string) : bool :=
  Str.startswith p s
  || match s with
     | EmptyString => false
     | String _ r => contains p r
     end.

(** A [Dict[str, str]]. *)
Definition str_dict : Type := list (string * string).

Section Helpers.

Variable fromstring : bytes -> option element.
Variable tostring : element -> bytes.

(** [_read_zip_xml] (lines 24-29): the parsed tree, [None] for a missing
    entry; a parse error is not caught. *)
Definition _read_zip_xml (z : package) (path : string)
  : result (option element) :=
  match read z path with
  | Ok data =>
      match fromstring data with
      | Some tree => Ok (Some tree)
      | None => Raise ParseError
      end
  | Raise _ => Ok None      (* except KeyError: return None *)
  end.

(** [_write_zip_xml] (lines 32-35) *)
Definition _write_zip_xml (z : package) (path : string) (tree : element)
  : package :=
  writestr z path (tostring tree).

(** [_map_rel_types] (lines 59-75): the loop over the [Relationship]
    children reads [Type] and [Target] and passes. *)
Definition _map_rel_types (doc_zip : package) (rels_path : string)
  : result str_dict :=
  match read doc_zip rels_path with
  | Raise _ => Ok []        (* except KeyError: return mapping *)
  | Ok data =>
      match fromstring data with
      | None => Raise ParseError
      | Some root =>
          for_each
            (fun (mapping : str_dict) rel =>
               let r_type := get_default rel "Type" "" in
               let target := get_default rel "Target" "" in
               if contains "header" target then Ok mapping else Ok mapping)
            (findall root "Relationship") []
      end
  end.

End Helpers.

(** The relationship appended for an allocated id. *)
Definition new_relationships (type target : string) (rel_id : option string)
  : list element :=
  match rel_id with
  | Some rid => [relationship rid type target]
  | None => []
  end.

(** The Override appended for an installed part. *)
Definition new_overrides (part_name content_type : string)
           (tpl_bytes : option bytes) : list element :=
  match tpl_bytes with
  | Some _ => [override part_name content_type]
  | None => []
  end.

(** A source without its header/footer parts and their relationship
    files. *)
Definition without_header_footer (src_zip : package) : package :=
  filter (fun e => negb (is_header_footer_part (fst e)
                         || is_header_footer_rels (fst e))) src_zip.

(** The name of the manifest a part of the template may have
    ([f'word/_rels/{base}.rels'], lines 146-147). *)
Definition manifest_of (part_name : string) : string :=
  String.append "word/_rels/"
    (String.append (Str.basename part_name) ".rels").

End DocxMore.

(* ================================================================== *)
(** ** The window: [app/main.py] *)

Module Gui.
Import Zip Fs.

(** The part of [App] its buttons read and write: the list of documents,
    the rows of the [tk.Listbox] that shows it, the template, and the
    output directory with the entry the user can edit.  The status line
    and the message boxes only display. *)
Record app : Type := App {
  file_list : list string;
  lst_files : list string;
  template_path : option string;
  output_dir : string;
  var_outdir : string
}.

(** [App.__init__] *)
Definition init (output_dir_default : string) : app :=
  App [] [] None output_dir_default output_dir_default.

(** One turn of the loop of [add_files]. *)
Definition add_file (a : app) (p : string) : app :=
  if negb (Str.mem p (file_list a)) && has_docx_extension p then
    App (file_list a ++ [p]) (lst_files a ++ [p])
        (template_path a) (output_dir a) (var_outdir a)
  else a.

(** [add_files], for the [paths] the file dialog returned. *)
Definition add_files (paths : list string) (a : app) : app :=
  match paths with
  | [] => a
  | _ => fold_left add_file paths a
  end.

(** [lst.get(idx)]: the row, the empty string out of range. *)
Definition row (idx : nat) (rows : list string) : string :=
  nth idx rows "".

(** [lst.delete(idx)]: nothing out of range. *)
Fixpoint delete (idx : nat) (rows : list string) : list string :=
  match rows, idx with
  | [], _ => []
  | _ :: r, O => r
  | x :: r, S i => x :: delete i r
  end.

(** [l.remove(x)]: the first occurrence. *)
Fixpoint remove (x : string) (l : list string) : list string :=
  match l with
  | [] => []
  | y :: r => if String.eqb y x then r else y :: remove x r
  end.

(** [sel.sort(reverse=True)] *)
Fixpoint insert_desc (i : nat) (l : list nat) : list nat :=
  match l with
  | [] => [i]
  | j :: r => if Nat.leb j i then i :: j :: r else j :: insert_desc i r
  end.

Definition sort_reverse (l : list nat) : list nat :=
  fold_right insert_desc [] l.

(** One turn of the loop of [remove_selected]. *)
Definition remove_row (a : app) (idx : nat) : app :=
  let path := row idx (lst_files a) in
  let rows := delete idx (lst_files a) in
  App (if Str.mem path (file_list a) then remove path (file_list a)
       else file_list a)
      rows (template_path a) (output_dir a) (var_outdir a).

(** [remove_selected], for the indices [lst.curselection()] returned. *)
Definition remove_selected (sel : list nat) (a : app) : app :=
  fold_left remove_row (sort_reverse sel) a.

(** [clear_files] *)
Definition clear_files (a : app) : app :=
  App [] [] (template_path a) (output_dir a) (var_outdir a).

(** [choose_template], for the path [p] the dialog returned (empty when
    the user cancelled). *)
Definition choose_template (p : string) (a : app) : app :=
  if String.eqb p "" then a
  else App (file_list a) (lst_files a) (Some p)
           (output_dir a) (var_outdir a).

(** [choose_output_dir] *)
Definition choose_output_dir (d : string) (a : app) : app :=
  if String.eqb d "" then a
  else App (file_list a) (lst_files a) (template_path a) d d.

(** What the user does between two runs of [start]: a button of the
    window with what its dialog returned, or an edit of the entry of the
    output directory. *)
Inductive action : Type :=
| AddFiles (paths : list string)
| RemoveSelected (sel : list nat)
| ClearFiles
| ChooseTemplate (p : string)
| ChooseOutputDir (d : string)
| TypeOutputDir (text : string).

Definition act (a : app) (x : action) : app :=
  match x with
  | AddFiles paths => add_files paths a
  | RemoveSelected sel => remove_selected sel a
  | ClearFiles => clear_files a
  | ChooseTemplate p => choose_template p a
  | ChooseOutputDir d => choose_output_dir d a
  | TypeOutputDir text =>
      App (file_list a) (lst_files a) (template_path a) (output_dir a) text
  end.

(** The rows at the positions that are not selected, counted from [i]. *)
Fixpoint unselected (i : nat) (sel : list nat) (rows : list string)
  : list string :=
  match rows with
  | [] => []
  | x :: r =>
      if existsb (Nat.eqb i) sel then unselected (S i) sel r
      else x :: unselected (S i) sel r
  end.

(** Indices in falling order, none twice. *)
Fixpoint descending (l : list nat) : Prop :=
  match l with
  | [] => True
  | i :: r => (forall j, In j r -> j < i) /\ descending r
  end.

(** The list and the listbox show the same documents, each once, all of
    them with the [.docx] extension. *)
Definition in_step (a : app) : Prop :=
  lst_files a = file_list a
  /\ NoDup (file_list a)
  /\ Forall (fun p => has_docx_extension p = true) (file_list a).

Section Start.

Variable fromstring : bytes -> option Xml.element.
Variable tostring : Xml.element -> bytes.

(** [str.strip], and the path [os.path.join(outdir, f"{name}_templated{ext}")]
    for the [name] and [ext] of the base name of [src]: both as the
    platform has them. *)
Variable strip : string -> string.
Variable templated : string -> string -> string.

(** What the operating system decides: for the directory [start] makes,
    during the call for the document at each position of the list, and
    whether the [print] in the handler of that document raises (the
    console cannot encode the path or the message). *)
Variable outdir_env : environment.
Variable env_of : nat -> environment.
Variable print_raises : nat -> bool.

(** [self.var_outdir.get().strip() or self.output_dir] *)
Definition outdir_of (a : app) : string :=
  let s := strip (var_outdir a) in
  if String.eqb s "" then output_dir a else s.

(** The loop of [start], from the document at position [i]: an exception
    of the call is caught, printed and counted; an exception of the
    [print] leaves the loop. *)
Fixpoint batch (i : nat) (tpl outdir : string) (srcs : list string)
         (ok fail : nat) : M (nat * nat) :=
  match srcs with
  | [] => ret (ok, fail)
  | src :: rest =>
      fun w =>
        match apply_template_to_docx fromstring tostring (env_of i)
                src tpl (templated outdir src) w with
        | (Ok _, w') => batch (S i) tpl outdir rest (S ok) fail w'
        | (Raise _, w') =>
            if print_raises i then (Raise UnicodeEncodeError, w')
            else batch (S i) tpl outdir rest ok (S fail) w'
        end
  end.

(** [start]: nothing without documents or without a template; otherwise
    the numbers of documents done and failed, as the closing message
    shows them. *)
Definition start (a : app) : M (option (nat * nat)) :=
  match file_list a with
  | [] => ret None
  | _ :: _ =>
      match template_path a with
      | None => ret None
      | Some tpl =>
          if String.eqb tpl "" then ret None
          else
            let outdir := outdir_of a in
            makedirs outdir_env outdir ;;;
            counts <~ batch 0 tpl outdir (file_list a) 0 0 ;;
            ret (Some counts)
      end
  end.

End Start.

End Gui.

(* ================================================================== *)
(** ** Facts about the string operations *)

Module XmlFacts.
Import Xml.

(** Induction on element trees with the hypothesis on every child. *)
Lemma element_ind' (P : element -> Prop) :
  (forall t a x y cs, Forall P cs -> P (Element t a x y cs)) ->
  forall e, P e.
Proof.
  intro H.
  fix IH 1.
  intros [t a x y cs].
  apply H.
  induction cs as [|c cs IHcs]; constructor.
  - apply IH.
  - exact IHcs.
Qed.

End XmlFacts.

Module StrFacts.
Import Str.

Lemma mem_In (x : string) (l : list string) : mem x l = true <-> In x l.
Proof.
  unfold mem. rewrite existsb_exists. split.
  - intros [y [Hy Heq]]. apply String.eqb_eq in Heq. now subst.
  - intro H. exists x. split; [exact H | apply String.eqb_refl].
Qed.

Lemma mem_false (x : string) (l : list string) :
  mem x l = false <-> ~ In x l.
Proof.
  rewrite <- mem_In. destruct (mem x l); split; congruence.
Qed.

Lemma startswith_app (p s : string) :
  startswith p s = true -> exists r, s = String.append p r.
Proof.
  unfold startswith. revert s.
  induction p as [|a p IH]; intros s H.
  - exists s. reflexivity.
  - destruct s as [|c s]; simpl in H; [discriminate|].
    destruct (ascii_dec a c) as [->|]; [|discriminate].
    destruct (IH _ H) as [r ->]. exists r. reflexivity.
Qed.

(** *** The order of [str] *)

Lemma ascii_compare_refl (a : ascii) : Ascii.compare a a = Eq.
Proof. unfold Ascii.compare. apply N.compare_refl. Qed.

Lemma compare_refl (s : string) : String.compare s s = Eq.
Proof.
  induction s as [|a s IH]; simpl; [reflexivity|].
  now rewrite ascii_compare_refl.
Qed.

Lemma leb_refl (s : string) : String.leb s s = true.
Proof. unfold String.leb. now rewrite compare_refl. Qed.

Lemma compare_lt_trans (s1 s2 s3 : string) :
  String.compare s1 s2 = Lt -> String.compare s2 s3 = Lt ->
  String.compare s1 s3 = Lt.
Proof.
  revert s2 s3.
  induction s1 as [|a s1 IH]; intros [|b s2] [|c s3]; simpl;
    try congruence.
  unfold Ascii.compare.
  destruct (N.compare_spec (N_of_ascii a) (N_of_ascii b)) as [Hab|Hab|Hab];
    destruct (N.compare_spec (N_of_ascii b) (N_of_ascii c)) as [Hbc|Hbc|Hbc];
    try congruence; intros H1 H2.
  - rewrite Hab, Hbc, N.compare_refl. eapply IH; eassumption.
  - rewrite Hab. now apply N.compare_lt_iff in Hbc as ->.
  - rewrite <- Hbc. now apply N.compare_lt_iff in Hab as ->.
  - assert (Hac : (N_of_ascii a < N_of_ascii c)%N) by lia.
    now apply N.compare_lt_iff in Hac as ->.
Qed.

Lemma leb_trans (s1 s2 s3 : string) :
  String.leb s1 s2 = true -> String.leb s2 s3 = true ->
  String.leb s1 s3 = true.
Proof.
  unfold String.leb.
  destruct (String.compare s1 s2) eqn:H12; try discriminate;
    destruct (String.compare s2 s3) eqn:H23; try discriminate; intros _ _.
  - apply String.compare_eq_iff in H12, H23. subst.
    now rewrite compare_refl.
  - apply String.compare_eq_iff in H12. subst. now rewrite H23.
  - apply String.compare_eq_iff in H23. subst. now rewrite H12.
  - now rewrite (compare_lt_trans _ _ _ H12 H23).
Qed.

(** *** [sorted(l)[0]] is a least element of [l] *)

Lemma insert_In (x y : string) (l : list string) :
  In y (insert x l) <-> y = x \/ In y l.
Proof.
  induction l as [|z l IH]; simpl.
  - intuition congruence.
  - destruct (String.leb x z); simpl; rewrite ?IH; intuition congruence.
Qed.

Lemma sorted_In (y : string) (l : list string) :
  In y (sorted l) <-> In y l.
Proof.
  induction l as [|x l IH]; simpl; [tauto|].
  rewrite insert_In, IH. intuition congruence.
Qed.

Lemma sorted_nil (l : list string) : sorted l = [] -> l = [].
Proof.
  destruct l as [|z l]; [reflexivity|]. intro H.
  assert (Hin : In z (sorted (z :: l))) by (apply sorted_In; now left).
  rewrite H in Hin. destruct Hin.
Qed.

Lemma sorted_head_least (l : list string) (m : string) (r : list string) :
  sorted l = m :: r -> least m l.
Proof.
  revert m r.
  induction l as [|x l IH]; intros m r H; simpl in H; [discriminate|].
  destruct (sorted l) as [|m' r'] eqn:Hs.
  - apply sorted_nil in Hs. subst l.
    simpl in H. injection H as <- <-.
    split; [now left|]. intros n [<-|[]]. apply leb_refl.
  - destruct (IH _ _ eq_refl) as [Hin Hle].
    simpl in H. destruct (String.leb x m') eqn:Hx.
    + injection H as <- <-.
      split; [now left|].
      intros n [<-|Hn]; [apply leb_refl|].
      eapply leb_trans; [exact Hx|]. now apply Hle.
    + injection H as <- <-.
      split; [now right|].
      intros n [<-|Hn]; [|now apply Hle].
      destruct (String.leb_total x m') as [E|E]; congruence.
Qed.

(** *** [str(i)] is injective *)

Lemma of_N_inj (i j : N) : of_N i = of_N j -> i = j.
Proof.
  unfold of_N. intro H.
  assert (Hu : N.to_uint i = N.to_uint j).
  { pose proof (NilEmpty.usu (N.to_uint i)) as Hi.
    pose proof (NilEmpty.usu (N.to_uint j)) as Hj.
    rewrite H in Hi. congruence. }
  rewrite <- (DecimalN.Unsigned.of_to i), <- (DecimalN.Unsigned.of_to j).
  now rewrite Hu.
Qed.

End StrFacts.

(* ================================================================== *)
(** ** Facts about packages *)

Module ZipFacts.
Import Zip.

Lemma lookup_app (z1 z2 : package) (n : string) :
  lookup (z1 ++ z2) n =
  match lookup z2 n with
  | Some b => Some b
  | None => lookup z1 n
  end.
Proof.
  induction z1 as [|[m b] z1 IH]; simpl.
  - now destruct (lookup z2 n).
  - rewrite IH. now destruct (lookup z2 n).
Qed.

Lemma lookup_writestr (z : package) (m : string) (d : bytes) (n : string) :
  lookup (writestr z m d) n =
  if String.eqb m n then Some d else lookup z n.
Proof.
  unfold writestr. rewrite lookup_app. simpl.
  now destruct (String.eqb m n).
Qed.

Lemma lookup_In (z : package) (n : string) (b : bytes) :
  lookup z n = Some b -> In (n, b) z.
Proof.
  induction z as [|[m c] z IH]; simpl; [discriminate|].
  destruct (lookup z n) as [b'|] eqn:E.
  - intros [= <-]. right. now apply IH.
  - destruct (String.eqb_spec m n) as [->|]; [|discriminate].
    intros [= <-]. now left.
Qed.

Lemma lookup_None (z : package) (n : string) :
  lookup z n = None <-> ~ In n (namelist z).
Proof.
  induction z as [|[m c] z IH]; simpl; [tauto|].
  destruct (lookup z n) as [b'|] eqn:E.
  - split; [discriminate|]. intro H. exfalso. apply H. right.
    apply lookup_In in E. apply (in_map fst) in E. exact E.
  - destruct (String.eqb_spec m n) as [->|Hne].
    + split; [discriminate|]. intro H. exfalso. apply H. now left.
    + split; [|reflexivity]. intros _ [H|H]; [congruence|].
      now apply IH in H.
Qed.

Lemma lookup_namelist (z : package) (n : string) :
  In n (namelist z) -> exists b, lookup z n = Some b.
Proof.
  intro H. destruct (lookup z n) as [b|] eqn:E; [now exists b|].
  apply lookup_None in E. contradiction.
Qed.

Lemma lookup_Some_namelist (z : package) (n : string) (b : bytes) :
  lookup z n = Some b -> In n (namelist z).
Proof.
  intro H. apply lookup_In in H. now apply (in_map fst) in H.
Qed.

Lemma read_lookup (z : package) (n : string) (b : bytes) :
  lookup z n = Some b -> read z n = Ok b.
Proof. unfold read. now intros ->. Qed.

(** When every entry under a name holds the same bytes, so does [lookup]. *)
Lemma lookup_unique (z : package) (n : string) (b : bytes) :
  In n (namelist z) -> (forall b', In (n, b') z -> b' = b) ->
  lookup z n = Some b.
Proof.
  intros Hin Hall. destruct (lookup_namelist _ _ Hin) as [b' E].
  rewrite E. f_equal. apply Hall. now apply lookup_In.
Qed.

Lemma namelist_app (z1 z2 : package) :
  namelist (z1 ++ z2) = namelist z1 ++ namelist z2.
Proof. apply map_app. Qed.

End ZipFacts.

(* ================================================================== *)
(** ** The loops of the transform *)

Module LoopFacts.
Import Xml Zip Docx StrFacts ZipFacts.

Lemma mem_cons (x a : string) (l : list string) :
  Str.mem x (a :: l) = String.eqb a x || Str.mem x l.
Proof. unfold Str.mem. simpl. now rewrite String.eqb_sym. Qed.

Lemma copy_entry_ok (src : package) (st : buffers) (n : string) (b : bytes) :
  lookup src n = Some b ->
  copy_entry src st n =
  Ok (if String.eqb n "word/document.xml" then
        Buffers (Some b) (doc_rels_bytes st) (content_types_bytes st)
                (copied st)
      else if String.eqb n "word/_rels/document.xml.rels" then
        Buffers (doc_xml_bytes st) (Some b) (content_types_bytes st)
                (copied st)
      else if String.eqb n "[Content_Types].xml" then
        Buffers (doc_xml_bytes st) (doc_rels_bytes st) (Some b) (copied st)
      else
        Buffers (doc_xml_bytes st) (doc_rels_bytes st)
                (content_types_bytes st) (copied st ++ staged src n)).
Proof.
  intro Hb. unfold copy_entry, staged, passthrough, read. rewrite Hb.
  destruct (String.eqb n "word/document.xml"); [reflexivity|].
  destruct (String.eqb n "word/_rels/document.xml.rels"); [reflexivity|].
  destruct (String.eqb n "[Content_Types].xml"); [reflexivity|].
  destruct (is_header_footer_part n || is_header_footer_rels n); simpl.
  - rewrite app_nil_r. now destruct st.
  - reflexivity.
Qed.

Lemma staged_special (src : package) (n : string) :
  n = "word/document.xml" \/ n = "word/_rels/document.xml.rels"
  \/ n = "[Content_Types].xml" ->
  staged src n = [].
Proof. intros [-> | [-> | ->]]; reflexivity. Qed.

(** The copy loop never raises; it stages the pass-through entries in
    order and buffers the three structured parts. *)
Lemma copy_loop (src : package) (l : list string) :
  incl l (namelist src) ->
  forall st, exists st',
    for_each (copy_entry src) l st = Ok st'
    /\ copied st' = copied st ++ flat_map (staged src) l
    /\ doc_xml_bytes st' =
       (if Str.mem "word/document.xml" l
        then lookup src "word/document.xml" else doc_xml_bytes st)
    /\ doc_rels_bytes st' =
       (if Str.mem "word/_rels/document.xml.rels" l
        then lookup src "word/_rels/document.xml.rels"
        else doc_rels_bytes st)
    /\ content_types_bytes st' =
       (if Str.mem "[Content_Types].xml" l
        then lookup src "[Content_Types].xml"
        else content_types_bytes st).
Proof.
  induction l as [|n l IH]; intros Hl st.
  - exists st. simpl. rewrite app_nil_r. auto.
  - assert (Hn : In n (namelist src)) by (apply Hl; now left).
    assert (Hl' : incl l (namelist src))
      by (intros x Hx; apply Hl; now right).
    destruct (lookup_namelist _ _ Hn) as [b Hb].
    cbn [for_each]. rewrite (copy_entry_ok _ _ _ _ Hb). cbn [bind].
    rewrite !mem_cons. cbn [flat_map].
    destruct (String.eqb_spec n "word/document.xml") as [E1|N1];
      [|destruct (String.eqb_spec n "word/_rels/document.xml.rels")
          as [E2|N2];
        [|destruct (String.eqb_spec n "[Content_Types].xml") as [E3|N3]]];
      match goal with
      | |- context [for_each _ l ?s] =>
          destruct (IH Hl' s) as (st' & H0 & H1 & H2 & H3 & H4)
      end;
      exists st'; rewrite H0, H1, H2, H3, H4; cbn [copied doc_xml_bytes
        doc_rels_bytes content_types_bytes orb];
      try (rewrite staged_special by (subst; auto));
      subst; try rewrite Hb; cbn [app];
      repeat split; try reflexivity;
      try (match goal with
           | |- (if ?c then _ else _) = _ => destruct c; reflexivity
           end);
      try (now rewrite <- app_assoc).
Qed.

Lemma mem_lookup (z : package) (n : string) :
  (if Str.mem n (namelist z) then lookup z n else None) = lookup z n.
Proof.
  destruct (Str.mem n (namelist z)) eqn:E; [reflexivity|].
  apply mem_false in E. symmetry. now apply lookup_None.
Qed.

Lemma copy_source_ok (src : package) :
  exists buf,
    copy_source src = Ok buf
    /\ copied buf = flat_map (staged src) (namelist src)
    /\ doc_xml_bytes buf = lookup src "word/document.xml"
    /\ doc_rels_bytes buf = lookup src "word/_rels/document.xml.rels"
    /\ content_types_bytes buf = lookup src "[Content_Types].xml".
Proof.
  destruct (copy_loop src (namelist src) (incl_refl _)
                      (Buffers None None None []))
    as (st' & H0 & H1 & H2 & H3 & H4).
  exists st'. simpl in *. rewrite !mem_lookup in *. auto.
Qed.

Lemma staged_In (src : package) (l : list string) (n : string) (b : bytes) :
  In (n, b) (flat_map (staged src) l) <->
  In n l /\ passthrough n = true /\ lookup src n = Some b.
Proof.
  rewrite in_flat_map. unfold staged. split.
  - intros (m & Hm & H).
    destruct (passthrough m) eqn:P; [|destruct H].
    destruct (lookup src m) as [c|] eqn:L; [|destruct H].
    destruct H as [[= <- <-]|[]]. auto.
  - intros (Hn & P & L). exists n. split; [exact Hn|].
    rewrite P, L. now left.
Qed.

(** *** The dictionaries of template parts *)

Lemma dict_get_set (n k : string) (v : bytes) (d : dict) :
  dict_get n (dict_set k v d) =
  if String.eqb n k then Some v else dict_get n d.
Proof.
  induction d as [|[k' v'] d IH]; simpl; [reflexivity|].
  destruct (String.eqb_spec k k') as [<-|Hk]; simpl.
  - now destruct (String.eqb n k).
  - rewrite IH. destruct (String.eqb_spec n k') as [->|]; [|reflexivity].
    destruct (String.eqb_spec k' k); congruence.
Qed.

Lemma keys_set (n k : string) (v : bytes) (d : dict) :
  In n (keys (dict_set k v d)) <-> n = k \/ In n (keys d).
Proof.
  induction d as [|[k' v'] d IH]; simpl; [intuition congruence|].
  destruct (String.eqb_spec k k') as [<-|Hk]; simpl.
  - intuition congruence.
  - rewrite IH. intuition congruence.
Qed.

Lemma dict_get_keys (n : string) (d : dict) :
  In n (keys d) -> exists b, dict_get n d = Some b.
Proof.
  induction d as [|[k v] d IH]; simpl; [tauto|].
  intros [<-|H].
  - rewrite String.eqb_refl. now exists v.
  - destruct (String.eqb n k); [now exists v | now apply IH].
Qed.

Lemma agrees_set (tpl : package) (d : dict) (k : string) (b : bytes) :
  agrees tpl d -> lookup tpl k = Some b -> agrees tpl (dict_set k b d).
Proof.
  intros Hd Hk n c. rewrite dict_get_set.
  destruct (String.eqb_spec n k) as [->|]; [congruence | apply Hd].
Qed.

Lemma header_not_footer (n : string) :
  is_tpl_header n = true -> is_tpl_footer n = false.
Proof.
  unfold is_tpl_header, is_tpl_footer. intro H.
  apply andb_prop in H as [H _].
  apply startswith_app in H as [r ->]. reflexivity.
Qed.

Lemma collect_loop (tpl : package) (l : list string) :
  incl l (namelist tpl) ->
  forall hs fs, agrees tpl hs -> agrees tpl fs ->
  exists hs' fs',
    for_each
      (fun (hf : dict * dict) item =>
         let (headers, footers) := hf in
         if is_tpl_header item then
           b <- read tpl item ;; Ok (dict_set item b headers, footers)
         else if is_tpl_footer item then
           b <- read tpl item ;; Ok (headers, dict_set item b footers)
         else Ok hf) l (hs, fs) = Ok (hs', fs')
    /\ agrees tpl hs' /\ agrees tpl fs'
    /\ (forall n, In n (keys hs') <->
                  In n (keys hs) \/ (In n l /\ is_tpl_header n = true))
    /\ (forall n, In n (keys fs') <->
                  In n (keys fs) \/ (In n l /\ is_tpl_footer n = true)).
Proof.
  induction l as [|n l IH]; intros Hl hs fs Ah Af.
  - exists hs, fs. simpl. repeat split; auto; tauto.
  - assert (Hn : In n (namelist tpl)) by (apply Hl; now left).
    assert (Hl' : incl l (namelist tpl))
      by (intros x Hx; apply Hl; now right).
    destruct (lookup_namelist _ _ Hn) as [b Hb].
    cbn [for_each]. rewrite (read_lookup _ _ _ Hb).
    pose proof (header_not_footer n) as Hhf.
    destruct (is_tpl_header n) eqn:Eh; cbn [bind];
      [|destruct (is_tpl_footer n) eqn:Ef; cbn [bind]];
      match goal with
      | |- context [for_each _ l (?h, ?f)] =>
          destruct (IH Hl' h f) as (hs' & fs' & H0 & H1 & H2 & H3 & H4);
          auto using agrees_set
      end;
      exists hs', fs'; rewrite H0;
      (split; [reflexivity|]); (split; [exact H1|]);
      (split; [exact H2|]);
      (split; intro x; [rewrite H3 | rewrite H4]);
      rewrite ?keys_set; simpl;
      intuition (subst; try congruence; auto).
Qed.

Lemma collect_ok (tpl : package) :
  exists hs fs,
    _collect_headers_footers_from_template tpl = Ok (hs, fs)
    /\ agrees tpl hs /\ agrees tpl fs
    /\ (forall n, In n (keys hs) <->
                  In n (namelist tpl) /\ is_tpl_header n = true)
    /\ (forall n, In n (keys fs) <->
                  In n (namelist tpl) /\ is_tpl_footer n = true).
Proof.
  destruct (collect_loop tpl (namelist tpl) (incl_refl _) [] [])
    as (hs & fs & H0 & H1 & H2 & H3 & H4); try (intros n b; discriminate).
  exists hs, fs.
  split; [exact H0|]. split; [exact H1|]. split; [exact H2|].
  split; intro n; [rewrite H3 | rewrite H4]; simpl; tauto.
Qed.

(** [_pick_first_part]: nothing from an empty dictionary, otherwise a least
    key and the bytes stored under it. *)
Lemma pick_nil : _pick_first_part [] = (None, None).
Proof. reflexivity. Qed.

Lemma pick_some (parts : dict) :
  parts <> [] ->
  exists name data,
    _pick_first_part parts = (Some name, Some data)
    /\ Str.least name (keys parts)
    /\ dict_get name parts = Some data.
Proof.
  intro Hne. unfold _pick_first_part.
  destruct parts as [|p parts]; [congruence|].
  destruct (Str.sorted (keys (p :: parts))) as [|name r] eqn:Es.
  - apply sorted_nil in Es. discriminate.
  - pose proof (sorted_head_least _ _ _ Es) as Hl.
    destruct (dict_get_keys name (p :: parts) (proj1 Hl)) as [data Hd].
    exists name, data. rewrite Hd. auto.
Qed.

Lemma pick_bytes_none (parts : dict) :
  snd (_pick_first_part parts) = None <-> parts = [].
Proof.
  split; [|intros ->; reflexivity].
  destruct parts as [|p parts]; [reflexivity|]. intro H.
  destruct (pick_some (p :: parts)) as (n & d & E & _); [discriminate|].
  rewrite E in H. discriminate.
Qed.

(** *** The media loop *)

Lemma media_loop (tpl : package) (l : list string) :
  incl l (namelist tpl) ->
  forall out, exists added,
    for_each
      (fun out item =>
         if Str.startswith "word/media/" item then
           if negb (Str.mem item (namelist out)) then
             b <- read tpl item ;; Ok (writestr out item b)
           else Ok out
         else Ok out) l out = Ok (out ++ added)
    /\ (forall m b, In (m, b) added ->
           Str.startswith "word/media/" m = true
           /\ lookup tpl m = Some b
           /\ ~ In m (namelist out) /\ In m l)
    /\ (forall m, In m l -> Str.startswith "word/media/" m = true ->
           In m (namelist (out ++ added)))
    /\ NoDup (namelist added).
Proof.
  induction l as [|n l IH]; intros Hl out.
  - exists []. simpl. rewrite app_nil_r.
    repeat split; try tauto. constructor.
  - assert (Hn : In n (namelist tpl)) by (apply Hl; now left).
    assert (Hl' : incl l (namelist tpl))
      by (intros x Hx; apply Hl; now right).
    destruct (lookup_namelist _ _ Hn) as [b Hb].
    cbn [for_each].
    destruct (Str.startswith "word/media/" n) eqn:Em.
    + destruct (Str.mem n (namelist out)) eqn:Ei; cbn [negb bind].
      * apply mem_In in Ei.
        destruct (IH Hl' out) as (added & H0 & H1 & H2 & H3).
        exists added. split; [exact H0|].
        split; [|split; [|exact H3]].
        -- intros m c Hmc. destruct (H1 m c Hmc) as (? & ? & ? & ?).
           repeat split; auto. now right.
        -- intros m [<-|Hm] E; [|now apply H2].
           rewrite namelist_app. apply in_or_app. now left.
      * apply mem_false in Ei. rewrite (read_lookup _ _ _ Hb). cbn [bind].
        destruct (IH Hl' (writestr out n b)) as (added & H0 & H1 & H2 & H3).
        exists ((n, b) :: added). unfold writestr in *.
        rewrite <- app_assoc in H0. split; [exact H0|].
        split; [|split].
        -- intros m c [[= <- <-]|Hmc].
           ++ repeat split; auto. now left.
           ++ destruct (H1 m c Hmc) as (? & ? & Hno & ?).
              repeat split; auto.
              ** intro Hin. apply Hno. rewrite namelist_app.
                 apply in_or_app. now left.
              ** now right.
        -- intros m [<-|Hm] E.
           ++ rewrite namelist_app. apply in_or_app. right. now left.
           ++ specialize (H2 m Hm E). now rewrite <- app_assoc in H2.
        -- simpl. constructor; [|exact H3].
           intro Hin. apply in_map_iff in Hin as [[m c] [Hfst Hmc]].
           simpl in Hfst. subst m.
           destruct (H1 n c Hmc) as (_ & _ & Hno & _).
           apply Hno. rewrite namelist_app. apply in_or_app.
           right. now left.
    + destruct (IH Hl' out) as (added & H0 & H1 & H2 & H3).
      exists added. split; [exact H0|].
      split; [|split; [|exact H3]].
      * intros m c Hmc. destruct (H1 m c Hmc) as (? & ? & ? & ?).
        repeat split; auto. now right.
      * intros m [<-|Hm] E; [congruence | now apply H2].
Qed.

Lemma media_ok (src tpl out : package) (parts : dict) :
  exists added,
    _ensure_media_dependencies src tpl out parts = Ok (out ++ added)
    /\ (forall m b, In (m, b) added ->
           Str.startswith "word/media/" m = true
           /\ lookup tpl m = Some b
           /\ ~ In m (namelist out))
    /\ (forall m, In m (namelist tpl) ->
           Str.startswith "word/media/" m = true ->
           In m (namelist (out ++ added)))
    /\ NoDup (namelist added).
Proof.
  destruct (media_loop tpl (namelist tpl) (incl_refl _) out)
    as (added & H0 & H1 & H2 & H3).
  exists added. repeat split; auto; apply (H1 m b); assumption.
Qed.

End LoopFacts.

(* ================================================================== *)
(** ** The output package *)

Module OutFacts.
Import Xml Zip Docx StrFacts ZipFacts LoopFacts.

Lemma In_writestr (z : package) (m : string) (d : bytes) x :
  In x (writestr z m d) <-> In x z \/ x = (m, d).
Proof.
  unfold writestr. rewrite in_app_iff. simpl. intuition congruence.
Qed.

(** [install_part] adds at most the canonical part and its manifest. *)
Lemma install_In (tpl out : package) (c cr : string) name data x :
  In x (install_part tpl out c cr name data) ->
  In x out \/ data = Some (snd x) /\ fst x = c \/ fst x = cr.
Proof.
  unfold install_part. destruct data as [d|]; [|auto].
  assert (H1 : In x (writestr out c d) ->
               In x out \/ Some d = Some (snd x) /\ fst x = c \/ fst x = cr).
  { rewrite In_writestr. intros [H| ->]; auto. }
  destruct name as [nm|]; [|exact H1].
  destruct (String.eqb nm ""); [exact H1|].
  destruct (read tpl _) as [d'|]; [|exact H1].
  rewrite In_writestr. intros [H| ->]; auto.
Qed.

Lemma install_incl (tpl out : package) (c cr : string) name data x :
  In x out -> In x (install_part tpl out c cr name data).
Proof.
  intro H. unfold install_part. destruct data as [d|]; [|exact H].
  assert (H1 : In x (writestr out c d)) by (apply In_writestr; auto).
  destruct name as [nm|]; [|exact H1].
  destruct (String.eqb nm ""); [exact H1|].
  destruct (read tpl _); [|exact H1].
  apply In_writestr. auto.
Qed.

Lemma install_written (tpl out : package) (c cr : string) name d :
  In (c, d) (install_part tpl out c cr name (Some d)).
Proof.
  unfold install_part.
  assert (H1 : In (c, d) (writestr out c d)) by (apply In_writestr; auto).
  destruct name as [nm|]; [|exact H1].
  destruct (String.eqb nm ""); [exact H1|].
  destruct (read tpl _); [|exact H1].
  apply In_writestr. auto.
Qed.

Lemma install_lookup_other (tpl out : package) (c cr : string) name data n :
  n <> c -> n <> cr ->
  lookup (install_part tpl out c cr name data) n = lookup out n.
Proof.
  intros Hc Hcr. unfold install_part. destruct data as [d|]; [|reflexivity].
  assert (H1 : lookup (writestr out c d) n = lookup out n).
  { rewrite lookup_writestr.
    destruct (String.eqb_spec c n); [congruence | reflexivity]. }
  destruct name as [nm|]; [|exact H1].
  destruct (String.eqb nm ""); [exact H1|].
  destruct (read tpl _); [|exact H1].
  rewrite lookup_writestr.
  destruct (String.eqb_spec cr n); [congruence | exact H1].
Qed.

Lemma install_lookup_canonical (tpl out : package) (c cr : string) name d :
  c <> cr ->
  lookup (install_part tpl out c cr name (Some d)) c = Some d.
Proof.
  intro Hne. unfold install_part.
  assert (H1 : lookup (writestr out c d) c = Some d).
  { rewrite lookup_writestr. now rewrite String.eqb_refl. }
  destruct name as [nm|]; [|exact H1].
  destruct (String.eqb nm ""); [exact H1|].
  destruct (read tpl _); [|exact H1].
  rewrite lookup_writestr.
  destruct (String.eqb_spec cr c); [congruence | exact H1].
Qed.

(** *** Names with the media prefix are pass-through names *)

Lemma media_passthrough (m : string) :
  Str.startswith "word/media/" m = true -> passthrough m = true.
Proof.
  intro H. apply startswith_app in H as [r ->]. reflexivity.
Qed.

Lemma media_not_canonical (m : string) :
  Str.startswith "word/media/" m = true ->
  m <> "word/header1.xml" /\ m <> "word/_rels/header1.xml.rels"
  /\ m <> "word/footer1.xml" /\ m <> "word/_rels/footer1.xml.rels"
  /\ m <> "[Content_Types].xml" /\ m <> "word/_rels/document.xml.rels"
  /\ m <> "word/document.xml".
Proof.
  intro H. apply startswith_app in H as [r ->].
  repeat split; discriminate.
Qed.

Lemma passthrough_not_canonical (n : string) :
  passthrough n = true ->
  n <> "word/header1.xml" /\ n <> "word/_rels/header1.xml.rels"
  /\ n <> "word/footer1.xml" /\ n <> "word/_rels/footer1.xml.rels"
  /\ n <> "[Content_Types].xml" /\ n <> "word/_rels/document.xml.rels"
  /\ n <> "word/document.xml".
Proof.
  intro H. repeat split; intros ->; discriminate H.
Qed.

(** The staged copy reads back what the source reads. *)
Lemma copied_lookup (src : package) (n : string) :
  In n (namelist src) -> passthrough n = true ->
  lookup (flat_map (staged src) (namelist src)) n = lookup src n.
Proof.
  intros Hin Hp. destruct (lookup_namelist _ _ Hin) as [b Hb].
  rewrite Hb. apply lookup_unique.
  - apply (in_map fst) with (x := (n, b)).
    apply staged_In. auto.
  - intros b' H. apply staged_In in H as (_ & _ & H). congruence.
Qed.

Lemma copied_names (src : package) (n : string) :
  In n (namelist (flat_map (staged src) (namelist src))) <->
  In n (namelist src) /\ passthrough n = true.
Proof.
  unfold namelist at 1. rewrite in_map_iff. split.
  - intros [[m b] [Hfst H]]. simpl in Hfst. subst m.
    apply staged_In in H. tauto.
  - intros [Hin Hp]. destruct (lookup_namelist _ _ Hin) as [b Hb].
    exists (n, b). split; [reflexivity|]. apply staged_In. auto.
Qed.

End OutFacts.

(* ================================================================== *)
(** ** What a successful run of the transform computed *)

Module RunFacts.
Import Xml Zip Docx StrFacts ZipFacts LoopFacts OutFacts.

Section Run.

Variable fromstring : bytes -> option element.
Variable tostring : element -> bytes.

Lemma replace_inv (src tpl : package) (st : locals) :
  _replace_header_footer_parts fromstring tostring src tpl = Ok st ->
  exists hs fs added rels0 doc0 ct0 rels1 used1 used2,
    (agrees tpl hs
     /\ forall n, In n (keys hs) <->
                  In n (namelist tpl) /\ is_tpl_header n = true)
    /\ (agrees tpl fs
        /\ forall n, In n (keys fs) <->
                     In n (namelist tpl) /\ is_tpl_footer n = true)
    /\ _pick_first_part hs = (tpl_header_name st, tpl_header_bytes st)
    /\ _pick_first_part fs = (tpl_footer_name st, tpl_footer_bytes st)
    /\ ((forall m b, In (m, b) added ->
            Str.startswith "word/media/" m = true
            /\ lookup tpl m = Some b
            /\ ~ In m (namelist
                         (flat_map (staged src) (namelist src))))
        /\ (forall m, In m (namelist tpl) ->
               Str.startswith "word/media/" m = true ->
               In m (namelist
                       (flat_map (staged src) (namelist src) ++ added)))
        /\ NoDup (namelist added))
    /\ out_zip st =
       written tpl (flat_map (staged src) (namelist src) ++ added)
               (tpl_header_name st) (tpl_header_bytes st)
               (tpl_footer_name st) (tpl_footer_bytes st)
               (tostring (ct_root st)) (tostring (rels_root st))
               (tostring (doc_root st))
    /\ parse_or fromstring (lookup src "word/_rels/document.xml.rels")
                (new rel_Relationships) = Ok rels0
    /\ add_relationship (tpl_header_bytes st) header_type_uri
         "header1.xml"
         (set_children rels0
            (snd (strip_relationships (children rels0) [])),
          fst (strip_relationships (children rels0) []))
       = Ok (rels1, used1, header_rel_id st)
    /\ add_relationship (tpl_footer_bytes st) footer_type_uri
         "footer1.xml" (rels1, used1)
       = Ok (rels_root st, used2, footer_rel_id st)
    /\ parse_or fromstring (lookup src "word/document.xml")
                minimal_document = Ok doc0
    /\ doc_root st =
       update_document (header_rel_id st) (footer_rel_id st) doc0
    /\ parse_or fromstring (lookup src "[Content_Types].xml")
                (new ct_Types) = Ok ct0
    /\ ct_root st =
       ensure_override_if (tpl_footer_bytes st)
         (ensure_override_if (tpl_header_bytes st) ct0
            "/word/header1.xml" header_content_type)
         "/word/footer1.xml" footer_content_type.
Proof.
  unfold _replace_header_footer_parts. intro H.
  destruct (copy_source_ok src) as (buf & Hc & Hcop & Hdoc & Hrels & Hct).
  rewrite Hc in H. cbn [bind] in H.
  destruct (collect_ok tpl) as (hs & fs & Hcol & Ah & Af & Kh & Kf).
  rewrite Hcol in H. cbn [bind] in H.
  destruct (_pick_first_part hs) as [h_name h_bytes] eqn:Ph.
  destruct (_pick_first_part fs) as [f_name f_bytes] eqn:Pf.
  destruct (media_ok src tpl (copied buf) []) as (added & Hm & M1 & M2 & M3).
  rewrite Hm in H. cbn [bind] in H.
  rewrite Hcop, Hdoc, Hrels, Hct in *.
  destruct (parse_or fromstring
              (lookup src "word/_rels/document.xml.rels") _)
    as [rels0|] eqn:Pr; [|discriminate]. cbn [bind] in H.
  destruct (strip_relationships (children rels0) [])
    as [used_ids kept] eqn:Es.
  destruct (add_relationship h_bytes _ _ _)
    as [[[rels1 used1] h_id]|] eqn:A1; [|discriminate]. cbn [bind] in H.
  destruct (add_relationship f_bytes _ _ _)
    as [[[rels2 used2] f_id]|] eqn:A2; [|discriminate]. cbn [bind] in H.
  destruct (parse_or fromstring (lookup src "word/document.xml") _)
    as [doc0|] eqn:Pd; [|discriminate]. cbn [bind] in H.
  destruct (parse_or fromstring (lookup src "[Content_Types].xml") _)
    as [ct0|] eqn:Pc; [|discriminate]. cbn [bind] in H.
  injection H as <-.
  exists hs, fs, added, rels0, doc0, ct0, rels1, used1, used2.
  rewrite Es.
  cbn [out_zip tpl_header_name tpl_header_bytes tpl_footer_name
       tpl_footer_bytes header_rel_id footer_rel_id rels_root doc_root
       ct_root fst snd].
  repeat (split; [solve [auto | reflexivity | eassumption]|]).
  reflexivity.
Qed.

End Run.

End RunFacts.

(* ================================================================== *)
(** ** Reading the written package *)

Module WrittenFacts.
Import Xml Zip Docx StrFacts ZipFacts LoopFacts OutFacts.

Section Written.

Variables (tpl base : package).
Variables (hn : option string) (hb : option bytes).
Variables (fn : option string) (fb : option bytes).
Variables (ct rels doc : bytes).

Let out := written tpl base hn hb fn fb ct rels doc.

Lemma written_lookup_other (n : string) :
  ~ reserved n -> lookup out n = lookup base n.
Proof.
  unfold reserved. intro H. unfold out, written.
  rewrite !lookup_writestr.
  destruct (String.eqb_spec "word/document.xml" n);
    [exfalso; apply H; subst; auto 10|].
  destruct (String.eqb_spec "word/_rels/document.xml.rels" n);
    [exfalso; apply H; subst; auto 10|].
  destruct (String.eqb_spec "[Content_Types].xml" n);
    [exfalso; apply H; subst; auto 10|].
  do 2 (rewrite install_lookup_other
         by (intro; apply H; subst; auto 10)).
  reflexivity.
Qed.

Lemma written_incl x : In x base -> In x out.
Proof.
  intro H. unfold out, written. rewrite !In_writestr.
  left. left. left. now do 2 apply install_incl.
Qed.

Lemma written_cases x :
  In x out ->
  In x base
  \/ (fst x = "word/header1.xml" /\ hb = Some (snd x))
  \/ (fst x = "word/footer1.xml" /\ fb = Some (snd x))
  \/ fst x = "word/_rels/header1.xml.rels"
  \/ fst x = "word/_rels/footer1.xml.rels"
  \/ fst x = "[Content_Types].xml"
  \/ fst x = "word/_rels/document.xml.rels"
  \/ fst x = "word/document.xml".
Proof.
  unfold out, written. rewrite !In_writestr.
  intros [[[H| ->]| ->]| ->]; simpl; auto 10.
  apply install_In in H as [H|[[H1 H2]|H]]; auto 10.
  apply install_In in H as [H|[[H1 H2]|H]]; auto 10.
Qed.

Lemma written_document : lookup out "word/document.xml" = Some doc.
Proof. unfold out, written. now rewrite lookup_writestr. Qed.

Lemma written_rels :
  lookup out "word/_rels/document.xml.rels" = Some rels.
Proof. unfold out, written. now rewrite !lookup_writestr. Qed.

Lemma written_content_types :
  lookup out "[Content_Types].xml" = Some ct.
Proof. unfold out, written. now rewrite !lookup_writestr. Qed.

Lemma written_footer_lookup :
  lookup out "word/footer1.xml" =
  match fb with
  | Some d => Some d
  | None => lookup base "word/footer1.xml"
  end.
Proof.
  unfold out, written. rewrite !lookup_writestr. cbn [String.eqb].
  change (("[Content_Types].xml" =? "word/footer1.xml")%string)
    with false.
  change (("word/_rels/document.xml.rels" =? "word/footer1.xml")%string)
    with false.
  change (("word/document.xml" =? "word/footer1.xml")%string) with false.
  cbv iota.
  destruct fb as [d|].
  - apply install_lookup_canonical. discriminate.
  - cbn [install_part].
    destruct hb; [|reflexivity].
    apply install_lookup_other; discriminate.
Qed.

Lemma written_header_lookup :
  lookup out "word/header1.xml" =
  match hb with
  | Some d => Some d
  | None => lookup base "word/header1.xml"
  end.
Proof.
  unfold out, written. rewrite !lookup_writestr.
  change (("[Content_Types].xml" =? "word/header1.xml")%string)
    with false.
  change (("word/_rels/document.xml.rels" =? "word/header1.xml")%string)
    with false.
  change (("word/document.xml" =? "word/header1.xml")%string) with false.
  cbv iota.
  rewrite install_lookup_other by discriminate.
  destruct hb as [d|]; [|reflexivity].
  apply install_lookup_canonical. discriminate.
Qed.

Lemma written_header_In (d : bytes) :
  hb = Some d -> In ("word/header1.xml", d) out.
Proof.
  intros E. unfold out, written. rewrite !In_writestr.
  left. left. left. apply install_incl. rewrite E.
  apply install_written.
Qed.

Lemma written_footer_In (d : bytes) :
  fb = Some d -> In ("word/footer1.xml", d) out.
Proof.
  intros E. unfold out, written. rewrite !In_writestr.
  left. left. left. rewrite E. apply install_written.
Qed.

End Written.

End WrittenFacts.

(* ================================================================== *)
(** ** Theorems on the entries of the output package *)

Module PackageTheorems.
Import Xml Zip Docx StrFacts ZipFacts LoopFacts OutFacts RunFacts
       WrittenFacts.

Lemma NoDup_lookup (z : package) (n : string) (b : bytes) :
  NoDup (namelist z) -> In (n, b) z -> lookup z n = Some b.
Proof.
  induction z as [|[m c] z IH]; simpl; [tauto|].
  intros Hnd [[= -> ->]|Hin]; inversion Hnd as [|? ? Hm Hz]; subst.
  - apply lookup_None in Hm. rewrite Hm. now rewrite String.eqb_refl.
  - now rewrite (IH Hz Hin).
Qed.

Lemma passthrough_intro (n : string) :
  n <> "word/document.xml" -> n <> "word/_rels/document.xml.rels" ->
  n <> "[Content_Types].xml" ->
  is_header_footer_part n = false -> is_header_footer_rels n = false ->
  passthrough n = true.
Proof.
  intros H1 H2 H3 H4 H5. unfold passthrough.
  apply String.eqb_neq in H1, H2, H3. now rewrite H1, H2, H3, H4, H5.
Qed.

Lemma startswith_refl_app (p r : string) :
  Str.startswith p (String.append p r) = true.
Proof.
  unfold Str.startswith. induction p as [|a p IH]; simpl.
  - now destruct r.
  - destruct (ascii_dec a a); [exact IH | congruence].
Qed.

Section Package.

Variable fromstring : bytes -> option element.
Variable tostring : element -> bytes.

#[local] Abbreviation transform :=
  (_replace_header_footer_parts fromstring tostring).

Lemma passthrough_reads (src tpl : package) (st : locals) (n : string) :
  transform src tpl = Ok st ->
  In n (namelist src) -> passthrough n = true ->
  exists b, lookup src n = Some b
            /\ In (n, b) (out_zip st)
            /\ lookup (out_zip st) n = Some b.
Proof.
  intros Hrun Hin Hp.
  destruct (replace_inv _ _ _ _ _ Hrun)
    as (hs & fs & added & rels0 & doc0 & ct0 & rels1 & used1 & used2
        & _ & _ & _ & _ & (M1 & _ & _) & Hout & _).
  destruct (lookup_namelist _ _ Hin) as [b Hb].
  exists b. split; [exact Hb|]. rewrite Hout. split.
  - apply written_incl. apply in_or_app. left. apply staged_In. auto.
  - rewrite written_lookup_other.
    2:{ pose proof (passthrough_not_canonical n Hp).
        unfold reserved. tauto. }
    rewrite lookup_app.
    destruct (lookup added n) as [b'|] eqn:E.
    + apply lookup_In in E. apply M1 in E as (_ & _ & E).
      exfalso. apply E. apply copied_names. auto.
    + rewrite copied_lookup; auto.
Qed.

(** C2.  Every source entry that is neither one of the three structured
    parts nor a header/footer part nor a header/footer relationship
    file is in the output under the same name with the bytes the source
    archive reads under that name, and the output archive reads these
    bytes back; when the source names are unique this holds of every
    source entry as a (name, bytes) pair. *)
Theorem passthrough_entries_copied
        (src tpl : package) (st : locals) (n : string) :
  transform src tpl = Ok st ->
  In n (namelist src) ->
  n <> "word/document.xml" ->
  n <> "word/_rels/document.xml.rels" ->
  n <> "[Content_Types].xml" ->
  is_header_footer_part n = false ->
  is_header_footer_rels n = false ->
  (exists b, lookup src n = Some b
             /\ In (n, b) (out_zip st)
             /\ lookup (out_zip st) n = Some b)
  /\ (NoDup (namelist src) ->
      forall b, In (n, b) src ->
                In (n, b) (out_zip st)
                /\ lookup (out_zip st) n = Some b).
Proof.
  intros Hrun Hin H1 H2 H3 H4 H5.
  pose proof (passthrough_intro n H1 H2 H3 H4 H5) as Hp.
  destruct (passthrough_reads _ _ _ _ Hrun Hin Hp) as (b & Hb & Hi & Hl).
  split; [now exists b|].
  intros Hnd b' Hb'. apply (NoDup_lookup _ _ _ Hnd) in Hb'.
  assert (b' = b) by congruence. subst. auto.
Qed.

(** The part written under a canonical name is the one [sorted] puts
    first. *)
Lemma selected_part (tpl : package) (parts : dict)
      (p : string -> bool) (name : option string) (data : option bytes) :
  agrees tpl parts ->
  (forall n, In n (keys parts) <-> In n (namelist tpl) /\ p n = true) ->
  _pick_first_part parts = (name, data) ->
  (exists n, In n (namelist tpl) /\ p n = true) ->
  exists nm d,
    name = Some nm /\ data = Some d
    /\ Str.least nm (filter p (namelist tpl))
    /\ lookup tpl nm = Some d.
Proof.
  intros Ha Hk Hp [n Hn].
  assert (Hne : parts <> []).
  { intros ->. apply Hk in Hn. destruct Hn. }
  destruct (pick_some parts Hne) as (nm & d & E & [Hin Hle] & Hd).
  rewrite E in Hp. injection Hp as <- <-.
  exists nm, d. repeat split; auto.
  - apply filter_In. now apply Hk.
  - intros m Hm. apply Hle. apply Hk. now apply filter_In.
Qed.

(** C3.  When the template has a header part, [word/header1.xml] of the
    output holds the bytes of the template header part whose name is
    least in the order of strings; the same for footers. *)
Theorem canonical_parts_from_smallest_name
        (src tpl : package) (st : locals) :
  transform src tpl = Ok st ->
  ((exists n, In n (namelist tpl) /\ is_tpl_header n = true) ->
   exists name data,
     Str.least name (filter is_tpl_header (namelist tpl))
     /\ lookup tpl name = Some data
     /\ In ("word/header1.xml", data) (out_zip st)
     /\ lookup (out_zip st) "word/header1.xml" = Some data)
  /\ ((exists n, In n (namelist tpl) /\ is_tpl_footer n = true) ->
      exists name data,
        Str.least name (filter is_tpl_footer (namelist tpl))
        /\ lookup tpl name = Some data
        /\ In ("word/footer1.xml", data) (out_zip st)
        /\ lookup (out_zip st) "word/footer1.xml" = Some data).
Proof.
  intro Hrun.
  destruct (replace_inv _ _ _ _ _ Hrun)
    as (hs & fs & added & rels0 & doc0 & ct0 & rels1 & used1 & used2
        & (Ah & Kh) & (Af & Kf) & Ph & Pf & _ & Hout & _).
  split; intro Hex.
  - destruct (selected_part _ _ _ _ _ Ah Kh Ph Hex)
      as (nm & d & _ & Hd & Hl & Ht).
    exists nm, d. rewrite Hout. repeat split; try apply Hl; auto.
    + now apply written_header_In.
    + rewrite written_header_lookup. now rewrite Hd.
  - destruct (selected_part _ _ _ _ _ Af Kf Pf Hex)
      as (nm & d & _ & Hd & Hl & Ht).
    exists nm, d. rewrite Hout. repeat split; try apply Hl; auto.
    + now apply written_footer_In.
    + rewrite written_footer_lookup. now rewrite Hd.
Qed.

(** C4, as the code has it.  A template entry under [word/media/] is
    in the output with the template's bytes when the source has no entry
    of that name; when the source has one, the output keeps the source's
    bytes under that name. *)
Theorem template_media_copied_unless_present
        (src tpl : package) (st : locals) (m : string) :
  transform src tpl = Ok st ->
  In m (namelist tpl) ->
  Str.startswith "word/media/" m = true ->
  (~ In m (namelist src) ->
   exists b, lookup tpl m = Some b
             /\ In (m, b) (out_zip st)
             /\ lookup (out_zip st) m = Some b)
  /\ (In m (namelist src) ->
      exists b, lookup src m = Some b
                /\ In (m, b) (out_zip st)
                /\ lookup (out_zip st) m = Some b).
Proof.
  intros Hrun Hin Hm. split; intro Hsrc.
  - destruct (replace_inv _ _ _ _ _ Hrun)
      as (hs & fs & added & rels0 & doc0 & ct0 & rels1 & used1 & used2
          & _ & _ & _ & _ & (M1 & M2 & M3) & Hout & _).
    specialize (M2 m Hin Hm). rewrite namelist_app in M2.
    apply in_app_or in M2 as [M2|M2].
    { apply copied_names in M2. tauto. }
    assert (Hl : exists b, lookup added m = Some b)
      by now apply lookup_namelist.
    destruct Hl as [b Hb]. pose proof (lookup_In _ _ _ Hb) as Hi.
    exists b. split; [now apply M1 in Hi|]. rewrite Hout. split.
    + apply written_incl. apply in_or_app. now right.
    + rewrite written_lookup_other.
      2:{ pose proof (media_not_canonical m Hm).
          unfold reserved. tauto. }
      rewrite lookup_app. now rewrite Hb.
  - apply (passthrough_reads _ _ _ _ Hrun Hsrc).
    now apply media_passthrough.
Qed.

(** C9, as the code has it.  An entry is a header/footer part exactly
    when its whole name starts with [word/header] or [word/footer] and
    ends with [.xml]; the output holds nothing under such a name except
    the canonical parts installed from the template, and a source entry
    that falls in none of the five classes is copied with its bytes. *)
Theorem header_footer_parts_by_name_prefix
        (src tpl : package) (st : locals) (n : string) :
  transform src tpl = Ok st ->
  (is_header_footer_part n = true <->
   (exists r, n = String.append "word/header" r
              \/ n = String.append "word/footer" r)
   /\ Str.endswith ".xml" n = true)
  /\ (is_header_footer_part n = true ->
      forall b, In (n, b) (out_zip st) ->
                (n = "word/header1.xml" /\ tpl_header_bytes st = Some b)
                \/ (n = "word/footer1.xml"
                    /\ tpl_footer_bytes st = Some b))
  /\ (In n (namelist src) ->
      is_header_footer_part n = false ->
      is_header_footer_rels n = false ->
      n <> "word/document.xml" ->
      n <> "word/_rels/document.xml.rels" ->
      n <> "[Content_Types].xml" ->
      exists b, lookup src n = Some b
                /\ In (n, b) (out_zip st)
                /\ lookup (out_zip st) n = Some b).
Proof.
  intro Hrun. split; [|split].
  - unfold is_header_footer_part. rewrite andb_true_iff, orb_true_iff.
    split.
    + intros [[H|H] He]; apply startswith_app in H as [r Hr];
        (split; [exists r; auto | exact He]).
    + intros [[r [-> | ->]] He]; (split; [|exact He]);
        [left | right]; apply startswith_refl_app.
  - intros Hp b Hin.
    destruct (replace_inv _ _ _ _ _ Hrun)
      as (hs & fs & added & rels0 & doc0 & ct0 & rels1 & used1 & used2
          & _ & _ & _ & _ & (M1 & _ & _) & Hout & _).
    rewrite Hout in Hin. apply written_cases in Hin. simpl in Hin.
    destruct Hin as [Hin|[[-> E]|[[-> E]|Hin]]]; auto.
    + exfalso. apply in_app_or in Hin as [Hin|Hin].
      * apply staged_In in Hin as (_ & Hc & _).
        unfold passthrough in Hc. rewrite Hp in Hc.
        rewrite !andb_false_r in Hc. discriminate.
      * apply M1 in Hin as (Hm & _ & _).
        apply media_passthrough in Hm.
        unfold passthrough in Hm. rewrite Hp in Hm.
        rewrite !andb_false_r in Hm. discriminate.
    + exfalso. destruct Hin as [-> |[-> |[-> |[-> | ->]]]];
        discriminate Hp.
  - intros Hin H4 H5 H1 H2 H3.
    apply (passthrough_reads _ _ _ _ Hrun Hin).
    now apply passthrough_intro.
Qed.

End Package.

(** C4 as stated fails: the source and the template both have
    [word/media/image1.png]; the output keeps the source's bytes and has
    no entry with the template's. *)
Lemma template_media_not_copied_over_source :
  match _replace_header_footer_parts Demo.fromstring Demo.tostring
                                     Demo.src Demo.tpl with
  | Ok st =>
      lookup Demo.tpl "word/media/image1.png"
      = Some (Demo.b "template image")
      /\ ~ In ("word/media/image1.png", Demo.b "template image")
             (out_zip st)
      /\ lookup (out_zip st) "word/media/image1.png"
         = Some (Demo.b "source image")
  | Raise _ => False
  end.
Proof.
  vm_compute. split; [reflexivity|]. split; [|reflexivity].
  intro H. repeat (destruct H as [H|H]; [discriminate H|]). exact H.
Qed.

(** C9 as stated fails: the base name of [word/headerparts/x.xml] starts
    with neither [header] nor [footer], yet the entry is classified as a
    header/footer part and the output has no entry of that name. *)
Lemma subdirectory_entry_dropped :
  Str.basename "word/headerparts/x.xml" = "x.xml"
  /\ is_header_footer_part "word/headerparts/x.xml" = true
  /\ In "word/headerparts/x.xml" (namelist Demo.src)
  /\ match _replace_header_footer_parts Demo.fromstring Demo.tostring
                                        Demo.src Demo.tpl with
     | Ok st => ~ In "word/headerparts/x.xml" (namelist (out_zip st))
     | Raise _ => False
     end.
Proof.
  split; [reflexivity|]. split; [reflexivity|].
  split; [vm_compute; tauto|].
  vm_compute.
  intro H. repeat (destruct H as [H|H]; [discriminate H|]). exact H.
Qed.

Lemma demo_run :
  _replace_header_footer_parts Demo.fromstring Demo.tostring
                               Demo.src Demo.tpl = Ok Demo.st.
Proof. vm_compute. reflexivity. Qed.

Lemma passthrough_entries_copied_witness :
  (exists b, lookup Demo.src "word/styles.xml" = Some b
             /\ In ("word/styles.xml", b) (out_zip Demo.st)
             /\ lookup (out_zip Demo.st) "word/styles.xml" = Some b)
  /\ (NoDup (namelist Demo.src) ->
      forall b, In ("word/styles.xml", b) Demo.src ->
                In ("word/styles.xml", b) (out_zip Demo.st)
                /\ lookup (out_zip Demo.st) "word/styles.xml" = Some b).
Proof.
  apply (passthrough_entries_copied Demo.fromstring Demo.tostring
           Demo.src Demo.tpl Demo.st "word/styles.xml").
  - vm_compute. reflexivity.
  - vm_compute. tauto.
  - discriminate.
  - discriminate.
  - discriminate.
  - reflexivity.
  - reflexivity.
Defined.

Lemma canonical_parts_from_smallest_name_witness :
  exists name data,
    Str.least name (filter is_tpl_header (namelist Demo.tpl))
    /\ lookup Demo.tpl name = Some data
    /\ In ("word/header1.xml", data) (out_zip Demo.st)
    /\ lookup (out_zip Demo.st) "word/header1.xml" = Some data.
Proof.
  apply (proj1 (canonical_parts_from_smallest_name
                  Demo.fromstring Demo.tostring Demo.src Demo.tpl Demo.st
                  ltac:(vm_compute; reflexivity))).
  exists "word/header1.xml". split; [vm_compute; tauto | reflexivity].
Defined.

Lemma template_media_copied_unless_present_witness :
  (~ In "word/media/logo.png" (namelist Demo.src) ->
   exists b, lookup Demo.tpl "word/media/logo.png" = Some b
             /\ In ("word/media/logo.png", b) (out_zip Demo.st)
             /\ lookup (out_zip Demo.st) "word/media/logo.png" = Some b)
  /\ (In "word/media/logo.png" (namelist Demo.src) ->
      exists b, lookup Demo.src "word/media/logo.png" = Some b
                /\ In ("word/media/logo.png", b) (out_zip Demo.st)
                /\ lookup (out_zip Demo.st) "word/media/logo.png" = Some b).
Proof.
  apply (template_media_copied_unless_present Demo.fromstring Demo.tostring
           Demo.src Demo.tpl Demo.st "word/media/logo.png").
  - vm_compute. reflexivity.
  - vm_compute. tauto.
  - reflexivity.
Defined.

Lemma header_footer_parts_by_name_prefix_witness :
  ("word/header1.xml" = "word/header1.xml"
   /\ tpl_header_bytes Demo.st = Some (Demo.b "H1"))
  \/ ("word/header1.xml" = "word/footer1.xml"
      /\ tpl_footer_bytes Demo.st = Some (Demo.b "H1")).
Proof.
  apply (proj1 (proj2 (header_footer_parts_by_name_prefix
                         Demo.fromstring Demo.tostring Demo.src Demo.tpl
                         Demo.st "word/header1.xml"
                         ltac:(vm_compute; reflexivity)))).
  - reflexivity.
  - vm_compute. tauto.
Defined.

End PackageTheorems.

(* ================================================================== *)
(** ** The relationship manifest *)

Module RelsFacts.
Import Xml Zip Docx StrFacts.

Lemma add_id_In (rel : element) (used : list string) (x : string) :
  In x (add_id rel used) <->
  In x used \/ (get rel "Id" = Some x /\ x <> "").
Proof.
  unfold add_id. destruct (get rel "Id") as [rid|].
  - destruct (String.eqb_spec rid "") as [->|Hne]; simpl.
    + intuition congruence.
    + split.
      * intros [<-|H]; auto.
      * intros [H|[[= ->] _]]; auto.
  - intuition congruence.
Qed.

Lemma strip_kept (rels : list element) (used : list string) :
  snd (strip_relationships rels used) =
  filter (fun rel =>
            negb (is_relationship rel && is_header_footer_type rel)) rels.
Proof.
  revert used. induction rels as [|rel rels IH]; intro used; simpl.
  - reflexivity.
  - destruct (is_relationship rel); simpl.
    + specialize (IH (add_id rel used)).
      destruct (strip_relationships rels (add_id rel used)) as [u k].
      simpl in IH. subst k.
      now destruct (is_header_footer_type rel).
    + specialize (IH used).
      destruct (strip_relationships rels used) as [u k].
      simpl in IH. now subst k.
Qed.

Lemma strip_used (rels : list element) (used : list string) (x : string) :
  In x (fst (strip_relationships rels used)) <->
  In x used \/ (In x (ids_of rels) /\ x <> "").
Proof.
  revert used. induction rels as [|rel rels IH]; intro used; simpl.
  - tauto.
  - unfold id_of. destruct (is_relationship rel); simpl.
    + specialize (IH (add_id rel used)).
      destruct (strip_relationships rels (add_id rel used)) as [u k].
      simpl in IH.
      assert (Hu : In x u <->
                   In x (add_id rel used)
                   \/ (In x (ids_of rels) /\ x <> "")) by exact IH.
      assert (Hgoal : In x u <->
                      In x used
                      \/ In x (match get rel "Id" with
                               | Some rid => [rid]
                               | None => []
                               end ++ ids_of rels) /\ x <> "").
      { rewrite Hu, add_id_In, in_app_iff.
        destruct (get rel "Id") as [rid|]; simpl;
          intuition (subst; try congruence; auto). }
      now destruct (is_header_footer_type rel).
    + specialize (IH used).
      destruct (strip_relationships rels used) as [u k]. exact IH.
Qed.

Lemma ids_of_app (l1 l2 : list element) :
  ids_of (l1 ++ l2) = ids_of l1 ++ ids_of l2.
Proof. apply flat_map_app. Qed.

Lemma ids_of_filter_incl (p : element -> bool) (rels : list element) :
  incl (ids_of (filter p rels)) (ids_of rels).
Proof.
  intros x H. unfold ids_of in *. apply in_flat_map in H as [e [He Hx]].
  apply filter_In in He as [He _]. apply in_flat_map. eauto.
Qed.

Lemma ids_of_filter_NoDup (p : element -> bool) (rels : list element) :
  NoDup (ids_of rels) -> NoDup (ids_of (filter p rels)).
Proof.
  induction rels as [|rel rels IH]; simpl; [auto|].
  intro H.
  pose proof (NoDup_app_remove_l _ _ H) as Hr.
  destruct (p rel); [|auto].
  change (ids_of (rel :: filter p rels))
    with (id_of rel ++ ids_of (filter p rels)).
  apply NoDup_app.
  - now apply NoDup_app_remove_r in H.
  - auto.
  - intros a Ha Hf. apply ids_of_filter_incl in Hf.
    clear IH Hr. revert H Ha Hf. generalize (id_of rel) as l.
    induction l as [|b l IHl]; simpl; [tauto|].
    intros Hnd [<-|Ha] Hf; inversion Hnd; subst.
    + match goal with
      | Hnin : ~ In _ (_ ++ _) |- _ => apply Hnin
      end.
      apply in_or_app. now right.
    + eauto.
Qed.

(** *** Fresh ids *)

Lemma candidate_inj (i j : N) : candidate i = candidate j -> i = j.
Proof.
  unfold candidate. simpl. intros [= H]. now apply of_N_inj.
Qed.

Lemma new_rid_from_spec (fuel : nat) (i : N) (used : list string)
      (c : string) (used' : list string) :
  new_rid_from fuel i used = Ok (c, used') ->
  exists k, (i <= k)%N /\ c = candidate k
            /\ ~ In c used /\ used' = c :: used.
Proof.
  revert i. induction fuel as [|fuel IH]; intro i; simpl; [discriminate|].
  destruct (Str.mem (candidate i) used) eqn:E; simpl.
  - intro H. destruct (IH _ H) as (k & Hk & ?). exists k.
    split; [lia | assumption].
  - intros [= <- <-]. exists i. apply mem_false in E.
    repeat split; auto. lia.
Qed.

(** The loop of [new_rid] ends: among [length l + 1] consecutive
    candidates one is not in use. *)
Lemma new_rid_from_total (fuel : nat) :
  forall (i : N) (used l : list string),
    List.length l < fuel ->
    (forall j, (i <= j)%N -> In (candidate j) used -> In (candidate j) l) ->
    exists c, new_rid_from fuel i used = Ok (c, c :: used).
Proof.
  induction fuel as [|fuel IH]; intros i used l Hlen Hl; [lia|].
  simpl. destruct (Str.mem (candidate i) used) eqn:E; simpl.
  - apply mem_In in E.
    assert (Hin : In (candidate i) l) by (apply Hl; [lia | exact E]).
    apply (IH (i + 1)%N used (remove string_dec (candidate i) l)).
    + pose proof (remove_length_lt string_dec l (candidate i) Hin). lia.
    + intros j Hj Hu. apply in_in_remove.
      * intro Heq. apply candidate_inj in Heq. lia.
      * apply Hl; [lia | exact Hu].
  - now exists (candidate i).
Qed.

Lemma new_rid_total (used : list string) :
  exists c, new_rid used = Ok (c, c :: used).
Proof.
  unfold new_rid. apply (new_rid_from_total _ 9001%N used used); auto.
Qed.

Lemma new_rid_spec (used : list string) (c : string)
      (used' : list string) :
  new_rid used = Ok (c, used') ->
  exists k, (9001 <= k)%N /\ c = candidate k
            /\ ~ In c used /\ used' = c :: used.
Proof. apply new_rid_from_spec. Qed.

Lemma manifest_ids_append (root : element) (c ty tg : string) :
  manifest_ids (append root (relationship c ty tg)) =
  manifest_ids root ++ [c].
Proof.
  unfold manifest_ids, append. destruct root as [t a x y cs]. simpl.
  now rewrite ids_of_app.
Qed.

Lemma candidate_not_empty (k : N) : candidate k <> "".
Proof. unfold candidate. simpl. discriminate. Qed.

(** One call of the allocation step: nothing when the template gave no
    part, otherwise a fresh candidate appended to the manifest. *)
Lemma add_relationship_inv (tb : option bytes) (ty tg : string)
      (root : element) (used : list string)
      (root' : element) (used' : list string) (id : option string) :
  add_relationship tb ty tg (root, used) = Ok (root', used', id) ->
  (tb = None /\ id = None /\ root' = root /\ used' = used)
  \/ (exists c k,
        tb <> None /\ id = Some c /\ (9001 <= k)%N /\ c = candidate k
        /\ ~ In c used /\ used' = c :: used
        /\ root' = append root (relationship c ty tg)).
Proof.
  unfold add_relationship. destruct tb as [d|].
  - destruct (new_rid used) as [[c u]|] eqn:E; [|discriminate].
    cbn [bind]. intros [= <- <- <-].
    apply new_rid_spec in E as (k & Hk & Hc & Hn & Hu).
    right. exists c, k. repeat split; auto. discriminate.
  - intros [= <- <- <-]. left. auto.
Qed.

Lemma add_relationship_ok (tb : option bytes) (ty tg : string)
      (root : element) (used : list string) :
  exists r, add_relationship tb ty tg (root, used) = Ok r.
Proof.
  unfold add_relationship. destruct tb as [d|]; [|eauto].
  destruct (new_rid_total used) as [c ->]. cbn [bind]. eauto.
Qed.

End RelsFacts.

(* ================================================================== *)
(** ** Theorems on the relationship manifest *)

Module RelsTheorems.
Import Xml Zip Docx StrFacts RelsFacts RunFacts.

Ltac not_empty :=
  match goal with
  | E : ?c = "", H : ?c = candidate _ |- _ =>
      rewrite H in E; exact (candidate_not_empty _ E)
  end.

Section Rels.

Variable fromstring : bytes -> option element.
Variable tostring : element -> bytes.

#[local] Abbreviation transform :=
  (_replace_header_footer_parts fromstring tostring).

(** C5.  Each id the transform allocates is [rId<n>] with [n >= 9001],
    differs from every id of the source manifest and is in the output
    manifest; the header id and the footer id differ; and when the ids
    of the source manifest are pairwise distinct, so are those of the
    output manifest. *)
Theorem allocated_ids_fresh
        (src tpl : package) (st : locals) (rels0 : element) :
  transform src tpl = Ok st ->
  parse_or fromstring (lookup src "word/_rels/document.xml.rels")
           (new rel_Relationships) = Ok rels0 ->
  (forall id,
      header_rel_id st = Some id \/ footer_rel_id st = Some id ->
      (exists n, (9001 <= n)%N
                 /\ id = String.append "rId" (Str.of_N n))
      /\ ~ In id (manifest_ids rels0)
      /\ In id (manifest_ids (rels_root st)))
  /\ (forall h f, header_rel_id st = Some h ->
                  footer_rel_id st = Some f -> h <> f)
  /\ (NoDup (manifest_ids rels0) ->
      NoDup (manifest_ids (rels_root st))).
Proof.
  intros Hrun Hparse.
  destruct (replace_inv _ _ _ _ _ Hrun)
    as (hs & fs & added & rels0' & doc0 & ct0 & rels1 & used1 & used2
        & _ & _ & _ & _ & _ & _ & Pr & A1 & A2 & _).
  assert (rels0' = rels0) by congruence. subst rels0'. clear Pr.
  set (used0 := fst (strip_relationships (children rels0) [])) in *.
  assert (Hused0 : forall x, In x (manifest_ids rels0) ->
                             x = "" \/ In x used0).
  { intros x Hx. destruct (string_dec x "") as [|Hne]; [now left|].
    right. apply strip_used. right. auto. }
  assert (Hkept : incl (manifest_ids
                          (set_children rels0
                             (snd (strip_relationships
                                     (children rels0) []))))
                       (manifest_ids rels0)
                  /\ (NoDup (manifest_ids rels0) ->
                      NoDup (manifest_ids
                               (set_children rels0
                                  (snd (strip_relationships
                                          (children rels0) [])))))).
  { rewrite strip_kept. unfold manifest_ids.
    destruct rels0 as [t a x y cs]. simpl. split.
    - apply ids_of_filter_incl.
    - apply ids_of_filter_NoDup. }
  destruct Hkept as [Hincl Hnd].
  set (base := set_children rels0
                 (snd (strip_relationships (children rels0) []))) in *.
  apply add_relationship_inv in A1, A2.
  destruct A1 as [(_ & -> & -> & ->)
                 |(c1 & k1 & _ & -> & Hk1 & Hc1 & Hn1 & -> & ->)];
    destruct A2 as [(_ & -> & -> & _)
                   |(c2 & k2 & _ & -> & Hk2 & Hc2 & Hn2 & _ & ->)];
    rewrite ?manifest_ids_append.
  - split; [|split]; [intros id [H|H]; discriminate
                     | intros; discriminate | exact Hnd].
  - split; [|split].
    + intros id [H|[= <-]]; [discriminate|].
      split; [exists k2; split; [exact Hk2 | exact Hc2]|].
      split; [|apply in_or_app; right; now left].
      intro Hin. apply Hused0 in Hin as [E|Hin]; [|contradiction].
      not_empty.
    + intros; discriminate.
    + intro H. apply NoDup_app; auto.
      * constructor; [tauto | constructor].
      * intros a Ha [<-|[]]. apply Hincl, Hused0 in Ha as [E|Ha];
          [|contradiction].
        not_empty.
  - split; [|split].
    + intros id [[= <-]|H]; [|discriminate].
      split; [exists k1; split; [exact Hk1 | exact Hc1]|].
      split; [|apply in_or_app; right; now left].
      intro Hin. apply Hused0 in Hin as [E|Hin]; [|contradiction].
      not_empty.
    + intros; discriminate.
    + intro H. apply NoDup_app; auto.
      * constructor; [tauto | constructor].
      * intros a Ha [<-|[]]. apply Hincl, Hused0 in Ha as [E|Ha];
          [|contradiction].
        not_empty.
  - assert (Hf1 : ~ In c1 (manifest_ids rels0)).
    { intro Hin. apply Hused0 in Hin as [E|Hin]; [|contradiction].
      not_empty. }
    assert (Hf2 : ~ In c2 (manifest_ids rels0)).
    { intro Hin. apply Hused0 in Hin as [E|Hin].
      - not_empty.
      - apply Hn2. now right. }
    assert (Hne : c1 <> c2).
    { intros ->. apply Hn2. now left. }
    split; [|split].
    + intros id [[= <-]|[= <-]].
      * split; [exists k1; split; [exact Hk1 | exact Hc1]|].
        split; [exact Hf1|].
        apply in_or_app. left. apply in_or_app. right. now left.
      * split; [exists k2; split; [exact Hk2 | exact Hc2]|].
        split; [exact Hf2|].
        apply in_or_app. right. now left.
    + intros h f [= <-] [= <-]. exact Hne.
    + intro H. rewrite <- app_assoc. apply NoDup_app; auto.
      * simpl. constructor; [|constructor; [tauto | constructor]].
        intros [E|[]]. congruence.
      * intros a Ha [<-|[<-|[]]]; apply Hincl in Ha; contradiction.
Qed.

End Rels.

Lemma allocated_ids_fresh_witness :
  NoDup (manifest_ids Demo.rels_tree)
  /\ NoDup (manifest_ids (rels_root Demo.st)).
Proof.
  assert (Hsrc : NoDup (manifest_ids Demo.rels_tree)).
  { vm_compute. repeat constructor; simpl; intuition discriminate. }
  split; [exact Hsrc|].
  apply (allocated_ids_fresh Demo.fromstring Demo.tostring
           Demo.src Demo.tpl Demo.st Demo.rels_tree).
  - vm_compute. reflexivity.
  - vm_compute. reflexivity.
  - exact Hsrc.
Defined.

End RelsTheorems.

(* ================================================================== *)
(** ** The section properties *)

Module DocFacts.
Import Xml Zip Docx XmlFacts.

Lemma filter_none {A} (p : A -> bool) (l : list A) :
  (forall x, In x l -> p x = false) -> filter p l = [].
Proof.
  induction l as [|a l IH]; simpl; [reflexivity|]. intro H.
  rewrite (H a (or_introl eq_refl)). apply IH. intros; apply H; now right.
Qed.

Lemma findall_new_references (t t' : string) (id : option string) :
  filter (has_tag t) (new_references t' id) =
  if String.eqb t' t then new_references t' id else [].
Proof.
  destruct id as [rid|]; simpl.
  - unfold has_tag. simpl. now destruct (String.eqb t' t).
  - now destruct (String.eqb t' t).
Qed.

Lemma update_sect_carries (h f : option string) (sect : element) :
  carries h f (update_sect h f sect).
Proof.
  unfold carries, findall, update_sect.
  destruct sect as [t a x y cs]. simpl. rewrite !filter_app.
  rewrite !findall_new_references. simpl.
  rewrite !app_nil_r.
  rewrite !filter_none; [split; reflexivity | |];
    intros c Hc; apply filter_In in Hc as [_ Hc];
    unfold is_reference, has_tag in *;
    apply negb_true_iff, orb_false_iff in Hc; tauto.
Qed.

Lemma tag_update_sect (h f : option string) (e : element) :
  tag (update_sect h f e) = tag e.
Proof. now destruct e. Qed.

Lemma tag_update_sections (h f : option string) (e : element) :
  tag (update_sections h f e) = tag e.
Proof.
  destruct e as [t a x y cs]. simpl.
  now destruct (String.eqb t w_sectPr).
Qed.

(** After the loop every [w:sectPr] of a subtree carries the installed
    references. *)
Lemma update_sections_carries (h f : option string) (e : element) :
  forall s, In s (update_sections h f e
                    :: descendants (update_sections h f e)) ->
            has_tag w_sectPr s = true -> carries h f s.
Proof.
  induction e as [t a x y cs IH] using element_ind'.
  assert (Hsub : forall s,
             In s (flat_map (fun c => c :: descendants c)
                            (map (update_sections h f) cs)) ->
             has_tag w_sectPr s = true -> carries h f s).
  { intros s Hs. apply in_flat_map in Hs as [c' [Hc' Hs]].
    apply in_map_iff in Hc' as [c [<- Hc]].
    rewrite Forall_forall in IH. now apply (IH c Hc). }
  intros s Hs Ht. cbn [update_sections] in Hs.
  destruct (String.eqb t w_sectPr) eqn:Et.
  - destruct Hs as [<-|Hs]; [apply update_sect_carries|].
    unfold update_sect in Hs. cbn [set_children children descendants] in Hs.
    rewrite !flat_map_app in Hs.
    apply in_app_or in Hs as [Hs|Hs].
    + apply Hsub; [|exact Ht].
      apply in_flat_map in Hs as [c [Hc Hs]].
      apply filter_In in Hc as [Hc _]. apply in_flat_map. eauto.
    + exfalso. apply in_app_or in Hs as [Hs|Hs];
        [destruct h | destruct f]; simpl in Hs;
        try (destruct Hs as [<-|[]]; discriminate Ht);
        destruct Hs.
  - destruct Hs as [<-|Hs].
    + unfold has_tag in Ht. simpl in Ht. congruence.
    + now apply Hsub.
Qed.

Lemma tag_update_body (h f : option string) (body : element) :
  tag (update_body h f body) = tag body.
Proof.
  unfold update_body.
  destruct (findall_desc body w_sectPr); now destruct body.
Qed.

Lemma update_body_carries (h f : option string) (body : element) :
  forall s, In s (findall_desc (update_body h f body) w_sectPr) ->
            carries h f s.
Proof.
  intros s Hs. unfold findall_desc in Hs.
  apply filter_In in Hs as [Hs Ht].
  unfold update_body in Hs.
  set (body1 := match findall_desc body w_sectPr with
                | [] => append body (new w_sectPr)
                | _ :: _ => body
                end) in Hs.
  destruct body1 as [t a x y cs].
  cbn [set_children children descendants] in Hs.
  apply in_flat_map in Hs as [c' [Hc' Hs]].
  apply in_map_iff in Hc' as [c [<- Hc]].
  now apply (update_sections_carries h f c).
Qed.

(** [find] after [on_first], for a function that keeps the tag. *)
Lemma find_on_first (t : string) (g : element -> element)
      (l : list element) :
  (forall e, tag (g e) = tag e) ->
  List.find (has_tag t) (on_first (has_tag t) g l) =
  option_map g (List.find (has_tag t) l).
Proof.
  intro Hg. induction l as [|e l IH]; simpl; [reflexivity|].
  destruct (has_tag t e) eqn:E; simpl.
  - unfold has_tag in *. now rewrite Hg, E.
  - now rewrite E.
Qed.

Lemma section_blocks_carry (h f : option string) (doc : element) :
  forall s, In s (section_blocks (update_document h f doc)) ->
            carries h f s.
Proof.
  intros s. unfold section_blocks, update_document.
  set (doc1 := match find doc w_body with
               | Some _ => doc
               | None => append doc (new w_body)
               end).
  destruct doc1 as [t a x y cs]. unfold find. cbn [set_children children].
  rewrite find_on_first by apply tag_update_body.
  destruct (List.find (has_tag w_body) cs) as [body|]; simpl; [|tauto].
  apply update_body_carries.
Qed.

End DocFacts.

(* ================================================================== *)
(** ** What the section edit keeps *)

Module EditFacts.
Import Xml Zip Docx XmlFacts DocFacts.

Lemma descendants_children (t : string) a x y (cs : list element) :
  descendants (Element t a x y cs) =
  flat_map (fun c => c :: descendants c) cs.
Proof. reflexivity. Qed.

Lemma filter_map_tag (u : element -> element) (l : list element) :
  (forall e, tag (u e) = tag e) ->
  filter (fun child => negb (is_reference child)) (map u l) =
  map u (filter (fun child => negb (is_reference child)) l).
Proof.
  intro Hu. induction l as [|e l IH]; [reflexivity|].
  cbn [map filter]. unfold is_reference at 1. rewrite Hu.
  fold (is_reference e).
  destruct (is_reference e); cbn [negb map]; now rewrite IH.
Qed.

Lemma filter_filter_same {A} (p : A -> bool) (l : list A) :
  filter p (filter p l) = filter p l.
Proof.
  induction l as [|e l IH]; [reflexivity|]. cbn [filter].
  destruct (p e) eqn:E; cbn [filter]; rewrite ?E, IH; reflexivity.
Qed.

Lemma map_ext_Forall {A B} (u v : A -> B) (l : list A) :
  Forall (fun e => u e = v e) l -> map u l = map v l.
Proof.
  induction 1 as [|e l He _ IH]; [reflexivity|].
  cbn [map]. now rewrite He, IH.
Qed.

Lemma Forall_filter {A} (P : A -> Prop) (p : A -> bool) (l : list A) :
  Forall P l -> Forall P (filter p l).
Proof.
  induction 1 as [|e l He _ IH]; [constructor|].
  cbn [filter]. destruct (p e); [constructor|]; auto.
Qed.

Lemma tag_without_references (e : element) :
  tag (without_references e) = tag e.
Proof. now destruct e. Qed.

Lemma without_new_references (t : string) (id : option string) :
  t = w_headerReference \/ t = w_footerReference ->
  filter (fun child => negb (is_reference child))
         (map without_references (new_references t id)) = [].
Proof.
  intros [-> | ->]; destruct id; reflexivity.
Qed.

(** The loop changes nothing but the header/footer references of the
    section-properties blocks. *)
Lemma without_references_update_sections (h f : option string)
      (e : element) :
  without_references (update_sections h f e) = without_references e.
Proof.
  induction e as [t a x y cs IH] using element_ind'.
  cbn [update_sections].
  destruct (String.eqb t w_sectPr) eqn:Et.
  - unfold update_sect. cbn [set_children children without_references].
    rewrite Et. f_equal.
    rewrite !map_app, !filter_app.
    rewrite !without_new_references by auto. rewrite !app_nil_r.
    rewrite (filter_map_tag without_references)
      by apply tag_without_references.
    rewrite filter_filter_same.
    rewrite (filter_map_tag (update_sections h f))
      by apply tag_update_sections.
    rewrite map_map.
    rewrite (filter_map_tag without_references)
      by apply tag_without_references.
    apply map_ext_Forall. now apply Forall_filter.
  - cbn [without_references]. rewrite Et. f_equal.
    rewrite map_map. now apply map_ext_Forall.
Qed.

(** Where there is no block, nothing changes. *)
Lemma update_sections_without_blocks (h f : option string) (e : element) :
  (forall d, In d (e :: descendants e) -> has_tag w_sectPr d = false) ->
  update_sections h f e = e.
Proof.
  induction e as [t a x y cs IH] using element_ind'.
  intro Hno. cbn [update_sections].
  assert (Et : String.eqb t w_sectPr = false)
    by (apply (Hno (Element t a x y cs)); now left).
  rewrite Et. f_equal.
  rewrite <- (map_id cs) at 2. apply map_ext_Forall.
  rewrite Forall_forall in *. intros c Hc. apply (IH c Hc).
  intros d Hd. apply Hno. right. rewrite descendants_children.
  apply in_flat_map. exists c. auto.
Qed.

Lemma on_first_split (p : element -> bool) (g : element -> element)
      (l : list element) :
  (exists before x after,
      l = before ++ x :: after
      /\ Forall (fun c => p c = false) before
      /\ p x = true
      /\ on_first p g l = before ++ g x :: after)
  \/ (Forall (fun c => p c = false) l /\ on_first p g l = l).
Proof.
  induction l as [|e l IH]; [right; split; [constructor | reflexivity]|].
  cbn [on_first]. destruct (p e) eqn:E.
  - left. exists [], e, l. repeat split; auto.
  - destruct IH as [(before & x & after & -> & Hb & Hx & Ho)|[Hl Ho]].
    + left. exists (e :: before), x, after.
      repeat split; auto. cbn [app]. now rewrite Ho.
    + right. split; [now constructor | now rewrite Ho].
Qed.

Lemma update_body_edited (h f : option string) (body : element) :
  has_tag w_body body = true ->
  body_edited h f body (update_body h f body).
Proof.
  intro Hb. unfold body_edited, update_body.
  destruct (findall_desc body w_sectPr) as [|d ds] eqn:E.
  - destruct body as [t a x y cs].
    cbn [append set_children children]. f_equal.
    rewrite map_app. f_equal.
    rewrite <- (map_id cs) at 2. apply map_ext_Forall.
    apply Forall_forall. intros c Hc.
    apply update_sections_without_blocks. intros d Hd.
    destruct (has_tag w_sectPr d) eqn:Ht; [|reflexivity].
    assert (Hin : In d (findall_desc (Element t a x y cs) w_sectPr)).
    { apply filter_In. split; [|exact Ht].
      rewrite descendants_children. apply in_flat_map. eauto. }
    rewrite E in Hin. destruct Hin.
  - destruct body as [t a x y cs].
    cbn [set_children children without_references].
    unfold has_tag in Hb. cbn [tag] in Hb.
    apply String.eqb_eq in Hb. subst t.
    change (String.eqb w_body w_sectPr) with false. cbn iota.
    f_equal. rewrite map_map. apply map_ext_Forall.
    apply Forall_forall. intros c _.
    apply without_references_update_sections.
Qed.

(** The edit of a document is an edit of its first body. *)
Lemma update_document_first_body (h f : option string) (doc : element) :
  first_body_edited h f doc (update_document h f doc).
Proof.
  unfold first_body_edited, update_document, find.
  destruct doc as [t a x y cs]. cbn [children].
  destruct (on_first_split (has_tag w_body) (update_body h f) cs)
    as [(before & body & after & -> & Hb & Hx & Ho)|[Hl Ho]].
  - assert (Hf : List.find (has_tag w_body) (before ++ body :: after)
                 = Some body).
    { clear Ho. induction Hb as [|c l Hc _ IH]; simpl.
      - now rewrite Hx.
      - now rewrite Hc. }
    rewrite Hf. cbn [set_children children]. rewrite Ho.
    exists before, (update_body h f body), after.
    split; [reflexivity|]. split; [exact Hb|]. left.
    exists body. split; [reflexivity|]. split; [exact Hx|].
    now apply update_body_edited.
  - assert (Hf : List.find (has_tag w_body) cs = None).
    { clear Ho. induction Hl as [|c l Hc _ IH]; simpl;
        [reflexivity | now rewrite Hc]. }
    rewrite Hf. cbn [append set_children children].
    exists cs, (Element w_body [] None None [fresh_block h f]), [].
    split.
    + f_equal. clear Hf Ho. induction Hl as [|c l Hc _ IH].
      * reflexivity.
      * simpl. rewrite Hc. now rewrite IH.
    + split; [exact Hl|]. right. auto.
Qed.

End EditFacts.

(* ================================================================== *)
(** ** Which parts a run installs *)

Module InstallFacts.
Import Xml Zip Docx StrFacts ZipFacts LoopFacts OutFacts RunFacts
       WrittenFacts RelsFacts.

Section Install.

Variable fromstring : bytes -> option element.
Variable tostring : element -> bytes.

#[local] Abbreviation transform :=
  (_replace_header_footer_parts fromstring tostring).

(** Nothing staged from the source or from the template media has a
    name the transform writes itself. *)
Lemma staged_not_reserved (src tpl : package) (added : package)
      (n : string) :
  (forall m b, In (m, b) added ->
               Str.startswith "word/media/" m = true
               /\ lookup tpl m = Some b
               /\ ~ In m (namelist
                            (flat_map (staged src) (namelist src)))) ->
  reserved n ->
  lookup (flat_map (staged src) (namelist src) ++ added) n = None.
Proof.
  intros M1 Hr. apply lookup_None. rewrite namelist_app.
  intro Hin. apply in_app_or in Hin as [Hin|Hin].
  - apply copied_names in Hin as [_ Hp].
    apply passthrough_not_canonical in Hp. unfold reserved in Hr. tauto.
  - apply in_map_iff in Hin as [[m b] [Hfst Hin]]. simpl in Hfst.
    subst m. apply M1 in Hin as (Hm & _).
    apply media_not_canonical in Hm. unfold reserved in Hr. tauto.
Qed.

Lemma picked_iff (tpl : package) (parts : dict) (p : string -> bool)
      (name : option string) (data : option bytes) :
  (forall n, In n (keys parts) <-> In n (namelist tpl) /\ p n = true) ->
  _pick_first_part parts = (name, data) ->
  ((exists n, In n (namelist tpl) /\ p n = true) <-> data <> None).
Proof.
  intros Hk Hp.
  assert (Hd : data = None <-> parts = []).
  { rewrite <- pick_bytes_none. now rewrite Hp. }
  split.
  - intros [n Hn] E. apply Hd in E. subst parts. apply Hk in Hn.
    destruct Hn.
  - intro Hne. destruct parts as [|[k v] parts].
    + exfalso. apply Hne. now apply Hd.
    + exists k. apply Hk. now left.
Qed.

Lemma installed_iff (src tpl : package) (st : locals) :
  transform src tpl = Ok st ->
  (((exists n, In n (namelist tpl) /\ is_tpl_header n = true) <->
    tpl_header_bytes st <> None)
   /\ (In "word/header1.xml" (namelist (out_zip st)) <->
       tpl_header_bytes st <> None)
   /\ (header_rel_id st <> None <-> tpl_header_bytes st <> None))
  /\ (((exists n, In n (namelist tpl) /\ is_tpl_footer n = true) <->
       tpl_footer_bytes st <> None)
      /\ (In "word/footer1.xml" (namelist (out_zip st)) <->
          tpl_footer_bytes st <> None)
      /\ (footer_rel_id st <> None <-> tpl_footer_bytes st <> None)).
Proof.
  intro Hrun.
  destruct (replace_inv _ _ _ _ _ Hrun)
    as (hs & fs & added & rels0 & doc0 & ct0 & rels1 & used1 & used2
        & (_ & Kh) & (_ & Kf) & Ph & Pf & (M1 & _ & _) & Hout
        & _ & A1 & A2 & _).
  assert (Hname : forall n, In n (namelist (out_zip st)) <->
                            lookup (out_zip st) n <> None).
  { intro n. rewrite lookup_None. split; [tauto|].
    intro H. destruct (in_dec string_dec n (namelist (out_zip st)));
      tauto. }
  apply add_relationship_inv in A1, A2.
  split; (split; [|split]).
  - exact (picked_iff _ _ _ _ _ Kh Ph).
  - rewrite Hname, Hout, written_header_lookup.
    destruct (tpl_header_bytes st) as [d|].
    + split; intros _; discriminate.
    + rewrite (staged_not_reserved src tpl added _ M1)
        by (unfold reserved; tauto).
      tauto.
  - destruct A1 as [(-> & -> & _)|(c & k & Hne & -> & _)];
      [tauto | split; [auto | discriminate]].
  - exact (picked_iff _ _ _ _ _ Kf Pf).
  - rewrite Hname, Hout, written_footer_lookup.
    destruct (tpl_footer_bytes st) as [d|].
    + split; intros _; discriminate.
    + rewrite (staged_not_reserved src tpl added _ M1)
        by (unfold reserved; tauto).
      tauto.
  - destruct A2 as [(-> & -> & _)|(c & k & Hne & -> & _)];
      [tauto | split; [auto | discriminate]].
Qed.

(** The allocated ids are ids of the output manifest. *)
Lemma allocated_in_manifest (src tpl : package) (st : locals)
      (id : string) :
  transform src tpl = Ok st ->
  header_rel_id st = Some id \/ footer_rel_id st = Some id ->
  In id (manifest_ids (rels_root st)).
Proof.
  intros Hrun Hid.
  destruct (replace_inv _ _ _ _ _ Hrun)
    as (hs & fs & added & rels0 & doc0 & ct0 & rels1 & used1 & used2
        & _ & _ & _ & _ & _ & _ & _ & A1 & A2 & _).
  apply add_relationship_inv in A1, A2.
  destruct A1 as [(_ & Eh & -> & ->)
                 |(c1 & k1 & _ & Eh & _ & _ & _ & -> & ->)];
    destruct A2 as [(_ & Ef & -> & _)
                   |(c2 & k2 & _ & Ef & _ & _ & _ & _ & ->)];
    rewrite Eh, Ef in Hid; rewrite ?manifest_ids_append;
    destruct Hid as [Hid|Hid]; try discriminate;
    injection Hid as <-; rewrite ?in_app_iff; simpl; auto.
Qed.

End Install.

End InstallFacts.

(* ================================================================== *)
(** ** Theorems on the section properties of the output document *)

Module DocTheorems.
Import Xml Zip Docx StrFacts ZipFacts RunFacts WrittenFacts DocFacts
       EditFacts InstallFacts.

Lemma carried_reference (t : string) (id : option string) (c : element) :
  In c (new_references t id) ->
  exists rid, id = Some rid /\ c = reference t rid.
Proof.
  destruct id as [rid|]; simpl; [|tauto].
  intros [<-|[]]. now exists rid.
Qed.

Section Doc.

Variable fromstring : bytes -> option element.
Variable tostring : element -> bytes.

#[local] Abbreviation transform :=
  (_replace_header_footer_parts fromstring tostring).

(** C1, as the code has it.  After a successful transform the output
    holds the serialised [doc_root] and [rels_root]; a header (footer) id
    is allocated exactly when [word/header1.xml] ([word/footer1.xml]) is
    installed; and every section-properties block below the first
    [w:body] child of the root of the output document has as its header
    references exactly one reference of variant ["default"] with the
    allocated header id when there is one and none otherwise, the same
    for footers, so that all these blocks agree; every header/footer
    reference of such a block carries an [r:id] that is an id of the
    output manifest.  The output document is the source document (the
    made-up one when the source has none) with that first body edited:
    the root and its other children, a block beside the body or in a
    later body among them, are as they were, and the body is the same
    tree apart from the header/footer references of its blocks, with one
    fresh block more when it had none. *)
Theorem sections_reference_installed_parts
        (src tpl : package) (st : locals) :
  transform src tpl = Ok st ->
  lookup (out_zip st) "word/document.xml" = Some (tostring (doc_root st))
  /\ lookup (out_zip st) "word/_rels/document.xml.rels"
     = Some (tostring (rels_root st))
  /\ (In "word/header1.xml" (namelist (out_zip st)) <->
      header_rel_id st <> None)
  /\ (In "word/footer1.xml" (namelist (out_zip st)) <->
      footer_rel_id st <> None)
  /\ (forall s,
      In s (section_blocks (doc_root st)) ->
      findall s w_headerReference
      = match header_rel_id st with
        | Some id =>
            [Element w_headerReference
                     [(w_type, "default"); (r_id, id)] None None []]
        | None => []
        end
      /\ findall s w_footerReference
         = match footer_rel_id st with
           | Some id =>
               [Element w_footerReference
                        [(w_type, "default"); (r_id, id)] None None []]
           | None => []
           end
      /\ forall c,
          In c (children s) -> is_reference c = true ->
          exists id, get c r_id = Some id
                     /\ In id (manifest_ids (rels_root st)))
  /\ exists doc0,
      parse_or fromstring (lookup src "word/document.xml")
               minimal_document = Ok doc0
      /\ first_body_edited (header_rel_id st) (footer_rel_id st)
                           doc0 (doc_root st).
Proof.
  intro Hrun.
  destruct (replace_inv _ _ _ _ _ Hrun)
    as (hs & fs & added & rels0 & doc0 & ct0 & rels1 & used1 & used2
        & _ & _ & _ & _ & _ & Hout & _ & _ & _ & Hparse & Hdoc & _).
  destruct (installed_iff _ _ _ _ _ Hrun)
    as ((_ & Hh1 & Hh2) & (_ & Hf1 & Hf2)).
  split; [rewrite Hout; apply written_document|].
  split; [rewrite Hout; apply written_rels|].
  split; [now rewrite Hh1, Hh2|].
  split; [now rewrite Hf1, Hf2|].
  split; [|exists doc0; split; [exact Hparse|]; rewrite Hdoc;
           apply update_document_first_body].
  intros s Hs. rewrite Hdoc in Hs.
  destruct (section_blocks_carry _ _ _ _ Hs) as [Ch Cf].
  split; [rewrite Ch; now destruct (header_rel_id st)|].
  split; [rewrite Cf; now destruct (footer_rel_id st)|].
  intros c Hc Hr. unfold is_reference in Hr.
  apply orb_true_iff in Hr as [Hr|Hr].
  - assert (Hin : In c (findall s w_headerReference))
      by (apply filter_In; auto).
    rewrite Ch in Hin. apply carried_reference in Hin as (id & E & ->).
    exists id. split; [reflexivity|].
    apply (allocated_in_manifest _ _ _ _ _ _ Hrun). auto.
  - assert (Hin : In c (findall s w_footerReference))
      by (apply filter_In; auto).
    rewrite Cf in Hin. apply carried_reference in Hin as (id & E & ->).
    exists id. split; [reflexivity|].
    apply (allocated_in_manifest _ _ _ _ _ _ Hrun). auto.
Qed.

End Doc.

(** C1 as stated fails: a block in a second body, and a block beside the
    bodies, are blocks of the output document; the transform leaves them
    as they were, with their reference to the header relationship
    [rId3], which it has removed from the manifest. *)
Lemma stale_reference_outside_first_body :
  Demo.run_two_bodies = Ok Demo.st_two_bodies
  /\ header_rel_id Demo.st_two_bodies = Some "rId9002"
  /\ manifest_ids (rels_root Demo.st_two_bodies)
     = ["rId9001"; "rId9002"; "rId9003"]
  /\ map (fun s => map (fun c => get c r_id)
                       (findall s w_headerReference))
         (all_section_blocks (doc_root Demo.st_two_bodies))
     = [[Some "rId9002"]; [Some "rId3"]; [Some "rId3"]].
Proof. vm_compute. repeat split. Qed.

Lemma sections_reference_installed_parts_witness :
  section_blocks (doc_root Demo.st) <> []
  /\ forall s,
      In s (section_blocks (doc_root Demo.st)) ->
      findall s w_headerReference
      = [Element w_headerReference
                 [(w_type, "default"); (r_id, "rId9002")] None None []]
      /\ findall s w_footerReference
         = [Element w_footerReference
                    [(w_type, "default"); (r_id, "rId9003")] None None []].
Proof.
  split; [vm_compute; discriminate|].
  intros s Hs.
  destruct (sections_reference_installed_parts
              Demo.fromstring Demo.tostring Demo.src Demo.tpl Demo.st
              ltac:(vm_compute; reflexivity))
    as (_ & _ & _ & _ & H & _).
  destruct (H s Hs) as (Hh & Hf & _).
  split; [exact Hh | exact Hf].
Defined.

End DocTheorems.

(* ================================================================== *)
(** ** The content-type registry *)

Module RegistryFacts.
Import Xml Docx.


Lemma lookup_update_other (k k' v : string) (a : list (string * string)) :
  k <> k' -> lookup k' (update k v a) = lookup k' a.
Proof.
  intro Hne. induction a as [|[k0 v0] a IH]; simpl.
  - destruct (String.eqb_spec k' k); congruence.
  - destruct (String.eqb_spec k k0) as [->|]; simpl.
    + destruct (String.eqb_spec k' k0); congruence.
    + now rewrite IH.
Qed.

Lemma update_update (k v v' : string) (a : list (string * string)) :
  update k v' (update k v a) = update k v' a.
Proof.
  induction a as [|[k0 v0] a IH]; simpl.
  - now rewrite String.eqb_refl.
  - destruct (String.eqb k k0) eqn:E; simpl; rewrite E; congruence.
Qed.

Lemma set_set (e : element) (k v v' : string) :
  set (set e k v) k v' = set e k v'.
Proof. destruct e. simpl. now rewrite update_update. Qed.


Lemma get_set_other (e : element) (k k' v : string) :
  k <> k' -> get (set e k v) k' = get e k'.
Proof. destruct e. apply lookup_update_other. Qed.

Lemma is_override_for_set (pn ct : string) (e : element) :
  is_override_for pn (set e "ContentType" ct) = is_override_for pn e.
Proof.
  unfold is_override_for. rewrite get_set_other by discriminate.
  now destruct e.
Qed.

Lemma is_override_for_override (pn pn' ct : string) :
  is_override_for pn (override pn' ct) = String.eqb pn' pn.
Proof. reflexivity. Qed.

Lemma is_override_for_name (pn : string) (e : element) :
  is_override_for pn e = true -> get e "PartName" = Some pn.
Proof.
  unfold is_override_for. intro H. apply andb_prop in H as [_ H].
  destruct (get e "PartName") as [p|]; [|discriminate].
  apply String.eqb_eq in H. now subst.
Qed.


(** *** [on_first] *)

Lemma on_first_Forall2 (p : element -> bool) (g : element -> element)
      (l : list element) :
  Forall2 (fun e e' => e' = e \/ (p e = true /\ e' = g e))
          l (on_first p g l).
Proof.
  induction l as [|e l IH]; simpl; [constructor|].
  destruct (p e) eqn:E; constructor; auto.
  clear. induction l; constructor; auto.
Qed.





(** *** [ensure_override] on the Override nodes of a part name *)

Lemma children_ensure_override (root : element) (pn ct : string) :
  children (ensure_override root pn ct) =
  if existsb (is_override_for pn) (children root) then
    on_first (is_override_for pn) (fun ov => set ov "ContentType" ct)
             (children root)
  else children root ++ [override pn ct].
Proof.
  unfold ensure_override.
  destruct (existsb _ _); now destruct root.
Qed.



(** *** The registry children through the edits *)

Lemma Forall2_compose {A} (R S T : A -> A -> Prop) (l1 l2 l3 : list A) :
  (forall a b c, R a b -> S b c -> T a c) ->
  Forall2 R l1 l2 -> Forall2 S l2 l3 -> Forall2 T l1 l3.
Proof.
  intros H H12. revert l3.
  induction H12 as [|a b l1 l2 Hab _ IH]; intros l3 H23;
    inversion H23; subst; constructor; eauto.
Qed.

Lemma Forall2_In_l {A} (R : A -> A -> Prop) (l l' : list A) (x : A) :
  Forall2 R l l' -> In x l -> exists y, In y l' /\ R x y.
Proof.
  induction 1 as [|a b l l' Hab _ IH]; simpl; [tauto|].
  intros [<-|Hx]; [eauto|].
  destruct (IH Hx) as (y & Hy & Hr). eauto.
Qed.

Lemma retyped_step (pn ct : string) (e e1 e2 : element) :
  canonical_pair pn ct ->
  retyped e e1 ->
  e2 = e1 \/ (is_override_for pn e1 = true
              /\ e2 = set e1 "ContentType" ct) ->
  retyped e e2.
Proof.
  intros Hp [->|(pn1 & ct1 & Hpn1 & Ho & ->)] [->|[Ho2 ->]].
  - now left.
  - right. exists pn, ct. repeat split; auto.
    destruct Hp as [[-> _]|[-> _]]; auto.
  - right. exists pn1, ct1. auto.
  - right. exists pn1, ct. rewrite set_set. auto.
Qed.

Lemma canonical_step (pn ct : string) (e e' : element) :
  canonical_pair pn ct ->
  canonical_override e ->
  e' = e \/ (is_override_for pn e = true
             /\ e' = set e "ContentType" ct) ->
  canonical_override e'.
Proof.
  intros Hp Hc [->|[Ho ->]]; [exact Hc|].
  destruct Hc as [->| ->]; rewrite is_override_for_override in Ho;
    apply String.eqb_eq in Ho; subst pn;
    destruct Hp as [[E ->]|[E ->]]; try discriminate E;
    [left | right]; reflexivity.
Qed.

Lemma evolves_refl (cs : list element) : evolves cs cs.
Proof.
  exists cs, []. rewrite app_nil_r. repeat split; [|constructor].
  induction cs; constructor; auto. now left.
Qed.

Lemma evolves_ensure (cs0 : list element) (root : element)
      (pn ct : string) :
  canonical_pair pn ct ->
  evolves cs0 (children root) ->
  evolves cs0 (children (ensure_override root pn ct)).
Proof.
  intros Hp (kept & app & Heq & Hk & Ha).
  rewrite children_ensure_override, Heq.
  destruct (existsb _ _).
  - pose proof (on_first_Forall2 (is_override_for pn)
                  (fun ov => set ov "ContentType" ct) (kept ++ app)) as HF.
    apply Forall2_app_inv_l in HF as (k' & a' & Hk' & Ha' & ->).
    exists k', a'. split; [reflexivity|]. split.
    + eapply Forall2_compose; [|exact Hk|exact Hk'].
      intros a b c Hab Hbc. now apply (retyped_step pn ct a b c).
    + clear - Hp Ha Ha'. revert Ha.
      induction Ha' as [|a b l l' Hab _ IH]; intro Ha; [constructor|].
      inversion Ha; subst. constructor; auto.
      now apply (canonical_step pn ct a b).
  - exists kept, (app ++ [override pn ct]).
    rewrite app_assoc. repeat split; auto.
    apply Forall_app. split; [exact Ha|]. constructor; [|constructor].
    destruct Hp as [[-> ->]|[-> ->]]; [left | right]; reflexivity.
Qed.

Lemma tag_ensure_override (root : element) (pn ct : string) :
  tag (ensure_override root pn ct) = tag root
  /\ attrib (ensure_override root pn ct) = attrib root.
Proof.
  unfold ensure_override. destruct (existsb _ _); now destruct root.
Qed.

Lemma retyped_same_part (e e' : element) :
  retyped e e' ->
  tag e' = tag e
  /\ get e' "PartName" = get e "PartName"
  /\ (get e "PartName" <> Some "/word/header1.xml" ->
      get e "PartName" <> Some "/word/footer1.xml" -> e' = e).
Proof.
  intros [->|(pn & ct & Hpn & Ho & ->)]; [auto|].
  split; [now destruct e|].
  split; [now apply get_set_other|].
  apply is_override_for_name in Ho. intros H1 H2. exfalso.
  destruct Hpn as [-> | ->]; auto.
Qed.

End RegistryFacts.

(* ================================================================== *)
(** ** Theorems on the content-type registry *)

Module RegistryTheorems.
Import Xml Zip Docx RunFacts WrittenFacts RegistryFacts.

Section Registry.

Variable fromstring : bytes -> option element.
Variable tostring : element -> bytes.

#[local] Abbreviation transform :=
  (_replace_header_footer_parts fromstring tostring).

Lemma registry_evolves (tb tb' : option bytes) (ct0 : element) :
  evolves (children ct0)
    (children
       (ensure_override_if tb'
          (ensure_override_if tb ct0 "/word/header1.xml"
                              header_content_type)
          "/word/footer1.xml" footer_content_type)).
Proof.
  assert (H1 : evolves (children ct0)
                 (children (ensure_override_if tb ct0 "/word/header1.xml"
                                               header_content_type))).
  { destruct tb; simpl; [|apply evolves_refl].
    apply evolves_ensure; [left; auto | apply evolves_refl]. }
  destruct tb'; simpl; [|exact H1].
  apply evolves_ensure; [right; auto | exact H1].
Qed.

(** C10.  The output registry is the serialised [ct_root]; its root keeps
    its tag and attributes, and its children are the children of the
    source registry in order, each one unchanged or (only for an
    Override of [/word/header1.xml] or [/word/footer1.xml]) with its
    [ContentType] set, followed by the appended Override nodes of these
    two part names.  So every Override of the source is still there with
    its [PartName], and unchanged when it names any other part, such as
    a header part the transform drops. *)
Theorem registry_overrides_preserved
        (src tpl : package) (st : locals) (ct0 : element) :
  transform src tpl = Ok st ->
  parse_or fromstring (lookup src "[Content_Types].xml") (new ct_Types)
  = Ok ct0 ->
  lookup (out_zip st) "[Content_Types].xml"
  = Some (tostring (ct_root st))
  /\ tag (ct_root st) = tag ct0
  /\ attrib (ct_root st) = attrib ct0
  /\ evolves (children ct0) (children (ct_root st))
  /\ forall ov,
      In ov (findall ct0 ct_Override) ->
      exists ov',
        In ov' (findall (ct_root st) ct_Override)
        /\ get ov' "PartName" = get ov "PartName"
        /\ (get ov "PartName" <> Some "/word/header1.xml" ->
            get ov "PartName" <> Some "/word/footer1.xml" ->
            ov' = ov).
Proof.
  intros Hrun Hparse.
  destruct (replace_inv _ _ _ _ _ Hrun)
    as (hs & fs & added & rels0 & doc0 & ct0' & rels1 & used1 & used2
        & _ & _ & _ & _ & _ & Hout & _ & _ & _ & _ & _ & Pc & Hct).
  assert (ct0' = ct0) by congruence. subst ct0'.
  pose proof (registry_evolves (tpl_header_bytes st)
                (tpl_footer_bytes st) ct0) as Hev.
  rewrite <- Hct in Hev.
  split; [rewrite Hout; apply written_content_types|].
  split; [|split; [|split; [exact Hev|]]].
  - rewrite Hct. destruct (tpl_footer_bytes st), (tpl_header_bytes st);
      simpl; rewrite ?(proj1 (tag_ensure_override _ _ _)); reflexivity.
  - rewrite Hct. destruct (tpl_footer_bytes st), (tpl_header_bytes st);
      simpl; rewrite ?(proj2 (tag_ensure_override _ _ _)); reflexivity.
  - intros ov Hov. apply filter_In in Hov as [Hin Htag].
    destruct Hev as (kept & app & Heq & Hk & _).
    destruct (Forall2_In_l _ _ _ _ Hk Hin) as (ov' & Hin' & Hr).
    apply retyped_same_part in Hr as (Ht & Hn & Hs).
    exists ov'. repeat split; auto.
    apply filter_In. split.
    + rewrite Heq. apply in_or_app. now left.
    + unfold has_tag in *. now rewrite Ht.
Qed.

End Registry.

Lemma registry_overrides_preserved_witness :
  In (override "/word/header2.xml" header_content_type)
     (findall (ct_root Demo.st) ct_Override).
Proof.
  destruct (registry_overrides_preserved
              Demo.fromstring Demo.tostring Demo.src Demo.tpl Demo.st
              Demo.ct_tree ltac:(vm_compute; reflexivity)
              ltac:(vm_compute; reflexivity))
    as (_ & _ & _ & _ & H).
  destruct (H (override "/word/header2.xml" header_content_type))
    as (ov' & Hin & _ & Hsame).
  - vm_compute. tauto.
  - rewrite Hsame in Hin; [exact Hin | discriminate | discriminate].
Defined.

End RegistryTheorems.

(* ================================================================== *)
(** ** Theorems on the parts a run installs *)

Module InstallTheorems.
Import Xml Zip Docx StrFacts ZipFacts RunFacts WrittenFacts RelsFacts
       DocFacts InstallFacts RegistryFacts.




Section Install.

Variable fromstring : bytes -> option element.
Variable tostring : element -> bytes.

#[local] Abbreviation transform :=
  (_replace_header_footer_parts fromstring tostring).



End Install.


End InstallTheorems.

(* ================================================================== *)
(** ** File extensions *)

Module ExtensionFacts.
Import Str.

Lemma substring_full (s : string) : substring 0 (String.length s) s = s.
Proof. induction s as [|c s IH]; simpl; [reflexivity | now rewrite IH]. Qed.

Lemma substring_split (s : string) :
  forall k, k <= String.length s ->
            String.append (substring 0 k s)
                          (substring k (String.length s - k) s) = s.
Proof.
  induction s as [|c s IH]; intros [|k] Hk; simpl in *; try lia.
  - reflexivity.
  - now rewrite substring_full.
  - rewrite IH by lia. reflexivity.
Qed.

Lemma endswith_inv (p s : string) :
  endswith p s = true -> exists r, s = String.append r p.
Proof.
  unfold endswith.
  destruct (Nat.leb_spec (String.length p) (String.length s)) as [Hle|];
    [|discriminate].
  intro H. apply String.eqb_eq in H.
  exists (substring 0 (String.length s - String.length p) s).
  rewrite <- H at 2.
  pose proof (substring_split s (String.length s - String.length p)) as E.
  replace (String.length s - (String.length s - String.length p))
    with (String.length p) in E by lia.
  symmetry. apply E. lia.
Qed.

Lemma lower_append (s1 s2 : string) :
  lower (String.append s1 s2) = String.append (lower s1) (lower s2).
Proof. induction s1 as [|c s1 IH]; simpl; [reflexivity | now rewrite IH]. Qed.

Lemma list_ascii_append (s1 s2 : string) :
  list_ascii_of_string (String.append s1 s2) =
  list_ascii_of_string s1 ++ list_ascii_of_string s2.
Proof. induction s1 as [|c s1 IH]; simpl; [reflexivity | now rewrite IH]. Qed.

(** A path that ends with [.doc] does not end with [.docx], in any
    letter case of the rest. *)
Lemma doc_is_not_docx (s : string) :
  endswith ".doc" s = true -> endswith ".docx" (lower s) = false.
Proof.
  intro H. apply endswith_inv in H as [r ->].
  destruct (endswith ".docx" _) eqn:E; [|reflexivity].
  apply endswith_inv in E as [r' E]. rewrite lower_append in E.
  change (lower ".doc") with ".doc" in E.
  apply (f_equal list_ascii_of_string) in E.
  rewrite !list_ascii_append in E. simpl in E.
  change (list_ascii_of_string (lower r) ++ ["."; "d"; "o"; "c"]%char)
    with (list_ascii_of_string (lower r)
          ++ (["."; "d"; "o"]%char ++ ["c"%char])) in E.
  change (list_ascii_of_string r' ++ ["."; "d"; "o"; "c"; "x"]%char)
    with (list_ascii_of_string r'
          ++ (["."; "d"; "o"; "c"]%char ++ ["x"%char])) in E.
  rewrite !app_assoc in E. apply app_inj_tail in E as [_ E].
  discriminate E.
Qed.

End ExtensionFacts.

(* ================================================================== *)
(** ** Theorems on [apply_template_to_docx] *)

Module FsTheorems.
Import Zip Fs ExtensionFacts.

Lemma write_same (f : files) (p : string) (c : option content) :
  write f p c p = c.
Proof. unfold write. now rewrite String.eqb_refl. Qed.

Lemma write_other (f : files) (p q : string) (c : option content) :
  q <> p -> write f p c q = f q.
Proof.
  intro H. unfold write. destruct (String.eqb_spec q p); congruence.
Qed.

Lemma write_eq (f : files) (p q : string) (c : option content) :
  write f p c q = if String.eqb q p then c else f q.
Proof. reflexivity. Qed.

Section Apply.

Variable fromstring : bytes -> option Xml.element.
Variable tostring : Xml.element -> bytes.

#[local] Abbreviation apply_template :=
  (apply_template_to_docx fromstring tostring).

#[local] Abbreviation transform :=
  (Docx._replace_header_footer_parts fromstring tostring).

(** C8.  When the source path or the template path does not end with
    [.docx] (letter case apart, as the code lowers the path first), the
    call raises [ValueError] and the world is the one it started from:
    no file is created or changed and no call reaches the file system.
    A source path that ends with [.doc] is such a path. *)
Theorem unsupported_extension_no_io
        (env : environment) (src_path tpl_path dst_path : string)
        (w : world) :
  has_docx_extension src_path = false
  \/ has_docx_extension tpl_path = false
  \/ Str.endswith ".doc" src_path = true ->
  apply_template env src_path tpl_path dst_path w = (Raise ValueError, w).
Proof.
  intro H. unfold apply_template_to_docx.
  assert (Hb : negb (has_docx_extension src_path)
               || negb (has_docx_extension tpl_path) = true).
  { destruct H as [H|[H|H]].
    - now rewrite H.
    - rewrite H. apply orb_true_r.
    - unfold has_docx_extension. now rewrite (doc_is_not_docx _ H). }
  now rewrite Hb.
Qed.

(** *** The steps of the body, one by one *)

Lemma open_read_inv (env : environment) (p : string) (w w' : world)
      (r : result package) :
  open_read env p w = (r, w') ->
  w' = World (fs w) (dirs w) (EvOpenRead p :: trace w)
  /\ match r with
     | Ok z => dirs w p = false /\ fs w p = Some (Archive z)
     | Raise _ => True
     end.
Proof.
  unfold open_read, bindM, log. cbn [fs dirs trace].
  destruct (read_denied env p); cbn [orb]; [intros [= <- <-]; auto|].
  destruct (dirs w p); [intros [= <- <-]; auto|].
  destruct (fs w p) as [[z|]|]; intros [= <- <-]; auto.
Qed.

Lemma open_write_inv (env : environment) (p : string) (w w' : world)
      (r : result unit) :
  open_write env p w = (r, w') ->
  (exists e, r = Raise e
             /\ w' = World (fs w) (dirs w) (EvOpenWrite p :: trace w))
  \/ (r = Ok tt
      /\ w' = World (write (fs w) p (Some (Blob []))) (dirs w)
                    (EvOpenWrite p :: trace w)).
Proof.
  unfold open_write, bindM, log, put, raise. cbn [fs dirs trace].
  destruct (open_write_fails env); intros [= <- <-]; eauto.
Qed.

Lemma close_write_inv (env : environment) (p : string) (z : package)
      (w w' : world) (r : result unit) :
  close_write env p z w = (r, w') ->
  (exists e, r = Raise e
             /\ w' = World (fs w) (dirs w) (EvCloseWrite p :: trace w))
  \/ (r = Ok tt
      /\ w' = World (write (fs w) p (Some (Archive z))) (dirs w)
                    (EvCloseWrite p :: trace w)).
Proof.
  unfold close_write, bindM, log, put, raise. cbn [fs dirs trace].
  destruct (zip_write_fails env); intros [= <- <-]; eauto.
Qed.

Lemma makedirs_inv (env : environment) (d : string) (w w' : world)
      (r : result unit) :
  makedirs env d w = (r, w') ->
  fs w' = fs w
  /\ trace w' = EvMakedirs d :: trace w
  /\ (forall q, dirs w q = true -> dirs w' q = true)
  /\ ((exists e, r = Raise e) \/ r = Ok tt).
Proof.
  unfold makedirs, bindM, log. cbn [fs dirs trace].
  destruct (makedirs_fails env || existsb _ (made d));
    intros [= <- <-]; cbn [fs dirs trace];
    (split; [reflexivity|]); (split; [reflexivity|]);
    (split; [|eauto]); [auto|].
  intros q Hq. now rewrite Hq.
Qed.

Lemma shutil_move_inv (env : environment) (p q : string) (w w' : world)
      (r : result unit) :
  shutil_move env p q w = (r, w') ->
  dirs w' = dirs w
  /\ trace w' = EvMove p q :: trace w
  /\ match r with
     | Ok _ =>
         move_ends env = Moved
         /\ (dirs w q = true -> exists_ w (inside q p) = false)
         /\ forall x,
             fs w' x =
             if String.eqb x p then None
             else if String.eqb x (move_target w p q) then fs w p
                  else fs w x
     | Raise e =>
         fs w' = fs w
         \/ (e = OSError Move
             /\ exists c,
                 move_ends env = MoveFailsWritten c
                 /\ forall x,
                     fs w' x =
                     if String.eqb x (move_target w p q) then Some c
                     else fs w x)
     end.
Proof.
  unfold shutil_move, bindM, log. cbn [fs dirs trace].
  change (move_target {| fs := fs w; dirs := dirs w;
                         trace := EvMove p q :: trace w |} p q)
    with (move_target w p q).
  change (exists_ {| fs := fs w; dirs := dirs w;
                     trace := EvMove p q :: trace w |}
                  (move_target w p q))
    with (exists_ w (move_target w p q)).
  destruct (dirs w q && exists_ w (move_target w p q)) eqn:Eex.
  { intros [= <- <-]. cbn [fs dirs trace]. auto. }
  destruct (move_ends env) as [| |c]; intros [= <- <-];
    cbn [fs dirs trace]; (split; [reflexivity|]); (split; [reflexivity|]).
  - split; [reflexivity|]. split.
    + intro Hd. rewrite Hd in Eex. cbn [andb] in Eex.
      unfold move_target in Eex. now rewrite Hd in Eex.
    + intro x. now rewrite !write_eq.
  - now left.
  - right. split; [reflexivity|]. exists c. split; [reflexivity|].
    intro x. now rewrite write_eq.
Qed.

(** What the body of the [try] block does to the regular files, from a
    world where the temporary file exists: it writes the temporary file,
    and its last step, the move, writes the target. *)
Lemma attempt_paths
      (env : environment) (src_path tpl_path dst_path tmp : string)
      (w w' : world) (c0 : content) (r : result unit) :
  fs w tmp = Some c0 ->
  attempt fromstring tostring env src_path tpl_path dst_path tmp w
  = (r, w') ->
  (forall q, dirs w q = true -> dirs w' q = true)
  /\ match r with
     | Ok _ =>
         move_ends env = Moved
         /\ exists zs zt st,
             dirs w src_path = false /\ dirs w tpl_path = false
             /\ fs w src_path = Some (Archive zs)
             /\ fs w tpl_path = Some (Archive zt)
             /\ transform zs zt = Ok st
             /\ (dirs w' dst_path = true ->
                 fs w (inside dst_path tmp) = None
                 \/ inside dst_path tmp = tmp)
             /\ trace w' =
                [EvMove tmp dst_path; EvMakedirs (Str.dirname dst_path);
                 EvCloseWrite tmp; EvOpenWrite tmp;
                 EvOpenRead tpl_path; EvOpenRead src_path] ++ trace w
             /\ forall p,
                 fs w' p =
                 if String.eqb p tmp then None
                 else if String.eqb p (move_target w' tmp dst_path)
                      then Some (Archive (Docx.out_zip st))
                      else fs w p
     | Raise e =>
         (exists c1, fs w' tmp = Some c1
                     /\ forall p, p <> tmp -> fs w' p = fs w p)
         \/ (e = OSError Move
             /\ exists c c1,
                 move_ends env = MoveFailsWritten c
                 /\ forall p,
                     fs w' p =
                     if String.eqb p (move_target w' tmp dst_path)
                     then Some c
                     else if String.eqb p tmp then Some c1
                          else fs w p)
     end.
Proof.
  intros Htmp. unfold attempt, bindM, lift.
  destruct (open_read env src_path w) as [[zs|e1] w1] eqn:E1;
    apply open_read_inv in E1 as [-> E1].
  2:{ intros [= <- <-]. cbn [fs dirs]. split; [auto | left; eauto]. }
  destruct E1 as [Ds Fs].
  destruct (open_read env tpl_path _) as [[zt|e2] w2] eqn:E2;
    apply open_read_inv in E2 as [-> E2]; cbn [fs dirs trace] in *.
  2:{ intros [= <- <-]. cbn [fs dirs]. split; [auto | left; eauto]. }
  destruct E2 as [Dt Ft].
  destruct (open_write env tmp _) as [[u3|e3] w3] eqn:E3;
    apply open_write_inv in E3 as [(e & He & ->)|[He ->]];
    try discriminate He; cbn [fs dirs trace] in *.
  2:{ intros [= <- <-]. cbn [fs dirs]. split; [auto | left; eauto]. }
  destruct (transform zs zt) as [st|e0] eqn:Etr.
  2:{ intros [= <- <-]. cbn [fs dirs]. split; [auto|]. left.
      exists (Blob []). split; [apply write_same|].
      intros p Hp. now apply write_other. }
  destruct (close_write env tmp _ _) as [[u4|e4] w4] eqn:E4;
    apply close_write_inv in E4 as [(e & He4 & ->)|[He4 ->]];
    try discriminate He4; cbn [fs dirs trace] in *.
  2:{ intros [= <- <-]. cbn [fs dirs]. split; [auto|]. left.
      exists (Blob []). split; [apply write_same|].
      intros p Hp. now apply write_other. }
  set (f1 := write (write (fs w) tmp (Some (Blob [])))
                   tmp (Some (Archive (Docx.out_zip st)))) in *.
  assert (Hf1 : f1 tmp = Some (Archive (Docx.out_zip st)))
    by apply write_same.
  assert (Hf1o : forall p, p <> tmp -> f1 p = fs w p).
  { intros p Hp. unfold f1. now rewrite !write_other by exact Hp. }
  destruct (makedirs env _ _) as [r5 w5] eqn:E5.
  apply makedirs_inv in E5 as (F5 & T5 & D5 & R5). cbn [fs dirs trace] in *.
  destruct r5 as [u5|e5].
  2:{ intros [= <- <-]. split; [exact D5|]. left.
      exists (Archive (Docx.out_zip st)). rewrite F5. auto. }
  intro E6. apply shutil_move_inv in E6 as (D6 & T6 & R6).
  assert (Hmt : move_target w' tmp dst_path = move_target w5 tmp dst_path).
  { unfold move_target. now rewrite D6. }
  split; [intros q Hq; rewrite D6; now apply D5|].
  destruct r as [u|e].
  - destruct R6 as (Hmv & Hex & Hfs). split; [exact Hmv|].
    exists zs, zt, st.
    repeat (split; [reflexivity || assumption|]).
    split.
    { intro Hd. rewrite D6 in Hd. specialize (Hex Hd).
      unfold exists_ in Hex. rewrite F5 in Hex.
      destruct (String.eqb_spec (inside dst_path tmp) tmp) as [E|E];
        [now right | left].
      rewrite Hf1o in Hex by exact E.
      destruct (fs w (inside dst_path tmp)); [discriminate | reflexivity]. }
    split; [now rewrite T6, T5|].
    intro p. rewrite Hfs, Hmt, F5.
    destruct (String.eqb_spec p tmp) as [->|Hp]; [reflexivity|].
    destruct (String.eqb p (move_target w5 tmp dst_path));
      [exact Hf1 | now apply Hf1o].
  - destruct R6 as [Hfs|(-> & c & Hmv & Hfs)].
    + left. exists (Archive (Docx.out_zip st)). rewrite Hfs, F5. auto.
    + right. split; [reflexivity|].
      exists c, (Archive (Docx.out_zip st)). split; [exact Hmv|].
      intro p. rewrite Hfs, Hmt, F5.
      destruct (String.eqb p (move_target w5 tmp dst_path)); [reflexivity|].
      destruct (String.eqb_spec p tmp) as [->|Hp];
        [exact Hf1 | now apply Hf1o].
Qed.

(** The call is the guard, the creation of the temporary file, and the
    body with its handler. *)
Lemma apply_unfold
      (env : environment) (src_path tpl_path dst_path : string)
      (w : world) :
  has_docx_extension src_path = true ->
  has_docx_extension tpl_path = true ->
  mkstemp_fails env = false ->
  apply_template env src_path tpl_path dst_path w =
  let w1 := World (write (fs w) (tmp_out env) (Some (Blob [])))
                  (dirs w) (EvMkstemp (tmp_out env) :: trace w) in
  match attempt fromstring tostring env src_path tpl_path dst_path
                (tmp_out env) w1 with
  | (Ok a, w2) => (Ok a, w2)
  | (Raise e, w2) => (Raise e, snd (remove_if_exists (tmp_out env) w2))
  end.
Proof.
  intros Hs Ht Hm. unfold apply_template_to_docx, mkstemp.
  rewrite Hs, Ht, Hm. reflexivity.
Qed.


End Apply.


Lemma unsupported_extension_no_io_witness :
  apply_template_to_docx Demo.fromstring Demo.tostring Demo.env_ok
    "report.doc" "tpl.docx" "out.docx" Demo.world
  = (Raise ValueError, Demo.world).
Proof.
  apply (unsupported_extension_no_io Demo.fromstring Demo.tostring
           Demo.env_ok "report.doc" "tpl.docx" "out.docx" Demo.world).
  right. right. reflexivity.
Defined.


End FsTheorems.

(* ================================================================== *)
(** ** The transform returns *)

Module Totality.
Import Xml Zip Docx LoopFacts RelsFacts.

Section Total.

Variable fromstring : bytes -> option element.
Variable tostring : element -> bytes.

Lemma parse_or_cases (data : option bytes) (fresh : element) :
  (exists root, parse_or fromstring data fresh = Ok root)
  \/ (parse_or fromstring data fresh = Raise ParseError
      /\ exists d, data = Some d /\ fromstring d = None).
Proof.
  unfold parse_or. destruct data as [d|]; [|eauto].
  destruct (fromstring d) eqn:E; eauto.
Qed.

(** The transform returns a final state or raises [ParseError] on one of
    the three structured parts: no loop of it runs out of fuel and no
    entry it reads is missing. *)
Theorem transform_returns (src tpl : package) :
  (exists st,
      _replace_header_footer_parts fromstring tostring src tpl = Ok st)
  \/ (_replace_header_footer_parts fromstring tostring src tpl
      = Raise ParseError
      /\ exists n d,
          (n = "word/_rels/document.xml.rels"
           \/ n = "word/document.xml" \/ n = "[Content_Types].xml")
          /\ lookup src n = Some d /\ fromstring d = None).
Proof.
  unfold _replace_header_footer_parts.
  destruct (copy_source_ok src) as (buf & Hc & _ & Hdoc & Hrels & Hct).
  rewrite Hc. cbn [bind].
  destruct (collect_ok tpl) as (hs & fs & Hcol & _).
  rewrite Hcol. cbn [bind].
  destruct (_pick_first_part hs) as [h_name h_bytes].
  destruct (_pick_first_part fs) as [f_name f_bytes].
  destruct (media_ok src tpl (copied buf) []) as (added & Hm & _).
  rewrite Hm. cbn [bind]. rewrite Hdoc, Hrels, Hct.
  destruct (parse_or_cases (lookup src "word/_rels/document.xml.rels")
                           (new rel_Relationships))
    as [[rels0 ->]|[-> (d & Hd & Hn)]]; cbn [bind];
    [|right; split; [reflexivity|];
      exists "word/_rels/document.xml.rels", d; auto].
  destruct (strip_relationships (children rels0) []) as [used kept].
  destruct (add_relationship_ok h_bytes header_type_uri "header1.xml"
              (set_children rels0 kept) used)
    as [[[rels1 used1] h_id] ->]. cbn [bind].
  destruct (add_relationship_ok f_bytes footer_type_uri "footer1.xml"
              rels1 used1)
    as [[[rels2 used2] f_id] ->]. cbn [bind].
  destruct (parse_or_cases (lookup src "word/document.xml")
                           minimal_document)
    as [[doc0 ->]|[-> (d & Hd & Hn)]]; cbn [bind];
    [|right; split; [reflexivity|];
      exists "word/document.xml", d; auto].
  destruct (parse_or_cases (lookup src "[Content_Types].xml")
                           (new ct_Types))
    as [[ct0 ->]|[-> (d & Hd & Hn)]]; cbn [bind];
    [|right; split; [reflexivity|];
      exists "[Content_Types].xml", d; auto].
  left. eauto.
Qed.

End Total.

End Totality.

(* ================================================================== *)
(** ** The example scenarios, by evaluation *)

Module Scenarios.
Import Xml Zip Docx Fs.

(** The old header relationship [rId3] is gone, the new header id is
    [rId9002] (the source already uses [rId9001] for an image), and
    [word/header1.xml] holds the bytes of the template's [header1.xml],
    not those of its [header2.xml]. *)
Example old_relationship_replaced :
  manifest_ids (rels_root Demo.st) = ["rId9001"; "rId9002"; "rId9003"]
  /\ header_rel_id Demo.st = Some "rId9002"
  /\ lookup (out_zip Demo.st) "word/header1.xml" = Some (Demo.b "H1").
Proof. vm_compute. repeat split. Qed.

(** A template without footer parts: no footer reference in any section,
    no [word/footer1.xml], and the registry keeps the footer Override the
    source had, with its old content type. *)
Example template_without_footer :
  match _replace_header_footer_parts Demo.fromstring Demo.tostring
                                     Demo.src Demo.tpl_header_only with
  | Ok st =>
      footer_rel_id st = None
      /\ lookup (out_zip st) "word/footer1.xml" = None
      /\ map (fun s => findall s w_footerReference)
             (section_blocks (doc_root st)) = [[]; []]
      /\ overrides_for "/word/footer1.xml" (ct_root st)
         = [override "/word/footer1.xml" "text/plain"]
  | Raise _ => False
  end.
Proof. vm_compute. repeat split. Qed.

(** A document part that does not parse makes the transform raise. *)
Example broken_document_raises :
  _replace_header_footer_parts Demo.fromstring Demo.tostring
                               Demo.src_broken Demo.tpl
  = Raise ParseError.
Proof. vm_compute. reflexivity. Qed.

(** The template's media is in the output when the source has none of
    that name. *)
Example template_logo_copied :
  lookup (out_zip Demo.st) "word/media/logo.png" = Some (Demo.b "logo").
Proof. vm_compute. reflexivity. Qed.

(** A run where every call succeeds publishes the archive at the
    destination and leaves no temporary file. *)
Example successful_call_publishes :
  let r := apply_template_to_docx Demo.fromstring Demo.tostring Demo.env_ok
             "in.docx" "TPL.DOCX" "out.docx"
             (World (write Demo.files "TPL.DOCX" (Some (Archive Demo.tpl)))
                    (fun _ => false) []) in
  fst r = Ok tt
  /\ fs (snd r) "out.docx" = Some (Archive (out_zip Demo.st))
  /\ fs (snd r) "/tmp/tmpk3v9.docx" = None
  /\ fs (snd r) "notes.txt" = Some (Blob (Demo.b "notes")).
Proof. vm_compute. repeat split. Qed.

(** With a directory as destination the archive lands inside it, under
    the name of the temporary file. *)
Example directory_destination :
  let r := apply_template_to_docx Demo.fromstring Demo.tostring Demo.env_ok
             "in.docx" "tpl.docx" "results" Demo.world_with_directory in
  fst r = Ok tt
  /\ fs (snd r) "results" = None
  /\ fs (snd r) "results/tmpk3v9.docx" = Some (Archive (out_zip Demo.st))
  /\ fs (snd r) "/tmp/tmpk3v9.docx" = None.
Proof. vm_compute. repeat split. Qed.

End Scenarios.

(* ================================================================== *)
(** ** More on the output package *)

Module PackageMore.
Import Xml Zip Docx StrFacts ZipFacts LoopFacts OutFacts RunFacts
       WrittenFacts InstallFacts.

Lemma namelist_writestr (z : package) (n : string) (d : bytes) :
  namelist (writestr z n d) = namelist z ++ [n].
Proof. unfold writestr. now rewrite namelist_app. Qed.

(** [install_part] adds the canonical name, then perhaps the name of its
    manifest, and nothing else. *)
Lemma install_names (tpl out : package) (c cr : string) name data :
  exists l,
    namelist (install_part tpl out c cr name data) = namelist out ++ l
    /\ (l = [] \/ l = [c] \/ l = [c; cr]).
Proof.
  unfold install_part. destruct data as [d|].
  - destruct name as [nm|].
    + destruct (String.eqb nm "").
      * exists [c]. rewrite namelist_writestr. auto.
      * destruct (read tpl _).
        -- exists [c; cr]. rewrite !namelist_writestr, <- app_assoc. auto.
        -- exists [c]. rewrite namelist_writestr. auto.
    + exists [c]. rewrite namelist_writestr. auto.
  - exists []. rewrite app_nil_r. auto.
Qed.

Lemma staged_names (src : package) (l : list string) :
  incl l (namelist src) ->
  namelist (flat_map (staged src) l) = filter passthrough l.
Proof.
  induction l as [|n l IH]; intro Hl; [reflexivity|].
  assert (Hn : In n (namelist src)) by (apply Hl; now left).
  assert (Hl' : incl l (namelist src)) by (intros x Hx; apply Hl; now right).
  destruct (lookup_namelist _ _ Hn) as [b Hb].
  cbn [flat_map filter]. rewrite namelist_app, (IH Hl').
  unfold staged. rewrite Hb. now destruct (passthrough n).
Qed.

Section Names.

Variable fromstring : bytes -> option element.
Variable tostring : element -> bytes.

#[local] Abbreviation transform :=
  (_replace_header_footer_parts fromstring tostring).

(** The names of the output: the pass-through names of the source in their
    order, the media names taken from the template, the names of the parts
    installed, and the three edited parts last. *)
Lemma output_names (src tpl : package) (st : locals) :
  transform src tpl = Ok st ->
  exists media lh lf,
    namelist (out_zip st) =
    filter passthrough (namelist src) ++ media ++ lh ++ lf
    ++ ["[Content_Types].xml"; "word/_rels/document.xml.rels";
        "word/document.xml"]
    /\ NoDup media
    /\ (forall m, In m media ->
                  Str.startswith "word/media/" m = true
                  /\ In m (namelist tpl) /\ ~ In m (namelist src))
    /\ (lh = [] \/ lh = ["word/header1.xml"]
        \/ lh = ["word/header1.xml"; "word/_rels/header1.xml.rels"])
    /\ (lf = [] \/ lf = ["word/footer1.xml"]
        \/ lf = ["word/footer1.xml"; "word/_rels/footer1.xml.rels"]).
Proof.
  intro Hrun.
  destruct (replace_inv _ _ _ _ _ Hrun)
    as (hs & fs & added & rels0 & doc0 & ct0 & rels1 & used1 & used2
        & _ & _ & _ & _ & (M1 & _ & M3) & Hout & _).
  rewrite Hout. unfold written. rewrite !namelist_writestr.
  destruct (install_names tpl
              (install_part tpl
                 (flat_map (staged src) (namelist src) ++ added)
                 "word/header1.xml" "word/_rels/header1.xml.rels"
                 (tpl_header_name st) (tpl_header_bytes st))
              "word/footer1.xml" "word/_rels/footer1.xml.rels"
              (tpl_footer_name st) (tpl_footer_bytes st)) as (lf & -> & Hlf).
  destruct (install_names tpl
              (flat_map (staged src) (namelist src) ++ added)
              "word/header1.xml" "word/_rels/header1.xml.rels"
              (tpl_header_name st) (tpl_header_bytes st)) as (lh & -> & Hlh).
  rewrite namelist_app, (staged_names src _ (incl_refl _)).
  exists (namelist added), lh, lf.
  repeat rewrite <- app_assoc. cbn [app].
  split; [reflexivity|]. split; [exact M3|]. split; [|auto].
  intros m Hm. apply in_map_iff in Hm as [[m' b] [Hfst Hin]].
  simpl in Hfst. subst m'. destruct (M1 m b Hin) as (Hmed & Hl & Hno).
  split; [exact Hmed|]. split; [now apply lookup_Some_namelist in Hl|].
  intro Hs. apply Hno. apply copied_names. split; [exact Hs|].
  now apply media_passthrough.
Qed.

(** X1.  When the entry names of the source are unique, so are those of the
    output package: the transform never writes a name twice. *)
Theorem output_names_unique (src tpl : package) (st : locals) :
  transform src tpl = Ok st ->
  NoDup (namelist src) ->
  NoDup (namelist (out_zip st)).
Proof.
  intros Hrun Hnd.
  destruct (output_names _ _ _ Hrun)
    as (media & lh & lf & -> & Hm & Hmedia & Hlh & Hlf).
  assert (Hpass : forall n, In n (filter passthrough (namelist src)) ->
                            ~ reserved n
                            /\ In n (namelist src)).
  { intros n Hn. apply filter_In in Hn as [Hs Hp].
    apply passthrough_not_canonical in Hp. unfold reserved. tauto. }
  assert (Hmed : forall n, In n media -> ~ reserved n /\ ~ In n (namelist src)).
  { intros n Hn. destruct (Hmedia n Hn) as (Hp & _ & Hs).
    apply media_not_canonical in Hp. unfold reserved. tauto. }
  apply NoDup_app; [now apply NoDup_filter| |].
  - apply NoDup_app; [exact Hm| |].
    + destruct Hlh as [-> | [-> | ->]]; destruct Hlf as [-> | [-> | ->]];
        cbn [app]; repeat constructor; simpl; intuition discriminate.
    + intros n Hn Hin. apply Hmed in Hn as [Hn _]. apply Hn.
      unfold reserved.
      destruct Hlh as [-> | [-> | ->]]; destruct Hlf as [-> | [-> | ->]];
        cbn [app] in Hin; simpl in Hin; intuition.
  - intros n Hn Hin. apply Hpass in Hn as [Hr Hs].
    apply in_app_or in Hin as [Hin|Hin].
    + apply Hmed in Hin. tauto.
    + apply Hr. unfold reserved.
      destruct Hlh as [-> | [-> | ->]]; destruct Hlf as [-> | [-> | ->]];
        cbn [app] in Hin; simpl in Hin; intuition.
Qed.

End Names.

Lemma output_names_unique_witness :
  NoDup (namelist Demo.src) /\ NoDup (namelist (out_zip Demo.st)).
Proof.
  assert (H : NoDup (namelist Demo.src)).
  { vm_compute. repeat constructor; simpl; intuition discriminate. }
  split; [exact H|].
  apply (output_names_unique Demo.fromstring Demo.tostring
           Demo.src Demo.tpl Demo.st).
  - vm_compute. reflexivity.
  - exact H.
Defined.

End PackageMore.

(* ================================================================== *)
(** ** Manifests of the installed parts; the source's own headers *)

Module InstallMore.
Import Xml Zip Docx DocxMore StrFacts ZipFacts LoopFacts OutFacts RunFacts
       WrittenFacts InstallFacts.

Lemma install_lookup_manifest (tpl out : package) (c cr nm : string)
      (d : bytes) :
  nm <> "" ->
  lookup (install_part tpl out c cr (Some nm) (Some d)) cr =
  match lookup tpl (manifest_of nm) with
  | Some d' => Some d'
  | None => lookup (writestr out c d) cr
  end.
Proof.
  intro Hne. unfold install_part, manifest_of, read.
  apply String.eqb_neq in Hne. rewrite Hne.
  destruct (lookup tpl _) as [d'|]; [|reflexivity].
  rewrite lookup_writestr. now rewrite String.eqb_refl.
Qed.

(** An entry of the package after [install_part]: one that was there, the
    canonical part, or the manifest the template has for the part. *)
Lemma install_In_manifest (tpl out : package) (c cr : string) name data x :
  In x (install_part tpl out c cr name data) ->
  In x out
  \/ (exists d, data = Some d /\ x = (c, d))
  \/ (fst x = cr
      /\ exists nm, name = Some nm
                    /\ lookup tpl (manifest_of nm) = Some (snd x)).
Proof.
  unfold install_part, manifest_of, read. destruct data as [d|]; [|auto].
  assert (H1 : In x (writestr out c d) ->
               In x out \/ (exists d0, Some d = Some d0 /\ x = (c, d0))
               \/ (fst x = cr
                   /\ exists nm, name = Some nm
                                 /\ lookup tpl
                                      (String.append "word/_rels/"
                                         (String.append (Str.basename nm)
                                                        ".rels"))
                                    = Some (snd x))).
  { rewrite In_writestr. intros [H| ->]; eauto. }
  destruct name as [nm|]; [|exact H1].
  destruct (String.eqb nm ""); [exact H1|].
  destruct (lookup tpl _) as [d'|] eqn:E; [|exact H1].
  rewrite In_writestr. intros [H| ->]; [auto|].
  right. right. split; [reflexivity|]. exists nm. auto.
Qed.

(** What [_pick_first_part] returns: nothing, or a name of the dictionary
    with its bytes. *)
Lemma picked_name (tpl : package) (parts : dict) (p : string -> bool)
      (name : option string) (data : option bytes) :
  (forall n, In n (keys parts) <-> In n (namelist tpl) /\ p n = true) ->
  _pick_first_part parts = (name, data) ->
  (name = None /\ data = None)
  \/ exists nm d, name = Some nm /\ data = Some d
                  /\ In nm (namelist tpl) /\ p nm = true.
Proof.
  intros Hk Hp. destruct parts as [|kv parts].
  - injection Hp as <- <-. now left.
  - destruct (pick_some (kv :: parts)) as (nm & d & E & [Hin _] & _);
      [discriminate|].
    rewrite E in Hp. injection Hp as <- <-.
    right. exists nm, d. apply Hk in Hin. tauto.
Qed.

Lemma tpl_part_not_empty (nm : string) :
  is_tpl_header nm = true \/ is_tpl_footer nm = true -> nm <> "".
Proof. intros [H|H] ->; discriminate H. Qed.

Lemma lookup_filter_names (p : string -> bool) (z : package) (n : string) :
  p n = true ->
  lookup (filter (fun e => p (fst e)) z) n = lookup z n.
Proof.
  intro Hp. induction z as [|[m c] z IH]; [reflexivity|].
  cbn [filter fst]. destruct (p m) eqn:Em; cbn [lookup]; rewrite IH.
  - reflexivity.
  - destruct (lookup z n); [reflexivity|].
    destruct (String.eqb_spec m n); [congruence | reflexivity].
Qed.

Lemma namelist_filter (p : string -> bool) (z : package) :
  namelist (filter (fun e => p (fst e)) z) = filter p (namelist z).
Proof.
  induction z as [|[m c] z IH]; [reflexivity|].
  cbn [filter fst namelist map]. destruct (p m); cbn [map];
    unfold namelist in IH; now rewrite IH.
Qed.

Section Install.

Variable fromstring : bytes -> option element.
Variable tostring : element -> bytes.

#[local] Abbreviation transform :=
  (_replace_header_footer_parts fromstring tostring).

(** X2.  The manifest of an installed part comes from the template: the
    output reads under [word/_rels/header1.xml.rels] what the template
    reads under the manifest name of the selected header part, nothing when
    the template has no such entry or no header part; the same for the
    footer.  A header/footer relationship file of the source never reaches
    the output. *)
Theorem part_manifests_from_template (src tpl : package) (st : locals) :
  transform src tpl = Ok st ->
  lookup (out_zip st) "word/_rels/header1.xml.rels"
  = match tpl_header_name st with
    | Some nm => lookup tpl (manifest_of nm)
    | None => None
    end
  /\ lookup (out_zip st) "word/_rels/footer1.xml.rels"
     = match tpl_footer_name st with
       | Some nm => lookup tpl (manifest_of nm)
       | None => None
       end
  /\ forall n b,
      is_header_footer_rels n = true -> In (n, b) (out_zip st) ->
      (n = "word/_rels/header1.xml.rels"
       /\ exists nm, tpl_header_name st = Some nm
                     /\ lookup tpl (manifest_of nm) = Some b)
      \/ (n = "word/_rels/footer1.xml.rels"
          /\ exists nm, tpl_footer_name st = Some nm
                        /\ lookup tpl (manifest_of nm) = Some b).
Proof.
  intro Hrun.
  destruct (replace_inv _ _ _ _ _ Hrun)
    as (hs & fs & added & rels0 & doc0 & ct0 & rels1 & used1 & used2
        & (_ & Kh) & (_ & Kf) & Ph & Pf & (M1 & _ & _) & Hout & _).
  pose proof (staged_not_reserved fromstring src tpl added) as Hres.
  assert (Hh : lookup (out_zip st) "word/_rels/header1.xml.rels"
               = match tpl_header_name st with
                 | Some nm => lookup tpl (manifest_of nm)
                 | None => None
                 end).
  { rewrite Hout. unfold written. rewrite !lookup_writestr.
    cbn [String.eqb Ascii.eqb Bool.eqb].
    rewrite install_lookup_other by discriminate.
    destruct (picked_name _ _ _ _ _ Kh Ph)
      as [[-> ->]|(nm & d & -> & -> & _ & Hp)].
    - cbn [install_part]. apply Hres; [exact M1 | unfold reserved; tauto].
    - rewrite install_lookup_manifest
        by (apply tpl_part_not_empty; now left).
      destruct (lookup tpl (manifest_of nm)); [reflexivity|].
      rewrite lookup_writestr. cbn [String.eqb Ascii.eqb Bool.eqb].
      apply Hres; [exact M1 | unfold reserved; tauto]. }
  assert (Hf : lookup (out_zip st) "word/_rels/footer1.xml.rels"
               = match tpl_footer_name st with
                 | Some nm => lookup tpl (manifest_of nm)
                 | None => None
                 end).
  { rewrite Hout. unfold written. rewrite !lookup_writestr.
    cbn [String.eqb Ascii.eqb Bool.eqb].
    destruct (picked_name _ _ _ _ _ Kf Pf)
      as [[-> ->]|(nm & d & -> & -> & _ & Hp)].
    - cbn [install_part]. rewrite install_lookup_other by discriminate.
      apply Hres; [exact M1 | unfold reserved; tauto].
    - rewrite install_lookup_manifest
        by (apply tpl_part_not_empty; now right).
      destruct (lookup tpl (manifest_of nm)); [reflexivity|].
      rewrite lookup_writestr. cbn [String.eqb Ascii.eqb Bool.eqb].
      rewrite install_lookup_other by discriminate.
      apply Hres; [exact M1 | unfold reserved; tauto]. }
  split; [exact Hh|]. split; [exact Hf|].
  intros n b Hrels Hin.
  rewrite Hout in Hin. unfold written in Hin. rewrite !In_writestr in Hin.
  destruct Hin as [[[Hin|E]|E]|E];
    try (injection E as -> ->; discriminate Hrels).
  apply install_In_manifest in Hin
    as [Hin|[(d & _ & E)|(Hfst & nm & Hn & Hl)]];
    [|injection E as -> ->; discriminate Hrels
     |right; cbn [fst snd] in *; eauto].
  apply install_In_manifest in Hin
    as [Hin|[(d & _ & E)|(Hfst & nm & Hn & Hl)]];
    [|injection E as -> ->; discriminate Hrels
     |left; cbn [fst snd] in *; eauto].
  exfalso. apply in_app_or in Hin as [Hb|Hb].
  - apply staged_In in Hb as (_ & Hc & _).
    unfold passthrough in Hc. rewrite Hrels in Hc.
    rewrite orb_true_r in Hc. rewrite !andb_false_r in Hc. discriminate.
  - apply M1 in Hb as (Hm & _ & _). apply media_passthrough in Hm.
    unfold passthrough in Hm. rewrite Hrels in Hm.
    rewrite orb_true_r in Hm. rewrite !andb_false_r in Hm. discriminate.
Qed.

Lemma kept_passthrough (n : string) :
  negb (is_header_footer_part n || is_header_footer_rels n) = false ->
  passthrough n = false.
Proof.
  intro H. unfold passthrough. rewrite H. now rewrite !andb_false_r.
Qed.

Lemma staged_without (src : package) (l : list string) :
  flat_map (staged (without_header_footer src))
           (filter (fun n => negb (is_header_footer_part n
                                   || is_header_footer_rels n)) l)
  = flat_map (staged src) l.
Proof.
  induction l as [|n l IH]; [reflexivity|].
  cbn [filter flat_map].
  destruct (negb (is_header_footer_part n || is_header_footer_rels n))
    eqn:E.
  - cbn [flat_map]. rewrite IH. f_equal. unfold staged.
    destruct (passthrough n); [|reflexivity].
    unfold without_header_footer.
    now rewrite (lookup_filter_names
                   (fun n => negb (is_header_footer_part n
                                   || is_header_footer_rels n)) src n E).
  - rewrite IH. unfold staged at 2. now rewrite (kept_passthrough n E).
Qed.

(** X3.  The transform does not look at the header/footer parts of the
    source or at their relationship files: with or without them the result
    is the same, the final state or the exception. *)
Theorem source_headers_ignored (src tpl : package) :
  transform (without_header_footer src) tpl = transform src tpl.
Proof.
  assert (Hc : copy_source (without_header_footer src) = copy_source src).
  { destruct (copy_source_ok src) as (b1 & -> & H1 & H2 & H3 & H4).
    destruct (copy_source_ok (without_header_footer src))
      as (b2 & -> & G1 & G2 & G3 & G4).
    f_equal. destruct b1, b2. cbn in *. subst.
    unfold without_header_footer.
    rewrite !(lookup_filter_names
                (fun n => negb (is_header_footer_part n
                                || is_header_footer_rels n)))
      by reflexivity.
    f_equal.
    rewrite (namelist_filter
               (fun n => negb (is_header_footer_part n
                               || is_header_footer_rels n))).
    apply staged_without. }
  unfold _replace_header_footer_parts. rewrite Hc. reflexivity.
Qed.

End Install.

Lemma part_manifests_from_template_witness :
  lookup (out_zip Demo.st) "word/_rels/header1.xml.rels"
  = Some (Demo.b "H1 rels")
  /\ lookup (out_zip Demo.st) "word/_rels/footer1.xml.rels" = None.
Proof.
  destruct (part_manifests_from_template Demo.fromstring Demo.tostring
              Demo.src Demo.tpl Demo.st ltac:(vm_compute; reflexivity))
    as (Hh & Hf & _).
  split; [exact Hh | exact Hf].
Defined.

End InstallMore.

(* ================================================================== *)
(** ** More on the relationship manifest *)

Module RelsMore.
Import Xml Zip Docx DocxMore StrFacts RelsFacts RunFacts.

Lemma new_rid_from_least (fuel : nat) :
  forall (i : N) (used l : list string),
    List.length l < fuel ->
    (forall j, (i <= j)%N -> In (candidate j) used -> In (candidate j) l) ->
    exists n,
      new_rid_from fuel i used = Ok (candidate n, candidate n :: used)
      /\ (i <= n)%N
      /\ ~ In (candidate n) used
      /\ forall k, (i <= k < n)%N -> In (candidate k) used.
Proof.
  induction fuel as [|fuel IH]; intros i used l Hlen Hl; [lia|].
  simpl. destruct (Str.mem (candidate i) used) eqn:E; simpl.
  - apply mem_In in E.
    assert (Hin : In (candidate i) l) by (apply Hl; [lia | exact E]).
    destruct (IH (i + 1)%N used (remove string_dec (candidate i) l))
      as (n & Hn & Hle & Hfree & Hbelow).
    + pose proof (remove_length_lt string_dec l (candidate i) Hin). lia.
    + intros j Hj Hu. apply in_in_remove.
      * intro Heq. apply candidate_inj in Heq. lia.
      * apply Hl; [lia | exact Hu].
    + exists n. split; [exact Hn|]. split; [lia|]. split; [exact Hfree|].
      intros k Hk. destruct (N.eq_dec k i) as [->|Hne]; [exact E|].
      apply Hbelow. lia.
  - apply mem_false in E. exists i. split; [reflexivity|].
    split; [lia|]. split; [exact E|]. intros k Hk. lia.
Qed.

(** X4.  [new_rid] always returns, and what it returns is the candidate
    [rId<n>] with the least [n >= 9001] that is not in use; the id is marked
    as used. *)
Theorem new_rid_least_free (used_ids : list string) :
  exists n,
    new_rid used_ids = Ok (candidate n, candidate n :: used_ids)
    /\ (9001 <= n)%N
    /\ ~ In (candidate n) used_ids
    /\ forall k, (9001 <= k < n)%N -> In (candidate k) used_ids.
Proof.
  unfold new_rid.
  apply (new_rid_from_least _ 9001%N used_ids used_ids); auto.
Qed.

Lemma append_set_children (root : element) (cs : list element)
      (x : element) :
  append (set_children root cs) x = set_children root (cs ++ [x]).
Proof. now destruct root. Qed.

Lemma set_children_twice (root : element) (cs cs' : list element) :
  set_children (set_children root cs) cs' = set_children root cs'.
Proof. now destruct root. Qed.

Section Rels.

Variable fromstring : bytes -> option element.
Variable tostring : element -> bytes.

#[local] Abbreviation transform :=
  (_replace_header_footer_parts fromstring tostring).

(** X5.  The output manifest is the source manifest (an empty
    [Relationships] root when the source has none) with the same root, the
    children that are not header or footer relationships kept as they are
    and in their order, followed by one relationship per installed part,
    of the header (footer) type and with target [header1.xml]
    ([footer1.xml]). *)
Theorem manifest_keeps_other_relationships
        (src tpl : package) (st : locals) (rels0 : element) :
  transform src tpl = Ok st ->
  parse_or fromstring (lookup src "word/_rels/document.xml.rels")
           (new rel_Relationships) = Ok rels0 ->
  rels_root st =
  set_children rels0
    (filter (fun rel =>
               negb (is_relationship rel && is_header_footer_type rel))
            (children rels0)
     ++ new_relationships header_type_uri "header1.xml" (header_rel_id st)
     ++ new_relationships footer_type_uri "footer1.xml" (footer_rel_id st)).
Proof.
  intros Hrun Hparse.
  destruct (replace_inv _ _ _ _ _ Hrun)
    as (hs & fs & added & rels0' & doc0 & ct0 & rels1 & used1 & used2
        & _ & _ & _ & _ & _ & _ & Pr & A1 & A2 & _).
  assert (rels0' = rels0) by congruence. subst rels0'.
  rewrite strip_kept in A1.
  apply add_relationship_inv in A1, A2.
  destruct A1 as [(_ & -> & -> & _)
                 |(c1 & k1 & _ & -> & _ & _ & _ & _ & ->)];
    destruct A2 as [(_ & -> & -> & _)
                   |(c2 & k2 & _ & -> & _ & _ & _ & _ & ->)];
    cbn [new_relationships];
    rewrite ?append_set_children, ?set_children_twice, ?app_nil_r,
      <- ?app_assoc;
    reflexivity.
Qed.

End Rels.

Lemma manifest_keeps_other_relationships_witness :
  children (rels_root Demo.st)
  = [ relationship "rId9001" Demo.image_uri "media/image1.png";
      relationship "rId9002" header_type_uri "header1.xml";
      relationship "rId9003" footer_type_uri "footer1.xml" ].
Proof.
  rewrite (manifest_keeps_other_relationships
             Demo.fromstring Demo.tostring Demo.src Demo.tpl Demo.st
             Demo.rels_tree ltac:(vm_compute; reflexivity)
             ltac:(vm_compute; reflexivity)).
  vm_compute. reflexivity.
Defined.

End RelsMore.

(* ================================================================== *)
(** ** More on the section properties *)

Module DocMore.
Import Xml Zip Docx XmlFacts DocFacts EditFacts.

(** A [w:sectPr] in a subtree leaves one in the subtree after the loop. *)
Lemma update_sections_keeps_block (h f : option string) (e : element) :
  (exists d, In d (e :: descendants e) /\ has_tag w_sectPr d = true) ->
  exists d', In d' (update_sections h f e
                      :: descendants (update_sections h f e))
             /\ has_tag w_sectPr d' = true.
Proof.
  induction e as [t a x y cs IH] using element_ind'.
  intros (d & Hd & Ht). cbn [update_sections].
  destruct (String.eqb t w_sectPr) eqn:Et.
  - eexists. split; [left; reflexivity|].
    unfold has_tag. now rewrite tag_update_sect.
  - destruct Hd as [<-|Hd];
      [unfold has_tag in Ht; simpl in Ht; congruence|].
    rewrite descendants_children in Hd.
    apply in_flat_map in Hd as (c & Hc & Hd).
    rewrite Forall_forall in IH.
    destruct (IH c Hc (ex_intro _ d (conj Hd Ht))) as (d' & Hd' & Ht').
    exists d'. split; [|exact Ht']. right.
    rewrite descendants_children. apply in_flat_map.
    exists (update_sections h f c). split; [now apply in_map | exact Hd'].
Qed.

Lemma update_body_has_block (h f : option string) (body : element) :
  findall_desc (update_body h f body) w_sectPr <> [].
Proof.
  assert (H : exists d', In d' (descendants (update_body h f body))
                         /\ has_tag w_sectPr d' = true).
  { unfold update_body.
    destruct (findall_desc body w_sectPr) as [|d ds] eqn:E.
    - destruct body as [t a x y cs].
      cbn [append set_children children].
      exists (update_sections h f (new w_sectPr)).
      split; [|reflexivity].
      rewrite descendants_children, map_app, flat_map_app.
      apply in_or_app. right. now left.
    - assert (Hd : In d (findall_desc body w_sectPr))
        by (rewrite E; now left).
      apply filter_In in Hd as [Hd Ht].
      destruct body as [t a x y cs]. cbn [set_children children].
      rewrite descendants_children in Hd.
      apply in_flat_map in Hd as (c & Hc & Hd).
      destruct (update_sections_keeps_block h f c
                  (ex_intro _ d (conj Hd Ht))) as (d' & Hd' & Ht').
      exists d'. split; [|exact Ht'].
      rewrite descendants_children. apply in_flat_map.
      exists (update_sections h f c). split; [now apply in_map | exact Hd']. }
  destruct H as (d' & Hd' & Ht'). intro Hnil.
  assert (Hin : In d' (findall_desc (update_body h f body) w_sectPr))
    by (apply filter_In; auto).
  rewrite Hnil in Hin. destruct Hin.
Qed.

(** The document the edit works on has a body. *)
Lemma with_body_find (doc : element) :
  exists body,
    find (match find doc w_body with
          | Some _ => doc
          | None => append doc (new w_body)
          end) w_body = Some body.
Proof.
  destruct (find doc w_body) as [b|] eqn:E; [eauto|].
  exists (new w_body). destruct doc as [t a x y cs].
  unfold find in *. cbn [append set_children children] in *.
  induction cs as [|c cs IH]; [reflexivity|].
  simpl in *. destruct (has_tag w_body c); [discriminate | now apply IH].
Qed.

Lemma find_update_document (h f : option string) (doc : element) :
  exists body,
    find (update_document h f doc) w_body = Some (update_body h f body).
Proof.
  unfold update_document.
  destruct (with_body_find doc) as (body & Hb).
  set (doc1 := match find doc w_body with
               | Some _ => doc
               | None => append doc (new w_body)
               end) in *.
  exists body. destruct doc1 as [t a x y cs]. unfold find in *.
  cbn [set_children children] in *.
  rewrite find_on_first by apply tag_update_body. now rewrite Hb.
Qed.

(** X6.  After the edit the document has a body with at least one
    section-properties block, whatever the document was before. *)
Theorem document_has_section_block (h f : option string) (doc : element) :
  exists sect rest,
    section_blocks (update_document h f doc) = sect :: rest.
Proof.
  unfold section_blocks.
  destruct (find_update_document h f doc) as (body & ->).
  pose proof (update_body_has_block h f body) as H.
  destruct (findall_desc (update_body h f body) w_sectPr) as [|sect rest];
    [congruence | eauto].
Qed.

(** *** Editing twice *)

Lemma update_new_references (h f : option string) (t : string)
      (id : option string) :
  t = w_headerReference \/ t = w_footerReference ->
  filter (fun child => negb (is_reference child))
         (map (update_sections h f) (new_references t id)) = [].
Proof.
  intros [-> | ->]; destruct id; reflexivity.
Qed.

Lemma update_sections_twice (h1 f1 h2 f2 : option string) (e : element) :
  update_sections h2 f2 (update_sections h1 f1 e) = update_sections h2 f2 e.
Proof.
  induction e as [t a x y cs IH] using element_ind'.
  cbn [update_sections].
  destruct (String.eqb t w_sectPr) eqn:Et.
  - unfold update_sect. cbn [set_children children update_sections].
    rewrite Et. unfold update_sect. cbn [set_children children].
    f_equal. rewrite !map_app, !filter_app.
    rewrite !update_new_references by auto. rewrite !app_nil_r.
    f_equal.
    rewrite !filter_map_tag by apply tag_update_sections.
    rewrite filter_filter_same, map_map.
    apply map_ext_Forall. now apply Forall_filter.
  - cbn [update_sections]. rewrite Et. f_equal.
    rewrite map_map. now apply map_ext_Forall.
Qed.

Lemma update_body_twice (h1 f1 h2 f2 : option string) (body : element) :
  update_body h2 f2 (update_body h1 f1 body) = update_body h2 f2 body.
Proof.
  pose proof (update_body_has_block h1 f1 body) as Hne.
  unfold update_body at 1.
  destruct (findall_desc (update_body h1 f1 body) w_sectPr) as [|d ds];
    [congruence|].
  unfold update_body.
  set (body1 := match findall_desc body w_sectPr with
                | [] => append body (new w_sectPr)
                | _ :: _ => body
                end).
  destruct body1 as [t a x y cs]. cbn [set_children children].
  f_equal. rewrite map_map. apply map_ext_Forall.
  apply Forall_forall. intros c _. apply update_sections_twice.
Qed.

Lemma on_first_twice (p : element -> bool) (u v : element -> element)
      (l : list element) :
  (forall e, p (u e) = p e) ->
  on_first p v (on_first p u l) = on_first p (fun e => v (u e)) l.
Proof.
  intro Hu. induction l as [|e l IH]; [reflexivity|].
  cbn [on_first]. destruct (p e) eqn:E; cbn [on_first].
  - now rewrite Hu, E.
  - now rewrite E, IH.
Qed.

Lemma on_first_ext (p : element -> bool) (u v : element -> element)
      (l : list element) :
  (forall e, u e = v e) -> on_first p u l = on_first p v l.
Proof.
  intro H. induction l as [|e l IH]; [reflexivity|].
  cbn [on_first]. now rewrite H, IH.
Qed.

(** X7.  Editing a document that was edited before gives what editing the
    first document gives: the references of the earlier edit are replaced,
    none is duplicated and no second section block is made up.  With the
    same ids the edit changes nothing any more. *)
Theorem section_edit_last_wins
        (h1 f1 h2 f2 : option string) (doc : element) :
  update_document h2 f2 (update_document h1 f1 doc)
  = update_document h2 f2 doc.
Proof.
  destruct (find_update_document h1 f1 doc) as (body & Hfind).
  unfold update_document at 1. rewrite Hfind.
  unfold update_document.
  set (doc1 := match find doc w_body with
               | Some _ => doc
               | None => append doc (new w_body)
               end).
  destruct doc1 as [t a x y cs]. cbn [set_children children].
  f_equal.
  rewrite on_first_twice
    by (intro e; unfold has_tag; now rewrite tag_update_body).
  apply on_first_ext. intro e. apply update_body_twice.
Qed.

(** X8.  The loop changes only the header/footer references of the
    section-properties blocks: with these references taken out, the
    element after the loop is the element before it, so that every tag,
    attribute, text and tail, and every other child, of the blocks and of
    what is above, below and beside them, stays, in its place; and after
    the loop each block of the element, the element itself when it is
    one, has exactly the installed references.  In particular an element
    without a block below it is returned as it is, unless it is a block
    itself. *)
Theorem content_outside_sections_unchanged
        (h f : option string) (e : element) :
  without_references (update_sections h f e) = without_references e
  /\ (forall s,
         In s (update_sections h f e
                 :: descendants (update_sections h f e)) ->
         has_tag w_sectPr s = true ->
         findall s w_headerReference = new_references w_headerReference h
         /\ findall s w_footerReference
            = new_references w_footerReference f)
  /\ ((forall d, In d (descendants e) -> has_tag w_sectPr d = false) ->
      update_sections h f e
      = if has_tag w_sectPr e then update_sect h f e else e).
Proof.
  split; [apply without_references_update_sections|].
  split; [apply update_sections_carries|].
  induction e as [t a x y cs IH] using element_ind'.
  intro Hno. cbn [update_sections]. unfold has_tag at 1. cbn [tag].
  assert (Hcs : map (update_sections h f) cs = cs).
  { rewrite <- (map_id cs) at 2. apply map_ext_Forall.
    rewrite Forall_forall in *. intros c Hc.
    assert (Hc' : In c (descendants (Element t a x y cs))).
    { rewrite descendants_children. apply in_flat_map.
      exists c. split; [exact Hc | now left]. }
    rewrite (IH c Hc).
    - now rewrite (Hno c Hc').
    - intros d Hd. apply Hno. rewrite descendants_children.
      apply in_flat_map. exists c. split; [exact Hc | now right]. }
  now rewrite Hcs.
Qed.

Lemma content_outside_sections_unchanged_witness :
  let p :=
    Element (qname W_NS "p") [("id", "7")] (Some "text") (Some "tail")
      [ Element (qname W_NS "pPr") [("k", "v")] None None
          [ Demo.sect
              [ Element w_headerReference
                        [(w_type, "first"); (r_id, "rId3")] None None [];
                Element (qname W_NS "pgSz") [] None None [] ] ];
        Element (qname W_NS "r") [] None None [] ] in
  without_references (update_sections (Some "rId9001") None p)
  = without_references p
  /\ update_sections (Some "rId9001") None p <> p.
Proof.
  cbv zeta. split.
  - apply (content_outside_sections_unchanged (Some "rId9001") None).
  - vm_compute. discriminate.
Defined.

End DocMore.

(* ================================================================== *)
(** ** More on the content-type registry *)

Module RegistryMore.
Import Xml Docx RegistryFacts DocMore.

Lemma existsb_on_first (p : element -> bool) (u : element -> element)
      (l : list element) :
  (forall e, p (u e) = p e) ->
  existsb p (on_first p u l) = existsb p l.
Proof.
  intro Hu. induction l as [|e l IH]; [reflexivity|].
  cbn [on_first]. destruct (p e) eqn:E; cbn [existsb].
  - now rewrite Hu, E.
  - now rewrite E, IH.
Qed.

Lemma on_first_absent (p : element -> bool) (u : element -> element)
      (l l' : list element) :
  existsb p l = false ->
  on_first p u (l ++ l') = l ++ on_first p u l'.
Proof.
  induction l as [|e l IH]; [reflexivity|]. simpl.
  destruct (p e); [discriminate|]. simpl. intro H. now rewrite (IH H).
Qed.

(** X9.  Declaring a part twice is declaring it with the later content
    type: the first Override of the part name carries it, nothing is
    appended a second time.  With the same content type the second call
    changes nothing. *)
Theorem ensure_override_last_wins
        (ct_root : element) (part_name type1 type2 : string) :
  ensure_override (ensure_override ct_root part_name type1) part_name type2
  = ensure_override ct_root part_name type2.
Proof.
  unfold ensure_override at 1. rewrite children_ensure_override.
  unfold ensure_override.
  destruct (existsb (is_override_for part_name) (children ct_root)) eqn:E.
  - rewrite existsb_on_first by (intro; apply is_override_for_set).
    rewrite E. destruct ct_root as [t a x y cs].
    cbn [set_children children]. f_equal.
    rewrite on_first_twice by (intro; apply is_override_for_set).
    apply on_first_ext. intro e. apply set_set.
  - rewrite existsb_app. cbn [existsb].
    rewrite is_override_for_override, String.eqb_refl, orb_true_r.
    cbn [orb]. destruct ct_root as [t a x y cs].
    cbn [append set_children children] in *. f_equal.
    rewrite (on_first_absent _ _ _ _ E). cbn [on_first].
    rewrite is_override_for_override, String.eqb_refl. reflexivity.
Qed.

End RegistryMore.

(* ================================================================== *)
(** ** A source that lacks a structured part *)

Module MissingParts.
Import Xml Zip Docx DocxMore RunFacts.

Section Missing.

Variable fromstring : bytes -> option element.
Variable tostring : element -> bytes.

#[local] Abbreviation transform :=
  (_replace_header_footer_parts fromstring tostring).

(** X10.  A structured part the source lacks is made up, never reported as
    an error: without [word/document.xml] the output document is a body
    with one section block that carries the installed references; without
    a manifest the output manifest holds only the new relationships, and
    their ids are [rId9001], then [rId9002]; without a registry the output
    registry holds only the Override nodes of the installed parts. *)
Theorem missing_parts_made_up (src tpl : package) (st : locals) :
  transform src tpl = Ok st ->
  (lookup src "word/document.xml" = None ->
   doc_root st =
   Element w_document [] None None
     [Element w_body [] None None
        [Element w_sectPr [] None None
           (new_references w_headerReference (header_rel_id st)
            ++ new_references w_footerReference (footer_rel_id st))]])
  /\ (lookup src "word/_rels/document.xml.rels" = None ->
      rels_root st =
      Element rel_Relationships [] None None
        (new_relationships header_type_uri "header1.xml" (header_rel_id st)
         ++ new_relationships footer_type_uri "footer1.xml"
              (footer_rel_id st))
      /\ header_rel_id st =
         match tpl_header_bytes st with
         | Some _ => Some "rId9001"
         | None => None
         end
      /\ footer_rel_id st =
         match tpl_footer_bytes st, tpl_header_bytes st with
         | Some _, Some _ => Some "rId9002"
         | Some _, None => Some "rId9001"
         | None, _ => None
         end)
  /\ (lookup src "[Content_Types].xml" = None ->
      ct_root st =
      Element ct_Types [] None None
        (new_overrides "/word/header1.xml" header_content_type
                       (tpl_header_bytes st)
         ++ new_overrides "/word/footer1.xml" footer_content_type
              (tpl_footer_bytes st))).
Proof.
  intro Hrun.
  destruct (replace_inv _ _ _ _ _ Hrun)
    as (hs & fs & added & rels0 & doc0 & ct0 & rels1 & used1 & used2
        & _ & _ & _ & _ & _ & _ & Pr & A1 & A2 & Pd & Hdoc & Pc & Hct).
  split; [|split].
  - intro Hnone. rewrite Hnone in Pd. injection Pd as <-. rewrite Hdoc.
    destruct (header_rel_id st), (footer_rel_id st); reflexivity.
  - intro Hnone. rewrite Hnone in Pr. injection Pr as <-.
    remember (header_rel_id st) as hid. remember (footer_rel_id st) as fid.
    remember (rels_root st) as root. clear Heqhid Heqfid Heqroot.
    destruct (tpl_header_bytes st) as [dh|];
      destruct (tpl_footer_bytes st) as [df|];
      vm_compute in A1; injection A1 as <- <- <-;
      vm_compute in A2; injection A2 as <- <- <-;
      repeat split; reflexivity.
  - intro Hnone. rewrite Hnone in Pc. injection Pc as <-. rewrite Hct.
    destruct (tpl_header_bytes st), (tpl_footer_bytes st); reflexivity.
Qed.

End Missing.

Lemma missing_parts_made_up_witness :
  match _replace_header_footer_parts Demo.fromstring Demo.tostring
                                     [] Demo.tpl with
  | Ok st =>
      manifest_ids (rels_root st) = ["rId9001"; "rId9002"]
      /\ List.length (section_blocks (doc_root st)) = 1
      /\ List.length (children (ct_root st)) = 2
  | Raise _ => False
  end.
Proof.
  destruct (_replace_header_footer_parts Demo.fromstring Demo.tostring
                                         [] Demo.tpl) as [st|e] eqn:E;
    [|vm_compute in E; discriminate E].
  destruct (missing_parts_made_up Demo.fromstring Demo.tostring
              [] Demo.tpl st E) as (Hd & Hr & Hc).
  destruct (Hr eq_refl) as (Hroot & Hh & Hf).
  rewrite (Hd eq_refl), Hroot, (Hc eq_refl), Hh, Hf.
  vm_compute in E. injection E as <-.
  vm_compute. repeat split.
Defined.

End MissingParts.

(* ================================================================== *)
(** ** More on the template collector, the selector and the media loop *)

Module LoopsMore.
Import Xml Zip Docx DocxMore StrFacts ZipFacts LoopFacts.

Lemma keys_set_NoDup (k : string) (v : bytes) (d : dict) :
  NoDup (keys d) -> NoDup (keys (dict_set k v d)).
Proof.
  induction d as [|[k' v'] d IH]; intro H.
  - simpl. constructor; [tauto | constructor].
  - simpl. destruct (String.eqb_spec k k') as [->|Hne]; [exact H|].
    inversion H as [|? ? Hnin Hd]; subst. simpl. constructor; [|auto].
    change (~ In k' (keys (dict_set k v d))). rewrite keys_set.
    intros [E|E]; [congruence | contradiction].
Qed.

Lemma collect_loop_NoDup (tpl : package) (l : list string) :
  forall hs fs hs' fs',
    for_each
      (fun (hf : dict * dict) item =>
         let (headers, footers) := hf in
         if is_tpl_header item then
           b <- read tpl item ;; Ok (dict_set item b headers, footers)
         else if is_tpl_footer item then
           b <- read tpl item ;; Ok (headers, dict_set item b footers)
         else Ok hf) l (hs, fs) = Ok (hs', fs') ->
    NoDup (keys hs) -> NoDup (keys fs) ->
    NoDup (keys hs') /\ NoDup (keys fs').
Proof.
  induction l as [|n l IH]; intros hs fs hs' fs' H Hh Hf.
  - injection H as <- <-. auto.
  - cbn [for_each] in H.
    destruct (is_tpl_header n).
    + destruct (read tpl n) as [b|]; [|discriminate]. cbn [bind] in H.
      apply (IH _ _ _ _ H); [now apply keys_set_NoDup | exact Hf].
    + destruct (is_tpl_footer n).
      * destruct (read tpl n) as [b|]; [|discriminate]. cbn [bind] in H.
        apply (IH _ _ _ _ H); [exact Hh | now apply keys_set_NoDup].
      * cbn [bind] in H. now apply (IH _ _ _ _ H).
Qed.

(** X11.  When the collector returns, each dictionary has as keys the
    template names of its kind, each once, with the bytes the template
    reads under the name, and no name is a key of both. *)
Theorem collected_parts (tpl : package) (hs fs : dict) :
  _collect_headers_footers_from_template tpl = Ok (hs, fs) ->
  NoDup (keys hs) /\ NoDup (keys fs)
  /\ (forall n, In n (keys hs) <->
                In n (namelist tpl) /\ is_tpl_header n = true)
  /\ (forall n, In n (keys fs) <->
                In n (namelist tpl) /\ is_tpl_footer n = true)
  /\ (forall n, In n (keys hs) -> dict_get n hs = lookup tpl n)
  /\ (forall n, In n (keys fs) -> dict_get n fs = lookup tpl n)
  /\ (forall n, In n (keys hs) -> ~ In n (keys fs)).
Proof.
  intro Hrun.
  destruct (collect_ok tpl) as (hs' & fs' & H & Ah & Af & Kh & Kf).
  rewrite Hrun in H. injection H as <- <-.
  destruct (collect_loop_NoDup tpl (namelist tpl) [] [] hs fs Hrun
              (NoDup_nil _) (NoDup_nil _)) as [Nh Nf].
  split; [exact Nh|]. split; [exact Nf|].
  split; [exact Kh|]. split; [exact Kf|].
  split; [|split].
  - intros n Hn. destruct (dict_get_keys _ _ Hn) as [b Hb].
    rewrite Hb. symmetry. now apply Ah.
  - intros n Hn. destruct (dict_get_keys _ _ Hn) as [b Hb].
    rewrite Hb. symmetry. now apply Af.
  - intros n Hh Hf. apply Kh in Hh as [_ Hh]. apply Kf in Hf as [_ Hf].
    apply header_not_footer in Hh. congruence.
Qed.

Lemma collected_parts_witness :
  let p := match _collect_headers_footers_from_template Demo.tpl with
           | Ok p => p
           | Raise _ => ([], [])
           end in
  keys (fst p) = ["word/header2.xml"; "word/header1.xml"]
  /\ keys (snd p) = ["word/footer1.xml"]
  /\ NoDup (keys (fst p))
  /\ forall n, In n (keys (fst p)) -> ~ In n (keys (snd p)).
Proof.
  cbv zeta. split; [reflexivity|]. split; [reflexivity|].
  destruct (collected_parts Demo.tpl
              (fst match _collect_headers_footers_from_template Demo.tpl
                   with Ok p => p | Raise _ => ([], []) end)
              (snd match _collect_headers_footers_from_template Demo.tpl
                   with Ok p => p | Raise _ => ([], []) end)
              ltac:(vm_compute; reflexivity))
    as (Nh & _ & _ & _ & _ & _ & Hd).
  split; [exact Nh | exact Hd].
Defined.

(** *** [_pick_first_part] *)

Lemma dict_get_In (n : string) (b : bytes) (d : dict) :
  dict_get n d = Some b -> In n (keys d).
Proof.
  induction d as [|[k v] d IH]; simpl; [discriminate|].
  destruct (String.eqb_spec n k) as [->|]; [now left | right; auto].
Qed.

Lemma least_unique (m m' : string) (l : list string) :
  Str.least m l -> Str.least m' l -> m = m'.
Proof.
  intros [Hm Hle] [Hm' Hle']. apply String.leb_antisym; auto.
Qed.

(** X12.  The part picked depends on what the dictionary holds, not on the
    order its keys came in: two dictionaries with the same lookups give the
    same name and the same bytes. *)
Theorem pick_ignores_order (d1 d2 : dict) :
  (forall n, dict_get n d1 = dict_get n d2) ->
  _pick_first_part d1 = _pick_first_part d2.
Proof.
  intro Hget.
  assert (Hkeys : forall d d' : dict,
             (forall n, dict_get n d = dict_get n d') ->
             forall n, In n (keys d) -> In n (keys d')).
  { intros d d' H n Hn. destruct (dict_get_keys _ _ Hn) as [b Hb].
    rewrite H in Hb. now apply dict_get_In in Hb. }
  destruct d1 as [|kv1 d1], d2 as [|kv2 d2].
  - reflexivity.
  - exfalso. apply (Hkeys (kv2 :: d2) [] (fun n => eq_sym (Hget n))
                          (fst kv2)). now left.
  - exfalso. apply (Hkeys (kv1 :: d1) [] Hget (fst kv1)). now left.
  - destruct (pick_some (kv1 :: d1)) as (n1 & b1 & -> & L1 & G1);
      [discriminate|].
    destruct (pick_some (kv2 :: d2)) as (n2 & b2 & -> & L2 & G2);
      [discriminate|].
    assert (n1 = n2).
    { apply (least_unique n1 n2 (keys (kv2 :: d2))); [|exact L2].
      destruct L1 as [Hin Hle]. split.
      - now apply (Hkeys _ _ Hget).
      - intros n Hn. apply Hle.
        now apply (Hkeys _ _ (fun n => eq_sym (Hget n))). }
    subst n2. rewrite Hget in G1. congruence.
Qed.

Lemma pick_ignores_order_witness :
  _pick_first_part [("word/header2.xml", Demo.b "H2");
                    ("word/header1.xml", Demo.b "H1")]
  = _pick_first_part [("word/header1.xml", Demo.b "H1");
                      ("word/header2.xml", Demo.b "H2")].
Proof.
  apply pick_ignores_order. intro n. simpl.
  destruct (String.eqb_spec n "word/header2.xml") as [->|];
    [reflexivity|].
  destruct (String.eqb_spec n "word/header1.xml"); reflexivity.
Defined.

(** *** [_ensure_media_dependencies] *)

Lemma media_loop_noop (tpl : package) (l : list string) (out : package) :
  (forall m, In m l -> Str.startswith "word/media/" m = true ->
             In m (namelist out)) ->
  for_each
    (fun out item =>
       if Str.startswith "word/media/" item then
         if negb (Str.mem item (namelist out)) then
           b <- read tpl item ;; Ok (writestr out item b)
         else Ok out
       else Ok out) l out = Ok out.
Proof.
  induction l as [|n l IH]; intro H; [reflexivity|].
  cbn [for_each].
  destruct (Str.startswith "word/media/" n) eqn:Em.
  - assert (Hin : Str.mem n (namelist out) = true)
      by (apply mem_In, H; [now left | exact Em]).
    rewrite Hin. cbn [negb bind]. apply IH.
    intros m Hm. apply H. now right.
  - cbn [bind]. apply IH. intros m Hm. apply H. now right.
Qed.

(** X13.  When the media loop returns it has only appended: what was
    staged stays in front, each added entry is a template entry under
    [word/media/] whose name was not there, unique names stay unique, and
    running the loop again on its result adds nothing. *)
Theorem media_appended_once (src tpl out out' : package) (parts : dict) :
  _ensure_media_dependencies src tpl out parts = Ok out' ->
  exists added,
    out' = out ++ added
    /\ _ensure_media_dependencies src tpl out' parts = Ok out'
    /\ (forall m b, In (m, b) added ->
          Str.startswith "word/media/" m = true
          /\ lookup tpl m = Some b /\ ~ In m (namelist out))
    /\ (NoDup (namelist out) -> NoDup (namelist out')).
Proof.
  intro Hrun.
  destruct (media_ok src tpl out parts) as (added & H & M1 & M2 & M3).
  rewrite Hrun in H. injection H as ->.
  exists added. split; [reflexivity|]. split; [|split; [exact M1|]].
  - unfold _ensure_media_dependencies. now apply media_loop_noop.
  - intro Hnd. rewrite namelist_app. apply NoDup_app; auto.
    intros n Hn Hin. unfold namelist in Hin.
    apply in_map_iff in Hin as [[m b] [Hfst Hin]].
    simpl in Hfst. subst m. apply M1 in Hin as (_ & _ & Hno). auto.
Qed.

Lemma media_appended_once_witness :
  let out := [("word/media/image1.png", Demo.b "source image")] in
  let out' := out ++ [("word/media/logo.png", Demo.b "logo")] in
  _ensure_media_dependencies Demo.src Demo.tpl out [] = Ok out'
  /\ _ensure_media_dependencies Demo.src Demo.tpl out' [] = Ok out'.
Proof.
  cbv zeta. split; [reflexivity|].
  destruct (media_appended_once Demo.src Demo.tpl
              [("word/media/image1.png", Demo.b "source image")]
              ([("word/media/image1.png", Demo.b "source image")]
               ++ [("word/media/logo.png", Demo.b "logo")]) []
              ltac:(reflexivity)) as (added & _ & H & _).
  exact H.
Defined.

End LoopsMore.

(* ================================================================== *)
(** ** The XML helpers [_read_zip_xml], [_write_zip_xml], [_map_rel_types] *)

Module HelpersMore.
Import Xml Zip Docx DocxMore ZipFacts.

Section Helpers.

Variable fromstring : bytes -> option element.
Variable tostring : element -> bytes.

(** X14.  [_read_zip_xml] returns [None] exactly when the archive has no
    entry of that name: the [KeyError] of the missing entry does not
    leave it; it returns a tree exactly when the entry is there and the
    parser gives that tree for its bytes. *)
Theorem read_zip_xml_outcomes (z : package) (path : string) :
  (_read_zip_xml fromstring z path = Ok None <-> ~ In path (namelist z))
  /\ (forall tree,
         _read_zip_xml fromstring z path = Ok (Some tree) <->
         exists data, lookup z path = Some data
                      /\ fromstring data = Some tree).
Proof.
  unfold _read_zip_xml, read. rewrite <- lookup_None.
  destruct (lookup z path) as [data|] eqn:E.
  - destruct (fromstring data) as [t|] eqn:Ep.
    + split; [split; discriminate|].
      intro tree. split.
      * intros [= <-]. eauto.
      * intros (d & [= <-] & H). congruence.
    + split; [split; discriminate|].
      intro tree. split; [discriminate|].
      intros (d & [= <-] & H). congruence.
  - split; [split; reflexivity|].
    intro tree. split; [discriminate|].
    intros (d & H & _). discriminate.
Qed.

(** X15.  With a parser that reads back what the serialiser wrote for
    [tree], reading a path after [_write_zip_xml] wrote [tree] under it
    returns [tree], also when the archive already had an entry of that
    name; every other path reads as before. *)
Theorem write_then_read_zip_xml (z : package) (path : string)
        (tree : element) :
  fromstring (tostring tree) = Some tree ->
  _read_zip_xml fromstring (_write_zip_xml tostring z path tree) path
  = Ok (Some tree)
  /\ forall q, q <> path ->
       _read_zip_xml fromstring (_write_zip_xml tostring z path tree) q
       = _read_zip_xml fromstring z q.
Proof.
  intro Hrt. unfold _read_zip_xml, _write_zip_xml, read. split.
  - rewrite lookup_writestr, String.eqb_refl. now rewrite Hrt.
  - intros q Hq. rewrite lookup_writestr.
    destruct (String.eqb_spec path q); [congruence | reflexivity].
Qed.

Lemma map_rel_types_loop (rels : list element) (mapping : str_dict) :
  for_each
    (fun (mapping : str_dict) rel =>
       if contains "header" (get_default rel "Target" "")
       then Ok mapping else Ok mapping) rels mapping = Ok mapping.
Proof.
  induction rels as [|rel rels IH]; [reflexivity|].
  cbn [for_each].
  destruct (contains "header" (get_default rel "Target" ""));
    cbn [bind]; exact IH.
Qed.

(** X16.  [_map_rel_types] fills nothing in: whenever it returns, the
    mapping is empty, whatever relationships the manifest lists; and it
    does return, with the empty mapping, when the archive has no manifest
    of that name and when the manifest parses. *)
Theorem map_rel_types_empty (doc_zip : package) (rels_path : string) :
  (forall mapping,
      _map_rel_types fromstring doc_zip rels_path = Ok mapping ->
      mapping = [])
  /\ (lookup doc_zip rels_path = None ->
      _map_rel_types fromstring doc_zip rels_path = Ok [])
  /\ (forall data root,
         lookup doc_zip rels_path = Some data ->
         fromstring data = Some root ->
         _map_rel_types fromstring doc_zip rels_path = Ok []).
Proof.
  unfold _map_rel_types, read.
  destruct (lookup doc_zip rels_path) as [data|] eqn:E.
  - destruct (fromstring data) as [root|] eqn:Ep.
    + rewrite map_rel_types_loop.
      split; [intros m [= <-]; reflexivity|].
      split; [discriminate | reflexivity].
    + split; [discriminate|]. split; [discriminate|].
      intros d r [= <-]. congruence.
  - split; [intros m [= <-]; reflexivity|].
    split; [reflexivity | discriminate].
Qed.

End Helpers.

Lemma write_then_read_zip_xml_witness :
  let fromstring := fun data => Some (new (string_of_list_byte data)) in
  let tostring := fun e => list_byte_of_string (tag e) in
  _read_zip_xml fromstring
    (_write_zip_xml tostring [("a.xml", Demo.b "old")] "a.xml" (new "r"))
    "a.xml"
  = Ok (Some (new "r")).
Proof.
  intros fromstring tostring.
  apply (write_then_read_zip_xml fromstring tostring
           [("a.xml", Demo.b "old")] "a.xml" (new "r")).
  reflexivity.
Defined.

End HelpersMore.

(* ================================================================== *)
(** ** More on [apply_template_to_docx] *)

Module FsMore.
Import Zip Fs FsTheorems.

Section Apply.

Variable fromstring : bytes -> option Xml.element.
Variable tostring : Xml.element -> bytes.

#[local] Abbreviation apply_template :=
  (apply_template_to_docx fromstring tostring).

#[local] Abbreviation transform :=
  (Docx._replace_header_footer_parts fromstring tostring).



Lemma attempt_trace
      (env : environment) (src_path tpl_path dst_path tmp : string)
      (w : world) :
  exists evs,
    trace (snd (attempt fromstring tostring env src_path tpl_path
                        dst_path tmp w)) = evs ++ trace w.
Proof.
  unfold attempt, bindM, lift.
  destruct (open_read env src_path w) as [[zs|e1] w1] eqn:E1;
    apply open_read_inv in E1 as [-> _]; cbn [snd trace];
    [|now exists [EvOpenRead src_path]].
  destruct (open_read env tpl_path _) as [[zt|e2] w2] eqn:E2;
    apply open_read_inv in E2 as [-> _]; cbn [fs dirs snd trace];
    [|now exists [EvOpenRead tpl_path; EvOpenRead src_path]].
  destruct (open_write env tmp _) as [[u3|e3] w3] eqn:E3;
    apply open_write_inv in E3 as [(e & He & ->)|[He ->]];
    try discriminate He; cbn [fs dirs snd trace];
    [|now exists [EvOpenWrite tmp; EvOpenRead tpl_path;
                  EvOpenRead src_path]].
  destruct (transform zs zt) as [st|e0]; cbn [snd trace];
    [|now exists [EvOpenWrite tmp; EvOpenRead tpl_path;
                  EvOpenRead src_path]].
  destruct (close_write env tmp _ _) as [[u4|e4] w4] eqn:E4;
    apply close_write_inv in E4 as [(e & He4 & ->)|[He4 ->]];
    try discriminate He4; cbn [fs dirs snd trace];
    [|now exists [EvCloseWrite tmp; EvOpenWrite tmp; EvOpenRead tpl_path;
                  EvOpenRead src_path]].
  destruct (makedirs env _ _) as [r5 w5] eqn:E5.
  apply makedirs_inv in E5 as (_ & T5 & _ & _). cbn [trace] in T5.
  destruct r5 as [u5|e5]; cbn [snd].
  2:{ rewrite T5.
      now exists [EvMakedirs (Str.dirname dst_path); EvCloseWrite tmp;
                  EvOpenWrite tmp; EvOpenRead tpl_path;
                  EvOpenRead src_path]. }
  destruct (shutil_move env tmp dst_path w5) as [r6 w6] eqn:E6.
  apply shutil_move_inv in E6 as (_ & T6 & _). cbn [snd].
  rewrite T6, T5.
  now exists [EvMove tmp dst_path; EvMakedirs (Str.dirname dst_path);
              EvCloseWrite tmp; EvOpenWrite tmp; EvOpenRead tpl_path;
              EvOpenRead src_path].
Qed.

(** The call only adds to the record of calls. *)
Lemma apply_trace
      (env : environment) (src_path tpl_path dst_path : string)
      (w : world) :
  exists evs,
    trace (snd (apply_template env src_path tpl_path dst_path w))
    = evs ++ trace w.
Proof.
  destruct (has_docx_extension src_path) eqn:Xs.
  2:{ unfold apply_template_to_docx. rewrite Xs. now exists []. }
  destruct (has_docx_extension tpl_path) eqn:Xt.
  2:{ unfold apply_template_to_docx. rewrite Xs, Xt. now exists []. }
  destruct (mkstemp_fails env) eqn:Xm.
  { unfold apply_template_to_docx, mkstemp. rewrite Xs, Xt, Xm.
    now exists []. }
  rewrite (apply_unfold fromstring tostring env _ _ _ w Xs Xt Xm).
  cbv zeta.
  destruct (attempt_trace env src_path tpl_path dst_path (tmp_out env)
              (World (write (fs w) (tmp_out env) (Some (Blob [])))
                     (dirs w) (EvMkstemp (tmp_out env) :: trace w)))
    as [evs Hevs].
  destruct (attempt fromstring tostring env src_path tpl_path dst_path
              (tmp_out env) _) as [[u|e] w2]; cbn [snd trace] in *.
  - exists (evs ++ [EvMkstemp (tmp_out env)]).
    now rewrite Hevs, <- app_assoc.
  - unfold remove_if_exists.
    destruct (fs w2 (tmp_out env)).
    + unfold bindM, log, put. cbn [snd trace].
      exists ((EvRemove (tmp_out env) :: evs)
              ++ [EvMkstemp (tmp_out env)]).
      rewrite Hevs, <- app_assoc. reflexivity.
    + cbn [snd]. exists (evs ++ [EvMkstemp (tmp_out env)]).
      now rewrite Hevs, <- app_assoc.
Qed.


(** X18.  A call that returns has read two archives, and the target of
    the move holds the output package of the transform run on them: the
    destination when it is not a directory, the name of the temporary
    file inside it when it is, a name that was free.  The temporary file
    is gone, and the calls were made in this order: create the temporary
    file, open the source, open the template, open and close the output,
    make the directory of the destination, move. *)
Theorem success_publishes_output
        (env : environment) (src_path tpl_path dst_path : string)
        (w w' : world) :
  fs w (tmp_out env) = None ->
  move_target w' (tmp_out env) dst_path <> tmp_out env ->
  apply_template env src_path tpl_path dst_path w = (Ok tt, w') ->
  exists src_zip tpl_zip st,
    fs w src_path = Some (Archive src_zip)
    /\ fs w tpl_path = Some (Archive tpl_zip)
    /\ transform src_zip tpl_zip = Ok st
    /\ fs w' (move_target w' (tmp_out env) dst_path)
       = Some (Archive (Docx.out_zip st))
    /\ (dirs w' dst_path = false ->
        fs w' dst_path = Some (Archive (Docx.out_zip st)))
    /\ (dirs w' dst_path = true ->
        fs w (inside dst_path (tmp_out env)) = None
        /\ fs w' (inside dst_path (tmp_out env))
           = Some (Archive (Docx.out_zip st)))
    /\ fs w' (tmp_out env) = None
    /\ trace w' =
       [EvMove (tmp_out env) dst_path; EvMakedirs (Str.dirname dst_path);
        EvCloseWrite (tmp_out env); EvOpenWrite (tmp_out env);
        EvOpenRead tpl_path; EvOpenRead src_path; EvMkstemp (tmp_out env)]
       ++ trace w.
Proof.
  intros Hfree Htarget Hrun.
  destruct (has_docx_extension src_path) eqn:Xs.
  2:{ unfold apply_template_to_docx in Hrun. rewrite Xs in Hrun.
      discriminate. }
  destruct (has_docx_extension tpl_path) eqn:Xt.
  2:{ unfold apply_template_to_docx in Hrun. rewrite Xs, Xt in Hrun.
      discriminate. }
  destruct (mkstemp_fails env) eqn:Xm.
  { unfold apply_template_to_docx, mkstemp in Hrun.
    rewrite Xs, Xt, Xm in Hrun. discriminate. }
  rewrite (apply_unfold fromstring tostring env _ _ _ w Xs Xt Xm) in Hrun.
  cbv zeta in Hrun.
  set (w1 := World (write (fs w) (tmp_out env) (Some (Blob [])))
                   (dirs w) (EvMkstemp (tmp_out env) :: trace w)) in *.
  destruct (attempt fromstring tostring env src_path tpl_path dst_path
              (tmp_out env) w1) as [[u|e] w2] eqn:Ea; [|discriminate].
  injection Hrun as -> <-.
  destruct (attempt_paths fromstring tostring env src_path tpl_path
              dst_path (tmp_out env) w1 w2 (Blob []) (Ok tt)
              (write_same _ _ _) Ea)
    as (_ & _ & zs & zt & st & _ & _ & Fs & Ft & Htr & Hin & Htrace & Hfs).
  assert (Hw1 : forall p c, fs w1 p = Some (Archive c) ->
                            fs w p = Some (Archive c)).
  { intros p c. unfold w1. cbn [fs]. rewrite write_eq.
    destruct (String.eqb p (tmp_out env)); [discriminate | auto]. }
  assert (Hout : fs w2 (move_target w2 (tmp_out env) dst_path)
                 = Some (Archive (Docx.out_zip st))).
  { rewrite Hfs, String.eqb_refl.
    destruct (String.eqb_spec (move_target w2 (tmp_out env) dst_path)
                              (tmp_out env)); [contradiction | reflexivity]. }
  exists zs, zt, st.
  split; [now apply Hw1|]. split; [now apply Hw1|]. split; [exact Htr|].
  split; [exact Hout|]. split; [|split; [|split]].
  - intro Hnd. unfold move_target in Hout. now rewrite Hnd in Hout.
  - intro Hdir. unfold move_target in Hout, Htarget.
    rewrite Hdir in Hout, Htarget. split; [|exact Hout].
    destruct (Hin Hdir) as [Hnone|E]; [|contradiction].
    unfold w1 in Hnone. cbn [fs] in Hnone.
    now rewrite write_other in Hnone by exact Htarget.
  - rewrite Hfs. now rewrite String.eqb_refl.
  - rewrite Htrace. unfold w1. reflexivity.
Qed.


End Apply.


Lemma success_publishes_output_witness :
  exists src_zip tpl_zip st,
    fs Demo.world_with_directory "in.docx" = Some (Archive src_zip)
    /\ fs Demo.world_with_directory "tpl.docx" = Some (Archive tpl_zip)
    /\ Docx._replace_header_footer_parts Demo.fromstring Demo.tostring
         src_zip tpl_zip = Ok st
    /\ fs (snd (apply_template_to_docx Demo.fromstring Demo.tostring
                  Demo.env_ok "in.docx" "tpl.docx" "results"
                  Demo.world_with_directory))
          "results/tmpk3v9.docx"
       = Some (Archive (Docx.out_zip st)).
Proof.
  destruct (success_publishes_output Demo.fromstring Demo.tostring
              Demo.env_ok "in.docx" "tpl.docx" "results"
              Demo.world_with_directory
              (snd (apply_template_to_docx Demo.fromstring Demo.tostring
                      Demo.env_ok "in.docx" "tpl.docx" "results"
                      Demo.world_with_directory))
              ltac:(reflexivity) ltac:(vm_compute; discriminate)
              ltac:(vm_compute; reflexivity))
    as (zs & zt & st & H1 & H2 & H3 & _ & _ & H4 & _).
  exists zs, zt, st.
  split; [exact H1|]. split; [exact H2|]. split; [exact H3|].
  exact (proj2 (H4 ltac:(reflexivity))).
Defined.


End FsMore.

(* ================================================================== *)
(** ** The document list of the window *)

Module GuiFacts.
Import Zip Fs Gui StrFacts.

Lemma add_file_lists (a : app) (p : string) :
  file_list (add_file a p) =
  (if negb (Str.mem p (file_list a)) && has_docx_extension p
   then file_list a ++ [p] else file_list a)
  /\ lst_files (add_file a p) =
     (if negb (Str.mem p (file_list a)) && has_docx_extension p
      then lst_files a ++ [p] else lst_files a).
Proof.
  unfold add_file.
  now destruct (negb (Str.mem p (file_list a)) && has_docx_extension p).
Qed.

Lemma add_files_fold (paths : list string) (a : app) :
  add_files paths a = fold_left add_file paths a.
Proof. now destruct paths. Qed.

Lemma add_file_in_step (a : app) (p : string) :
  in_step a -> in_step (add_file a p).
Proof.
  intros (Hs & Hn & Hd). unfold add_file.
  destruct (Str.mem p (file_list a)) eqn:Em; cbn [negb andb];
    [now repeat split|].
  destruct (has_docx_extension p) eqn:Ex; [|now repeat split].
  unfold in_step. cbn [file_list lst_files]. split; [now rewrite Hs|].
  split.
  - apply NoDup_app; [exact Hn | constructor; [tauto | constructor] |].
    intros x Hx [<-|[]]. apply mem_In in Hx. congruence.
  - apply Forall_app. split; [exact Hd|]. now constructor.
Qed.

Lemma delete_In (i : nat) (x : string) (l : list string) :
  In x (delete i l) -> In x l.
Proof.
  revert i. induction l as [|y l IH]; intros [|i]; simpl; auto.
  intros [->|H]; eauto.
Qed.

Lemma delete_NoDup (i : nat) (l : list string) :
  NoDup l -> NoDup (delete i l).
Proof.
  revert i. induction l as [|y l IH]; intros [|i] H; simpl; auto;
    inversion H; subst; auto.
  constructor; [|now apply IH].
  intro Hy. now apply delete_In in Hy.
Qed.

Lemma delete_out (i : nat) (l : list string) :
  List.length l <= i -> delete i l = l.
Proof.
  revert i. induction l as [|y l IH]; intros [|i] H; simpl in *;
    try reflexivity; [lia|].
  f_equal. apply IH. lia.
Qed.

(** Without duplicates, removing the row read at a position is deleting
    that position. *)
Lemma remove_row_delete (i : nat) (l : list string) :
  NoDup l -> i < List.length l -> remove (row i l) l = delete i l.
Proof.
  unfold row. revert i. induction l as [|y l IH]; intros i Hn Hi;
    [simpl in Hi; lia|].
  inversion Hn as [|? ? Hy Hl]; subst.
  destruct i as [|i]; simpl.
  - now rewrite String.eqb_refl.
  - simpl in Hi.
    destruct (String.eqb_spec y (nth i l "")) as [E|_].
    + exfalso. apply Hy. rewrite E. apply nth_In. lia.
    + f_equal. apply IH; [exact Hl | lia].
Qed.

Lemma remove_row_in_step (a : app) (idx : nat) :
  in_step a -> in_step (remove_row a idx).
Proof.
  intros (Hs & Hn & Hd). unfold in_step, remove_row.
  cbn [file_list lst_files]. rewrite Hs.
  assert (Hgoal :
            (if Str.mem (row idx (file_list a)) (file_list a)
             then remove (row idx (file_list a)) (file_list a)
             else file_list a) = delete idx (file_list a)).
  { destruct (Nat.lt_ge_cases idx (List.length (file_list a)))
      as [Hlt|Hge].
    - assert (Hin : Str.mem (row idx (file_list a)) (file_list a) = true)
        by (apply mem_In, nth_In, Hlt).
      rewrite Hin. now apply remove_row_delete.
    - rewrite (delete_out _ _ Hge). unfold row.
      rewrite (nth_overflow _ _ Hge).
      destruct (Str.mem "" (file_list a)) eqn:Em; [|reflexivity].
      apply mem_In in Em. rewrite Forall_forall in Hd.
      apply Hd in Em. discriminate. }
  rewrite Hgoal. split; [reflexivity|]. split.
  - now apply delete_NoDup.
  - rewrite Forall_forall in *. intros x Hx. apply Hd.
    now apply delete_In in Hx.
Qed.

Lemma fold_in_step {A} (f : app -> A -> app) (l : list A) :
  (forall a x, in_step a -> in_step (f a x)) ->
  forall a, in_step a -> in_step (fold_left f l a).
Proof.
  intro Hf. induction l as [|x l IH]; intros a Ha; simpl; auto.
Qed.

Lemma act_in_step (a : app) (x : action) :
  in_step a -> in_step (act a x).
Proof.
  intro Ha. destruct x as [paths|sel| |p|d|text]; simpl.
  - rewrite add_files_fold. apply fold_in_step; [|exact Ha].
    intros; now apply add_file_in_step.
  - apply fold_in_step; [|exact Ha].
    intros; now apply remove_row_in_step.
  - repeat split; constructor.
  - unfold choose_template. now destruct (String.eqb p "").
  - unfold choose_output_dir. now destruct (String.eqb d "").
  - exact Ha.
Qed.

(** *** [add_files] *)

Lemma add_loop (paths : list string) :
  forall a,
    (exists added,
        file_list (fold_left add_file paths a) = file_list a ++ added
        /\ lst_files (fold_left add_file paths a) = lst_files a ++ added)
    /\ (forall p,
           In p (file_list (fold_left add_file paths a)) <->
           In p (file_list a)
           \/ (In p paths /\ has_docx_extension p = true)).
Proof.
  induction paths as [|q paths IH]; intro a; simpl.
  - split; [exists []; now rewrite !app_nil_r | intro p; tauto].
  - destruct (IH (add_file a q)) as [(added & Hf & Hl) Hin].
    destruct (add_file_lists a q) as [Ef El].
    split.
    + rewrite Hf, Hl, Ef, El.
      destruct (negb (Str.mem q (file_list a)) && has_docx_extension q).
      * exists (q :: added). now rewrite <- !app_assoc.
      * now exists added.
    + intro p. rewrite Hin, Ef.
      destruct (Str.mem q (file_list a)) eqn:Em; cbn [negb andb].
      * apply mem_In in Em. intuition (subst; auto).
      * destruct (has_docx_extension q) eqn:Ex.
        -- rewrite in_app_iff. simpl. intuition (subst; auto).
        -- intuition (subst; auto; congruence).
Qed.

Lemma add_loop_noop (paths : list string) (a : app) :
  (forall p, In p paths ->
             In p (file_list a) \/ has_docx_extension p = false) ->
  fold_left add_file paths a = a.
Proof.
  induction paths as [|q paths IH]; intro H; [reflexivity|].
  simpl. assert (E : add_file a q = a).
  { unfold add_file. destruct (H q (or_introl eq_refl)) as [Hq|Hq].
    - apply mem_In in Hq. now rewrite Hq.
    - rewrite Hq. now rewrite andb_false_r. }
  rewrite E. apply IH. intros p Hp. apply H. now right.
Qed.

(** *** [remove_selected] *)

Lemma insert_desc_In (x i : nat) (l : list nat) :
  In x (insert_desc i l) <-> x = i \/ In x l.
Proof.
  induction l as [|j l IH]; simpl; [intuition|].
  destruct (Nat.leb j i); simpl; [intuition|].
  rewrite IH. intuition.
Qed.

Lemma sort_reverse_In (x : nat) (l : list nat) :
  In x (sort_reverse l) <-> In x l.
Proof.
  induction l as [|i l IH]; simpl; [tauto|].
  rewrite insert_desc_In, IH. intuition.
Qed.

Lemma insert_desc_descending (i : nat) (l : list nat) :
  descending l -> ~ In i l -> descending (insert_desc i l).
Proof.
  induction l as [|j l IH]; intros Hd Hi; simpl.
  - split; [intros ? []|exact I].
  - destruct Hd as [Hj Hd].
    destruct (Nat.leb_spec j i) as [Hle|Hlt].
    + assert (j < i) by (assert (i <> j) by (intro; apply Hi; now left);
                         lia).
      split; [|now split].
      intros k [<-|Hk]; [assumption|]. specialize (Hj k Hk). lia.
    + split.
      * intros k Hk. apply insert_desc_In in Hk as [->|Hk]; auto.
      * apply IH; [exact Hd|]. intro. apply Hi. now right.
Qed.

Lemma sort_reverse_descending (l : list nat) :
  NoDup l -> descending (sort_reverse l).
Proof.
  induction 1 as [|i l Hi Hn IH]; simpl; [exact I|].
  apply insert_desc_descending; [exact IH|].
  now rewrite sort_reverse_In.
Qed.

Lemma existsb_eqb_In (i : nat) (s : list nat) :
  existsb (Nat.eqb i) s = true <-> In i s.
Proof.
  rewrite existsb_exists. split.
  - intros (x & Hx & E). apply Nat.eqb_eq in E. now subst.
  - intro H. exists i. split; [exact H | apply Nat.eqb_refl].
Qed.

Lemma existsb_eqb_ext (i : nat) (s s' : list nat) :
  (forall j, In j s <-> In j s') ->
  existsb (Nat.eqb i) s = existsb (Nat.eqb i) s'.
Proof.
  intro H. apply eq_true_iff_eq. now rewrite !existsb_eqb_In.
Qed.

Lemma unselected_ext (s s' : list nat) (l : list string) :
  (forall j, In j s <-> In j s') ->
  forall k, unselected k s l = unselected k s' l.
Proof.
  intro H. induction l as [|x l IH]; intro k; simpl; [reflexivity|].
  rewrite (existsb_eqb_ext k s s' H), !IH. reflexivity.
Qed.

Lemma unselected_below (s : list nat) (l : list string) :
  forall k, (forall j, In j s -> j < k) -> unselected k s l = l.
Proof.
  induction l as [|x l IH]; intros k H; simpl; [reflexivity|].
  destruct (existsb (Nat.eqb k) s) eqn:E.
  - apply existsb_eqb_In in E. apply H in E. lia.
  - f_equal. apply IH. intros j Hj. specialize (H j Hj). lia.
Qed.

Lemma unselected_delete (s : list nat) (l : list string) :
  forall k i,
    (forall j, In j s -> j < k + i) ->
    unselected k s (delete i l) = unselected k ((k + i) :: s) l.
Proof.
  induction l as [|x l IH]; intros k i H; [now destruct i|].
  destruct i as [|i]; cbn [delete unselected existsb].
  - rewrite Nat.add_0_r in *. rewrite Nat.eqb_refl. cbn [orb].
    rewrite unselected_below by exact H.
    symmetry. apply unselected_below.
    intros j [<-|Hj]; [lia|]. specialize (H j Hj). lia.
  - assert (E : Nat.eqb k (k + S i) = false)
      by (apply Nat.eqb_neq; lia).
    rewrite E. cbn [orb].
    assert (IH' : unselected (S k) s (delete i l)
                  = unselected (S k) ((k + S i) :: s) l).
    { replace (k + S i) with (S k + i) by lia. apply IH.
      intros j Hj. specialize (H j Hj). lia. }
    rewrite IH'. reflexivity.
Qed.

Lemma delete_descending (s : list nat) :
  descending s ->
  forall l, fold_left (fun rows i => delete i rows) s l = unselected 0 s l.
Proof.
  induction s as [|i s IH]; intros Hd l; simpl.
  - symmetry. apply unselected_below. intros j [].
  - destruct Hd as [Hi Hd]. rewrite (IH Hd).
    apply (unselected_delete s l 0 i). exact Hi.
Qed.

Lemma remove_rows_lst (s : list nat) :
  forall a, lst_files (fold_left remove_row s a)
            = fold_left (fun rows i => delete i rows) s (lst_files a).
Proof.
  induction s as [|i s IH]; intro a; simpl; [reflexivity|].
  now rewrite IH.
Qed.

End GuiFacts.

(* ================================================================== *)
(** ** The window: what its buttons keep, add and remove *)

Module GuiTheorems.
Import Zip Fs Gui GuiFacts.

(** X20.  In every state the window reaches from its first one, whatever
    the buttons pressed and whatever their dialogs returned, the listbox
    shows the document list row for row, no document is listed twice, and
    every listed path ends with [.docx], letter case apart. *)
Theorem listbox_mirrors_documents
        (output_dir_default : string) (actions : list action) :
  in_step (fold_left act actions (init output_dir_default)).
Proof.
  apply fold_in_step; [intros; now apply act_in_step|].
  repeat split; constructor.
Qed.

(** X21.  [add_files] appends to the list and to the listbox the same
    paths, after what was there; a path is listed afterwards exactly when
    it was listed before, or is one of the chosen paths and ends with
    [.docx]; choosing the same paths again changes nothing. *)
Theorem add_files_accepts (paths : list string) (a : app) :
  (exists added,
      file_list (add_files paths a) = file_list a ++ added
      /\ lst_files (add_files paths a) = lst_files a ++ added)
  /\ (forall p,
         In p (file_list (add_files paths a)) <->
         In p (file_list a)
         \/ (In p paths /\ has_docx_extension p = true))
  /\ add_files paths (add_files paths a) = add_files paths a.
Proof.
  rewrite !add_files_fold.
  destruct (add_loop paths a) as [Hadd Hin].
  split; [exact Hadd|]. split; [exact Hin|].
  apply add_loop_noop. intros p Hp.
  destruct (has_docx_extension p) eqn:Ex; [left | now right].
  apply Hin. auto.
Qed.

(** X22.  [remove_selected] removes the rows at the selected positions
    and no other, from the listbox and from the document list: the
    positions are served from the last to the first, so that a deletion
    does not shift a position still to come. *)
Theorem selected_rows_removed (sel : list nat) (a : app) :
  in_step a -> NoDup sel ->
  lst_files (remove_selected sel a) = unselected 0 sel (lst_files a)
  /\ file_list (remove_selected sel a) = unselected 0 sel (file_list a).
Proof.
  intros Ha Hsel.
  assert (Hl : lst_files (remove_selected sel a)
               = unselected 0 sel (lst_files a)).
  { unfold remove_selected. rewrite remove_rows_lst.
    rewrite delete_descending by now apply sort_reverse_descending.
    apply unselected_ext. intro j. apply sort_reverse_In. }
  split; [exact Hl|].
  assert (Hr : in_step (remove_selected sel a)).
  { apply fold_in_step; [|exact Ha].
    intros; now apply remove_row_in_step. }
  destruct Hr as [Hr _]. destruct Ha as [Ha _].
  now rewrite <- Hr, Hl, Ha.
Qed.

Lemma selected_rows_removed_witness :
  file_list
    (remove_selected [0; 2]
       (App ["a.docx"; "b.docx"; "c.docx"] ["a.docx"; "b.docx"; "c.docx"]
            None "out" "out"))
  = ["b.docx"].
Proof.
  apply (selected_rows_removed [0; 2]
           (App ["a.docx"; "b.docx"; "c.docx"]
                ["a.docx"; "b.docx"; "c.docx"] None "out" "out")).
  - split; [reflexivity|]. split.
    + repeat constructor; simpl; intuition discriminate.
    + repeat constructor.
  - repeat constructor; simpl; intuition discriminate.
Defined.

End GuiTheorems.

(* ================================================================== *)
(** ** The batch run of the window: [start] *)

Module BatchTheorems.
Import Zip Fs Gui.

Section Start.

Variable fromstring : bytes -> option Xml.element.
Variable tostring : Xml.element -> bytes.
Variable strip : string -> string.
Variable templated : string -> string -> string.
Variable outdir_env : environment.
Variable env_of : nat -> environment.
Variable print_raises : nat -> bool.

#[local] Abbreviation batch_from :=
  (batch fromstring tostring templated env_of print_raises).

#[local] Abbreviation start_batch :=
  (start fromstring tostring strip templated outdir_env env_of
         print_raises).

(** The loop returns the two counts, or leaves with the exception of a
    [print] that raised. *)
Lemma batch_counts (tpl outdir : string) (srcs : list string) :
  forall i ok fail w,
    match batch_from i tpl outdir srcs ok fail w with
    | (Ok (ok', fail'), _) =>
        ok' + fail' = ok + fail + List.length srcs
    | (Raise e, _) =>
        e = UnicodeEncodeError
        /\ exists j, i <= j < i + List.length srcs
                     /\ print_raises j = true
    end.
Proof.
  induction srcs as [|src rest IH]; intros i ok fail w; cbn [batch].
  - unfold ret. simpl. lia.
  - destruct (apply_template_to_docx fromstring tostring (env_of i)
                src tpl (templated outdir src) w) as [[u|e] w1] eqn:Ea.
    + specialize (IH (S i) (S ok) fail w1).
      destruct (batch_from (S i) tpl outdir rest (S ok) fail w1)
        as [[[ok' fail']|e'] w2].
      * simpl. lia.
      * destruct IH as [-> (j & Hj & Hr)]. split; [reflexivity|].
        exists j. simpl. split; [lia | exact Hr].
    + destruct (print_raises i) eqn:Ep.
      * split; [reflexivity|]. exists i. simpl. split; [lia | exact Ep].
      * specialize (IH (S i) ok (S fail) w1).
        destruct (batch_from (S i) tpl outdir rest ok (S fail) w1)
          as [[[ok' fail']|e'] w2].
        -- simpl. lia.
        -- destruct IH as [-> (j & Hj & Hr)]. split; [reflexivity|].
           exists j. simpl. split; [lia | exact Hr].
Qed.

Lemma batch_trace (tpl outdir : string) (srcs : list string) :
  forall i ok fail w,
  exists evs,
    trace (snd (batch_from i tpl outdir srcs ok fail w)) = evs ++ trace w.
Proof.
  induction srcs as [|s srcs IH]; intros i ok fail w; cbn [batch].
  - now exists [].
  - destruct (FsMore.apply_trace fromstring tostring (env_of i)
                s tpl (templated outdir s) w) as [ev1 H1].
    destruct (apply_template_to_docx fromstring tostring (env_of i)
                s tpl (templated outdir s) w)
      as [[u|e] w2]; cbn [snd] in H1.
    + destruct (IH (S i) (S ok) fail w2) as [ev2 H2].
      exists (ev2 ++ ev1). now rewrite H2, H1, app_assoc.
    + destruct (print_raises i).
      * exists ev1. exact H1.
      * destruct (IH (S i) ok (S fail) w2) as [ev2 H2].
        exists (ev2 ++ ev1). now rewrite H2, H1, app_assoc.
Qed.

(** X23.  Without documents, or without a template, [start] does nothing:
    no call reaches the file system.  Otherwise it makes the output
    directory and runs the loop: an exception of a document is caught and
    counted, so that, when the directory can be made and no [print] in a
    handler raises, [start] returns even if every document fails; and
    whenever it returns, the numbers of documents done and failed add up
    to the number of documents. *)
Theorem start_counts_every_document (a : app) (w : world) :
  (file_list a = [] \/ template_path a = None
   \/ template_path a = Some "" ->
   start_batch a w = (Ok None, w))
  /\ (forall ok fail w',
         start_batch a w = (Ok (Some (ok, fail)), w') ->
         file_list a <> []
         /\ (exists tpl, template_path a = Some tpl /\ tpl <> "")
         /\ ok + fail = List.length (file_list a)
         /\ exists evs,
             trace w' = evs ++ EvMakedirs (outdir_of strip a) :: trace w)
  /\ (file_list a <> [] ->
      (exists tpl, template_path a = Some tpl /\ tpl <> "") ->
      fst (makedirs outdir_env (outdir_of strip a) w) = Ok tt ->
      (forall j, j < List.length (file_list a) ->
                 print_raises j = false) ->
      exists ok fail w',
        start_batch a w = (Ok (Some (ok, fail)), w')).
Proof.
  unfold start.
  destruct (file_list a) as [|src rest] eqn:El.
  { split; [reflexivity|]. split; [discriminate|]. intros H. congruence. }
  destruct (template_path a) as [tpl|].
  2:{ split; [reflexivity|]. split; [discriminate|].
      intros _ (t & H & _). discriminate. }
  destruct (String.eqb_spec tpl "") as [->|Hne].
  { split; [reflexivity|]. split; [discriminate|].
    intros _ (t & [= <-] & H). congruence. }
  split.
  { intros [H|[H|H]]; [discriminate | discriminate | congruence]. }
  unfold bindM at 1 3.
  destruct (makedirs outdir_env (outdir_of strip a) w) as [r1 w1] eqn:Em.
  pose proof Em as Em'. unfold makedirs, bindM, log in Em'.
  cbn [fs dirs trace] in Em'.
  destruct (makedirs_fails outdir_env || existsb _ _).
  { injection Em' as <- <-. split; [discriminate|].
    intros _ _ H. discriminate. }
  injection Em' as <- <-. unfold bindM, ret.
  pose proof (batch_counts tpl (outdir_of strip a) (src :: rest) 0 0 0
                {| fs := fs w;
                   dirs := fun q => dirs w q
                                    || Str.mem q (made (outdir_of strip a));
                   trace := EvMakedirs (outdir_of strip a) :: trace w |})
    as Hb.
  destruct (batch_trace tpl (outdir_of strip a) (src :: rest) 0 0 0
              {| fs := fs w;
                 dirs := fun q => dirs w q
                                  || Str.mem q (made (outdir_of strip a));
                 trace := EvMakedirs (outdir_of strip a) :: trace w |})
    as [evs Hevs].
  destruct (batch_from 0 tpl (outdir_of strip a) (src :: rest) 0 0 _)
    as [[[ok fail]|e] w2].
  - split.
    + intros ok' fail' w' [= <- <- <-].
      split; [discriminate|]. split; [eauto|].
      split; [exact Hb|]. exists evs. exact Hevs.
    + intros _ _ _ _. eauto.
  - destruct Hb as [-> (j & Hj & Hr)]. split; [discriminate|].
    intros _ _ _ Hp. rewrite Hp in Hr by lia. discriminate.
Qed.



End Start.

Lemma start_counts_every_document_witness :
  let a := App ["in.docx"; "missing.docx"] ["in.docx"; "missing.docx"]
               (Some "tpl.docx") "out" "" in
  exists ok fail w',
    start Demo.fromstring Demo.tostring (fun s => s)
          (fun outdir src => String.append outdir
                               (String.append "/done_" src))
          Demo.env_ok (fun _ => Demo.env_ok) (fun _ => false)
          a Demo.world
    = (Ok (Some (ok, fail)), w').
Proof.
  intro a.
  apply (start_counts_every_document Demo.fromstring Demo.tostring
           (fun s => s)
           (fun outdir src => String.append outdir
                                (String.append "/done_" src))
           Demo.env_ok (fun _ => Demo.env_ok) (fun _ => false)
           a Demo.world).
  - discriminate.
  - exists "tpl.docx". split; [reflexivity | discriminate].
  - reflexivity.
  - reflexivity.
Defined.


End BatchTheorems.
